(** * The RETE join node of FuXi: memories, partial instanciations, activation

    A shallow embedding of [fuxi/lib/Rete/BetaNode.py]: the hashed memories
    ([ReteMemory]), the sets of joined tokens with their derived variable
    substitutions ([PartialInstanciation]) and the two-input join node
    ([BetaNode]) with its activation and propagation.

    Conventions of the embedding.
    - Python values that may be [None] are [option]s; a dictionary from
      variables to terms is a [gmap term pyval], so that dictionary equality
      ([d not in bindings]) is Rocq equality.
    - A Python [Set] is a duplicate-free list in insertion order.  Python
      iterates a set or a dictionary in an order that depends on the hashes;
      the embedding fixes one order (insertion order for sets, the order of
      [map_to_list] for dictionaries), and the statements below are about
      membership wherever the order could be observed.
    - Exceptions are the [Raise] results of the [Result] monad; the join
      network is state passed through the monad [M].
    - [PartialInstanciation] objects are values.  The code changes an
      instanciation that exists already in one place, [addConsistentBinding]
      on the built-in path of [propagate]: there the changed value is the one
      that is activated afterwards, and what the memories hold already stays
      as it was stored.  A network [without_builtins] never gets there, and
      what is stated about the instanciations that the memories hold after a
      propagation is stated for such networks. *)

From stdpp Require Import gmap strings list fin_maps sorting.
From Stdlib Require Import ZArith Lia.

Local Open Scope Z_scope.

(** ** Terms and bindings *)

(** rdflib's [URIRef], [BNode], [Literal] and [Variable]. *)
Inductive term :=
  | URIRef (s : string)
  | BNode (s : string)
  | Literal (lexical : string) (datatype language : option string)
  | Var (s : string).

#[global] Instance term_eq_dec : EqDecision term.
Proof. solve_decision. Defined.

Definition term_code (t : term) :
    string + string + (string * option string * option string) + string :=
  match t with
  | URIRef s => inl (inl (inl s))
  | BNode s => inl (inl (inr s))
  | Literal s d l => inl (inr (s, d, l))
  | Var s => inr s
  end.

Definition term_of_code
    (c : string + string + (string * option string * option string) + string) : term :=
  match c with
  | inl (inl (inl s)) => URIRef s
  | inl (inl (inr s)) => BNode s
  | inl (inr (s, d, l)) => Literal s d l
  | inr s => Var s
  end.

#[global] Instance term_countable : Countable term.
Proof. refine (inj_countable' term_code term_of_code _). by intros []. Defined.

(** [isinstance(term, Variable)] and [isinstance(term, (Variable, BNode))]. *)
Definition isVariable (t : term) : bool :=
  match t with Var _ => true | _ => false end.

Definition isBNode (t : term) : bool :=
  match t with BNode _ => true | _ => false end.

Definition isVariableOrBNode (t : term) : bool := isVariable t || isBNode t.

(** rdflib terms are unicode strings: a term is false in a boolean context
    when its text is empty. *)
Definition term_text (t : term) : string :=
  match t with URIRef s | BNode s | Literal s _ _ | Var s => s end.

Definition term_truth (t : term) : bool :=
  match term_text t with EmptyString => false | _ => true end.

(** A Python value stored in a binding: a term or [None]. *)
Abbreviation pyval := (option term).

(** A dictionary of bindings. *)
Abbreviation pydict := (gmap term pyval).

(** [d.get(k)]: [None] for a missing key. *)
Definition dict_get (d : pydict) (k : term) : pyval := mjoin (d !! k).

(** [d.update(e)]: the entries of [e] win. *)
Definition dict_update (d e : pydict) : pydict := e ∪ d.

(** ** Exceptions *)

Inductive exn :=
  | AssertionError (msg : string)
  | TypeError
  | KeyError
  | NameError
  | AttributeError
  | OutOfFuel.

Inductive Result (A : Type) :=
  | Ok (a : A)
  | Raise (e : exn).
Arguments Ok {A} a.
Arguments Raise {A} e.

#[global] Instance exn_eq_dec : EqDecision exn.
Proof. solve_decision. Defined.

#[global] Instance Result_eq_dec {A : Type} `{EqDecision A} : EqDecision (Result A).
Proof. solve_decision. Defined.

#[global] Instance Result_ret : MRet Result := @Ok.
#[global] Instance Result_bind : MBind Result :=
  fun A B f r => match r with Ok a => f a | Raise e => Raise e end.
#[global] Instance Result_fmap : FMap Result :=
  fun A B f r => match r with Ok a => Ok (f a) | Raise e => Raise e end.

(** [d[k]]: [KeyError] for a missing key. *)
Definition dict_item (d : pydict) (k : term) : Result pyval :=
  match d !! k with Some v => Ok v | None => Raise KeyError end.

(** [assert b, msg] *)
Definition py_assert (b : bool) (msg : string) : Result unit :=
  if b then Ok tt else Raise (AssertionError msg).

(** A [for] loop whose body may raise. *)
Fixpoint foldM {A B : Type} (f : B → A → Result B) (l : list A) (b : B) : Result B :=
  match l with
  | [] => Ok b
  | x :: l' => b' ← f b x; foldM f l' b'
  end.

(** ** Sets with structural equality (sets of terms, of tokens) *)

(** [s.add(x)] *)
Definition set_add `{EqDecision A} (x : A) (s : list A) : list A :=
  if decide (x ∈ s) then s else s ++ [x].

(** [Set(l)] *)
Definition set_of_list `{EqDecision A} (l : list A) : list A :=
  foldl (fun s x => set_add x s) [] l.

(** [s | t] *)
Definition set_union `{EqDecision A} (s t : list A) : list A :=
  foldl (fun s x => set_add x s) s t.

(** ** Tokens *)

(** Modelled from the spec: [ReteToken] lives in [AlphaNode.py], which is not
    part of the sources at hand.  A token is a fact together with the
    binding obtained by matching it against a pattern, and two tokens are
    equal when fact and binding are. *)
Record ReteToken := {
  subject : term;
  predicate : term;
  object : term;
  bindingDict : pydict
}.

#[global] Instance ReteToken_eq_dec : EqDecision ReteToken.
Proof. solve_decision. Defined.

(** Modelled from the spec: [bindVariables] binds each variable of the
    pattern to the term of the fact at the same place. *)
Definition bindVariables (pattern fact : term * term * term) : ReteToken :=
  let '(ps, pp, po) := pattern in
  let '(s, p, o) := fact in
  let bind (pt ft : term) (d : pydict) : pydict :=
    if isVariable pt then <[pt := Some ft]> d else d in
  {| subject := s; predicate := p; object := o;
     bindingDict := bind po o (bind pp p (bind ps s ∅)) |}.

(** Python's [hash]: of a token ([ReteToken.__hash__]) and of the integer
    that [_generateHash] passes to [hash]. *)
Class PyHash := {
  hash_token : ReteToken → Z;
  hash_int : Z → Z
}.

(** ** Dictionaries whose iteration order is used

    [isolatedBindings] and [revIsolBindings] of [_generateBindings] map a key
    to a set and are only filled with [setdefault(k, Set()).add(v)] and then
    iterated: association lists, keys in order of first insertion. *)

(** [d.setdefault(k, Set()).add(v)] *)
Fixpoint setdefault_add {K V : Type} `{EqDecision K, EqDecision V}
    (k : K) (v : V) (d : list (K * list V)) : list (K * list V) :=
  match d with
  | [] => [(k, [v])]
  | (k', s) :: d' =>
      if decide (k = k') then (k', set_add v s) :: d'
      else (k', s) :: setdefault_add k v d'
  end.

(** [d[k]] *)
Fixpoint alist_item {K V : Type} `{EqDecision K}
    (d : list (K * V)) (k : K) : Result V :=
  match d with
  | [] => Raise KeyError
  | (k', v) :: d' => if decide (k = k') then Ok v else alist_item d' k
  end.

(** [dict(pairs)]: a later pair replaces an earlier one with the same key. *)
Definition dict_of_pairs (l : list (term * pyval)) : pydict :=
  foldl (fun d p => <[p.1 := p.2]> d) ∅ l.

(** Modelled from the spec: [xcombine] comes from [Util.py], which is not part
    of the sources at hand; it yields the cross product of its argument
    sequences, one element of each per combination. *)
Fixpoint xcombine {A : Type} (seqin : list (list A)) : list (list A) :=
  match seqin with
  | [] => [[]]
  | s :: rest => item ← s; comb ← xcombine rest; [item :: comb]
  end.

(** [reduce(f, l)] without an initial value. *)
Definition reduce {A : Type} (f : A → A → A) (l : list A) : Result A :=
  match l with
  | [] => Raise TypeError
  | x :: l' => Ok (foldl f x l')
  end.

(** ** Iterables handed to [newJoin]

    [newJoin] receives its [newJoinVariables] either as a list (its
    docstring) or as an [ifilter] object ([propagate]).  An [ifilter] object
    is true in a boolean context whatever it still holds, a membership test
    consumes it up to and including the element found, and iterating it
    leaves it empty. *)
Inductive pyiterable :=
  | PyList (l : list term)
  | PyIFilter (rest : list term).

Definition iterable_truth (it : pyiterable) : bool :=
  match it with
  | PyList l => bool_decide (l ≠ [])
  | PyIFilter _ => true
  end.

(** the elements after the first occurrence of [k], if there is one *)
Fixpoint consume_until (k : term) (l : list term) : option (list term) :=
  match l with
  | [] => None
  | x :: l' => if decide (x = k) then Some l' else consume_until k l'
  end.

(** [k in it] *)
Definition iterable_contains (k : term) (it : pyiterable) : bool * pyiterable :=
  match it with
  | PyList l => (bool_decide (k ∈ l), it)
  | PyIFilter rest =>
      match consume_until k rest with
      | Some rest' => (true, PyIFilter rest')
      | None => (false, PyIFilter [])
      end
  end.

(** [for x in it] run to its end *)
Definition iterable_elements (it : pyiterable) : list term * pyiterable :=
  match it with
  | PyList l => (l, it)
  | PyIFilter rest => (rest, PyIFilter [])
  end.

(** [project(orig_dict, attributes)], with [inverse] left at [False]:
    [dict([item for item in orig_dict.items() if item[0] in attributes])] *)
Definition project (orig_dict : pydict) (attributes : pyiterable) : pydict * pyiterable :=
  foldl (fun '(d, it) (item : term * pyval) =>
           let '(b, it') := iterable_contains item.1 it in
           (if b then <[item.1 := item.2]> d else d, it'))
        (∅, attributes) (map_to_list orig_dict).

(** ** PartialInstanciation *)

(** The attributes of a [PartialInstanciation] that the code reads; [hash] is
    [None] until [_generateHash] has run. *)
Record PartialInstanciation := {
  joinedBindings : pydict;
  tokens : list ReteToken;
  bindings : list pydict;
  hash : option Z
}.

#[global] Instance PartialInstanciation_eq_dec : EqDecision PartialInstanciation.
Proof. solve_decision. Defined.

(** [d.keys()], [d.values()] *)
Definition dict_keys (d : pydict) : list term := (map_to_list d).*1.
Definition dict_values (d : pydict) : list pyval := (map_to_list d).*2.

Section PartialInstanciation.
Context `{PyHash}.

(** [_generateHash]: the hash of the sum of the sorted token hashes. *)
Definition _generateHash (tokens : list ReteToken) : Result Z :=
  let tokenHashes := hash_token <$> tokens in
  let tokenHashes := merge_sort Z.le tokenHashes in
  total ← reduce Z.add tokenHashes;
  Ok (hash_int total).

(** [unify]: one dictionary ([inl]) when the two have no free key in
    common, otherwise the two dictionaries, each completed with the keys
    only the other has ([inr]). *)
Definition unify (joinedBindings left right : pydict) : pydict + pydict * pydict :=
  let bothKeys :=
    filter (fun key => joinedBindings !! key = None)
           (dict_keys left ++ dict_keys right) in
  if bool_decide (length bothKeys = length (set_of_list bothKeys)) then
    let joinDict := dict_update left right in
    inl joinDict
  else
    let rCopy := right in
    let left :=
      dict_update left
        (project rCopy
           (PyList (filter (fun key => left !! key = None) (dict_keys right)))).1 in
    let lCopy := left in
    let right :=
      dict_update right
        (project lCopy
           (PyList (filter (fun key => right !! key = None) (dict_keys left)))).1 in
    inr (left, right).

(** [collapse], the function folded over [bindings]: the accumulator is
    always a list and the element always a dictionary, which leaves the
    three cases below. *)
Definition collapse (joinedBindings : pydict)
    (left : list pydict) (right : pydict) : list pydict :=
  match left with
  | [] => [right]
  | [l0] =>
      match unify joinedBindings l0 right with
      | inl u => [u]
      | inr (l, r) => [l; r]
      end
  | _ => left ++ [right]
  end.

(** The inner loop of [_generateBindings], over the keys of a token that
    are not in [joinedBindings]: the loop variable [var], which Python keeps
    after the loop, [newDict] and [noIterations]. *)
Definition generateBindings_keys (joinedBindings : pydict) (var : option term)
    (token : ReteToken) : option term * pydict * nat :=
  foldl (fun '(var, newDict, noIterations) (item : term * pyval) =>
           let var := item.1 in
           (Some var, <[var := item.2]> newDict, S noIterations))
        (var, (∅ : pydict), 0%nat)
        (filter (fun item => joinedBindings !! item.1 = None)
                (map_to_list (bindingDict token))).

(** The body of [for token in self.tokens] in [_generateBindings].  The
    state is [var], [isolatedBindings] and [forcedBindings]. *)
Definition generateBindings_token (joinedBindings : pydict)
    (st : option term * list (term * list pyval) * list pydict)
    (token : ReteToken)
    : Result (option term * list (term * list pyval) * list pydict) :=
  let '(var, isolatedBindings, forcedBindings) := st in
  let '(var, newDict, noIterations) :=
    generateBindings_keys joinedBindings var token in
  if bool_decide (noIterations = 1%nat) then
    match var with
    | Some v =>
        val ← dict_item (bindingDict token) v;
        Ok (var, setdefault_add v val isolatedBindings, forcedBindings)
    | None => Raise NameError
    end
  else if bool_decide (1 < noIterations)%nat then
    Ok (var, isolatedBindings, forcedBindings ++ [newDict])
  else Ok (var, isolatedBindings, forcedBindings).

(** [revIsolBindings]: every value of [isolatedBindings] is filed under
    [var], the variable left over from the loop over the tokens. *)
Definition generateBindings_rev (var : option term)
    (isolatedBindings : list (term * list pyval))
    : Result (list (pyval * list term)) :=
  foldM (fun revIsolBindings vals =>
           foldM (fun revIsolBindings val =>
                    match var with
                    | Some v => Ok (setdefault_add val v revIsolBindings)
                    | None => Raise NameError
                    end)
                 vals revIsolBindings)
        isolatedBindings.*2 [].

(** The body of [for i in xcombine(...)]. *)
Definition generateBindings_isolated (joinedBindings : pydict)
    (revIsolBindings : list (pyval * list term))
    (bindings : list pydict) (i : list (term * pyval)) : Result (list pydict) :=
  let isolatedDict := dict_of_pairs i in
  foldM (fun bindings val =>
           keysForVal ← alist_item revIsolBindings val;
           if bool_decide (length keysForVal ≤ 1)%nat then
             let newDict := dict_update isolatedDict joinedBindings in
             Ok (if decide (newDict ∈ bindings) then bindings
                 else bindings ++ [newDict])
           else Ok bindings)
        (dict_values isolatedDict) bindings.

(** [_generateBindings] for a number of tokens other than one. *)
Definition generateBindings_many (joinedBindings : pydict)
    (tokens : list ReteToken) : Result (list pydict) :=
  '(var, isolatedBindings, forcedBindings) ←
    foldM (generateBindings_token joinedBindings) tokens (None, [], []);
  revIsolBindings ← generateBindings_rev var isolatedBindings;
  bindings ←
    (if bool_decide (isolatedBindings ≠ []) then
       foldM (generateBindings_isolated joinedBindings revIsolBindings)
             (xcombine
                ((fun kv : term * list pyval =>
                    (fun val : pyval => (kv.1, val)) <$> kv.2)
                   <$> isolatedBindings))
             []
     else Ok []);
  let bindings :=
    foldl (fun bindings forcedBinding =>
             let newDict := dict_update forcedBinding joinedBindings in
             if decide (newDict ∈ bindings) then bindings
             else bindings ++ [newDict])
          bindings forcedBindings in
  let bindings := foldl (collapse joinedBindings) [] bindings in
  Ok (if bool_decide (bindings = []) then [joinedBindings] else bindings).

Definition _generateBindings (joinedBindings : pydict)
    (tokens : list ReteToken) : Result (list pydict) :=
  match tokens with
  | [token] => Ok [bindingDict token]
  | _ => generateBindings_many joinedBindings tokens
  end.

(** [add(token, noPostProcessing)] *)
Definition PartialInstanciation_add (self : PartialInstanciation)
    (token : ReteToken) (noPostProcessing : bool) : Result PartialInstanciation :=
  let tokens := set_add token (tokens self) in
  if noPostProcessing then
    Ok {| joinedBindings := joinedBindings self; tokens := tokens;
          bindings := bindings self; hash := hash self |}
  else
    h ← _generateHash tokens;
    bs ← _generateBindings (joinedBindings self) tokens;
    Ok {| joinedBindings := joinedBindings self; tokens := tokens;
          bindings := bs; hash := Some h |}.

(** [PartialInstanciation(tokens, consistentBindings = ...)]; an absent or
    empty [consistentBindings] gives the empty dictionary. *)
Definition PartialInstanciation_init (tokens0 : list ReteToken)
    (consistentBindings : pydict) : Result PartialInstanciation :=
  let self := {| joinedBindings := consistentBindings; tokens := [];
                 bindings := []; hash := None |} in
  if bool_decide (tokens0 ≠ []) then
    self ← foldM (fun self token => PartialInstanciation_add self token true)
                 tokens0 self;
    h ← _generateHash (tokens self);
    bs ← _generateBindings (joinedBindings self) (tokens self);
    Ok {| joinedBindings := joinedBindings self; tokens := tokens self;
          bindings := bs; hash := Some h |}
  else Ok self.

(** [__hash__]: the attribute [hash], which must have been set. *)
Definition PartialInstanciation_hash (self : PartialInstanciation) : Result Z :=
  match hash self with
  | Some h => Ok h
  | None => Raise AttributeError
  end.

(** [__eq__]: [hash(self) == hash(other)]. *)
Definition PartialInstanciation_eq (self other : PartialInstanciation) : Result bool :=
  h1 ← PartialInstanciation_hash self;
  h2 ← PartialInstanciation_hash other;
  Ok (bool_decide (h1 = h2)).

(** [addConsistentBinding] *)
Definition addConsistentBinding (self : PartialInstanciation)
    (newJoinVariables : list term) : Result PartialInstanciation :=
  let newJoinDict : pydict := dict_of_pairs ((fun v => (v, None)) <$> newJoinVariables) in
  let newJoinDict :=
    foldl (fun newJoinDict binding =>
             foldl (fun (newJoinDict : pydict) '(key, val) =>
                      match dict_get binding key, val with
                      | Some boundVal, None => <[key := Some boundVal]> newJoinDict
                      | _, _ => newJoinDict
                      end)
                   newJoinDict (map_to_list newJoinDict))
          newJoinDict (bindings self) in
  let joined := dict_update (joinedBindings self) newJoinDict in
  bs ← _generateBindings joined (tokens self);
  Ok {| joinedBindings := joined; tokens := tokens self;
        bindings := bs; hash := hash self |}.

(** The filter of the inner loop of [newJoin]:
    [x in token.bindingDict and rightWME.bindingDict[x] == token.bindingDict[x]] *)
Definition newJoin_consistent (rightWME token : ReteToken) (x : term) : Result bool :=
  match bindingDict token !! x with
  | None => Ok false
  | Some tv => wv ← dict_item (bindingDict rightWME) x; Ok (bool_decide (wv = tv))
  end.

(** The body of [for token in self.tokens] in [newJoin], first branch. *)
Definition newJoin_token (rightWME : ReteToken)
    (st : PartialInstanciation * pyiterable) (token : ReteToken)
    : Result (PartialInstanciation * pyiterable) :=
  let '(newPInst, newJoinVariables) := st in
  let commonVars := false in
  let '(vars, newJoinVariables) := iterable_elements newJoinVariables in
  '(commonVars, newPInst) ←
    foldM (fun '(commonVars, newPInst) newVar =>
             ok ← newJoin_consistent rightWME token newVar;
             if ok : bool then
               newPInst ← PartialInstanciation_add newPInst token true;
               Ok (true, newPInst)
             else Ok (commonVars, newPInst))
          vars (commonVars, newPInst);
  newPInst ← (if commonVars : bool then Ok newPInst
              else PartialInstanciation_add newPInst token true);
  Ok (newPInst, newJoinVariables).

(** [newJoin(rightWME, newJoinVariables)] up to its last statement: the new
    instanciation with the tokens of [self] that were taken over. *)
Definition newJoin_collect (self : PartialInstanciation) (rightWME : ReteToken)
    (newJoinVariables : pyiterable) : Result PartialInstanciation :=
  let newJoinDict := joinedBindings self in
  if iterable_truth newJoinVariables then
    let '(projected, newJoinVariables) :=
      project (bindingDict rightWME) newJoinVariables in
    let newJoinDict := dict_update newJoinDict projected in
    newPInst ← PartialInstanciation_init [] newJoinDict;
    fst <$> foldM (newJoin_token rightWME) (tokens self) (newPInst, newJoinVariables)
  else
    newPInst ← PartialInstanciation_init [] newJoinDict;
    foldM (fun newPInst token => PartialInstanciation_add newPInst token true)
          (tokens self) newPInst.

(** [newJoin(rightWME, newJoinVariables)] *)
Definition newJoin (self : PartialInstanciation) (rightWME : ReteToken)
    (newJoinVariables : pyiterable) : Result PartialInstanciation :=
  newPInst ← newJoin_collect self rightWME newJoinVariables;
  PartialInstanciation_add newPInst rightWME false.

End PartialInstanciation.

(** ** ReteMemory *)

Inductive position := LEFT_MEMORY | RIGHT_MEMORY.

#[global] Instance position_eq_dec : EqDecision position.
Proof. solve_decision. Defined.

(** The attributes of an [N3Builtin] ([RuleStore.py]) that [propagate] reads. *)
Record N3Builtin := {
  argument : term;
  result : term;
  func : term → term → bool
}.

(** What a memory holds: tokens and partial instanciations. *)
Inductive item :=
  | ItemToken (t : ReteToken)
  | ItemPInst (p : PartialInstanciation).

(** A [ReteMemory] is a [Set] ([mem_items]) with the attributes [filter],
    [position] and [substitutionDict]; its [successor] is the node that owns
    it.  The keys of [substitutionDict] are tuples of values. *)
Record ReteMemory := {
  mem_filter : option N3Builtin;
  mem_position : position;
  substitutionDict : gmap (list pyval) (list item);
  mem_items : list item
}.

Section ReteMemory.
Context `{PyHash}.

(** [hash(x)] for an element of a set. *)
Definition item_hash (x : item) : Result Z :=
  match x with
  | ItemToken t => Ok (hash_token t)
  | ItemPInst p => PartialInstanciation_hash p
  end.

(** What a set compares when it looks for [x]: tokens by fact and binding;
    as soon as a partial instanciation is involved, its [__eq__] answers,
    and the two are equal when their hashes are. *)
Definition item_equal (stored x : item) : bool :=
  match stored, x with
  | ItemToken a, ItemToken b => bool_decide (a = b)
  | _, _ =>
      match item_hash stored, item_hash x with
      | Ok h1, Ok h2 => bool_decide (h1 = h2)
      | _, _ => false
      end
  end.

(** [x in s] *)
Definition pyset_mem (x : item) (s : list item) : bool :=
  existsb (fun stored => item_equal stored x) s.

(** [s.add(x)]: hashes [x], and keeps the element that is already there. *)
Definition pyset_insert (x : item) (s : list item) : list item :=
  if pyset_mem x s then s else s ++ [x].

Definition pyset_add (x : item) (s : list item) : Result (list item) :=
  _ ← item_hash x;
  Ok (pyset_insert x s).

(** [s | t] *)
Definition pyset_union (s t : list item) : Result (list item) :=
  foldM (fun s x => pyset_add x s) t s.

(** [ReteMemory(betaNode, position, filter)] *)
Definition ReteMemory_init (position : position) (filter : option N3Builtin)
    : ReteMemory :=
  {| mem_filter := filter; mem_position := position;
     substitutionDict := ∅; mem_items := [] |}.

(** [substitutionDict.setdefault(tuple(commonVarKey), Set()).add(token)] *)
Definition substitution_add (commonVarKey : list pyval) (token : item)
    (dict : gmap (list pyval) (list item)) : Result (gmap (list pyval) (list item)) :=
  bucket ← pyset_add token (default [] (dict !! commonVarKey));
  Ok (<[commonVarKey := bucket]> dict).

(** The keys under which [addToken] files an item: one for a token, one
    for each binding of a partial instanciation. *)
Definition commonVarKeys (commonVariables : list term) (token : item)
    : list (list pyval) :=
  match token with
  | ItemPInst p =>
      (fun binding => dict_get binding <$> commonVariables) <$> bindings p
  | ItemToken t => [dict_get (bindingDict t) <$> commonVariables]
  end.

(** [addToken(token)]; [commonVariables] is [self.successor.commonVariables]. *)
Definition addToken (commonVariables : list term) (self : ReteMemory)
    (token : item) : Result ReteMemory :=
  dict ← foldM (fun dict commonVarKey => substitution_add commonVarKey token dict)
               (commonVarKeys commonVariables token) (substitutionDict self);
  items ← pyset_add token (mem_items self);
  Ok {| mem_filter := mem_filter self; mem_position := mem_position self;
        substitutionDict := dict; mem_items := items |}.

(** [self.substitutionDict.get(key, Set())], the lookup of [propagate]. *)
Definition substitution_get (self : ReteMemory) (key : list pyval) : list item :=
  default [] (substitutionDict self !! key).

(** [reset()] *)
Definition reset (self : ReteMemory) : ReteMemory :=
  {| mem_filter := mem_filter self; mem_position := mem_position self;
     substitutionDict := ∅; mem_items := [] |}.

End ReteMemory.

(** ** BetaNode *)

(** The attributes of a [BetaNode] that the code reads.  A descendent memory
    is named by the node that owns it and its position. *)
Record BetaNode := {
  aPassThru : bool;
  consequent : list (term * term * term);
  fedByBuiltin : option position;
  leftVariables : list term;
  rightVariables : list term;
  commonVariables : list term;
  memories : position → ReteMemory;
  descendentMemory : list (nat * position)
}.

(** What can be given to [BetaNode(leftNode, rightNode)] as an input node. *)
Inductive pynode :=
  | PyNone
  | ABuiltInAlphaNode (n3builtin : N3Builtin)
  | AnAlphaNode (triplePattern : term * term * term)
  | ABetaNode (node : BetaNode).

Definition isBuiltInAlphaNode (node : pynode) : bool :=
  match node with ABuiltInAlphaNode _ => true | _ => false end.

(** the terms of a triple, in order *)
Definition triple_terms (triple : term * term * term) : list term :=
  let '(s, p, o) := triple in [s; p; o].

(** [collectVariables(node)] *)
Definition collectVariables (node : pynode) : list term :=
  match node with
  | ABuiltInAlphaNode _ => []
  | AnAlphaNode triplePattern =>
      set_of_list (filter (fun term => isVariableOrBNode term = true)
                          (triple_terms triplePattern))
  | ABetaNode node =>
      let combinedVars := [] in
      let combinedVars := set_union combinedVars (leftVariables node) in
      let combinedVars := set_union combinedVars (rightVariables node) in
      combinedVars
  | PyNone => []
  end.

Definition both_builtins : string := "Both %s and %s are builtins feeding a beta node!".
Definition no_builtins : string :=
  "No support for 'built-ins', function symbols, or non-equality tests".

(** [BetaNode(leftNode, rightNode, aPassThru)].  The memory made for a
    built-in on the left is requested with one argument, a tuple, where
    [ReteMemory] needs two: a [TypeError]. *)
Definition BetaNode_init (leftNode rightNode : pynode) (aPassThru : bool)
    : Result BetaNode :=
  let fedByBuiltin : option position := None in
  '(fedByBuiltin, right_memory) ←
    (if isBuiltInAlphaNode leftNode then
       let fedByBuiltin := Some LEFT_MEMORY in
       py_assert (negb (isBuiltInAlphaNode rightNode)) both_builtins;;
       (Raise TypeError : Result (option position * ReteMemory))
     else Ok (fedByBuiltin, ReteMemory_init RIGHT_MEMORY None));
  py_assert (bool_decide (fedByBuiltin = None)) no_builtins;;
  '(fedByBuiltin, left_memory) ←
    match rightNode with
    | ABuiltInAlphaNode n3builtin =>
        let fedByBuiltin := Some RIGHT_MEMORY in
        py_assert (negb (isBuiltInAlphaNode leftNode)) both_builtins;;
        Ok (fedByBuiltin, ReteMemory_init LEFT_MEMORY (Some n3builtin))
    | _ => Ok (fedByBuiltin, ReteMemory_init LEFT_MEMORY None)
    end;
  let '(leftVariables, rightVariables, commonVariables) :=
    if aPassThru then
      match rightNode with
      | PyNone => ([], [], [])
      | _ => let rightVariables := collectVariables rightNode in
             ([], rightVariables, rightVariables)
      end
    else
      let leftVariables := collectVariables leftNode in
      let rightVariables := collectVariables rightNode in
      (leftVariables, rightVariables,
       filter (fun leftVar => leftVar ∈ rightVariables) leftVariables) in
  Ok {| aPassThru := aPassThru; consequent := []; fedByBuiltin := fedByBuiltin;
        leftVariables := leftVariables; rightVariables := rightVariables;
        commonVariables := commonVariables;
        memories := fun pos => match pos with
                               | LEFT_MEMORY => left_memory
                               | RIGHT_MEMORY => right_memory
                               end;
        descendentMemory := [] |}.

(** ** The network as state

    The nodes live in an arena and are named by their index; the network
    that receives the fired consequents is the [NetworkStub] of the
    docstring of [BetaNode]: a counter of firings and the conflict set. *)

Record Network := {
  firings : nat;
  conflictSet : list item
}.

Record state := {
  nodes : gmap nat BetaNode;
  network : Network
}.

Definition M (A : Type) : Type := state → Result (A * state).

#[global] Instance M_ret : MRet M := fun A a st => Ok (a, st).
#[global] Instance M_bind : MBind M :=
  fun A B f m st => match m st with Ok (a, st') => f a st' | Raise e => Raise e end.

(** a computation that reads or changes nothing *)
Definition lift {A : Type} (r : Result A) : M A :=
  fun st => match r with Ok a => Ok (a, st) | Raise e => Raise e end.

(** A [for] loop over [l] in the network. *)
Fixpoint forM {A : Type} (l : list A) (body : A → M unit) : M unit :=
  match l with
  | [] => mret tt
  | x :: l' => body x;; forM l' body
  end.

(** The node behind a name; a name without a node does not occur in a
    network built with [BetaNode] and [connectIncomingNodes]. *)
Definition get_node (name : nat) : M BetaNode :=
  fun st => match nodes st !! name with
            | Some node => Ok (node, st)
            | None => Raise AttributeError
            end.

Definition opposite (memoryPosition : position) : position :=
  match memoryPosition with
  | LEFT_MEMORY => RIGHT_MEMORY
  | RIGHT_MEMORY => LEFT_MEMORY
  end.

(** [_oppositeMemory] *)
Definition _oppositeMemory (self : BetaNode) (memoryPosition : position) : position :=
  opposite memoryPosition.

(** [checkNullActivation(source)]:
    [not self.fedByBuiltin and not oppositeMem] *)
Definition checkNullActivation (self : BetaNode) (source : position) : bool :=
  let oppositeMem := memories self (_oppositeMemory self source) in
  bool_decide (fedByBuiltin self = None) && bool_decide (mem_items oppositeMem = []).

Definition set_memory (node : BetaNode) (pos : position) (m : ReteMemory) : BetaNode :=
  {| aPassThru := aPassThru node; consequent := consequent node;
     fedByBuiltin := fedByBuiltin node;
     leftVariables := leftVariables node; rightVariables := rightVariables node;
     commonVariables := commonVariables node;
     memories := fun q => if decide (q = pos) then m else memories node q;
     descendentMemory := descendentMemory node |}.

(** [for token in iterable: if isinstance(token, PartialInstanciation): ...] *)
Definition _unrollTokens (iterable : list item) : list ReteToken :=
  iterable ≫= fun token =>
    match token with
    | ItemPInst p => tokens p
    | ItemToken t => [t]
    end.

(** [any(seq, pred)] on an iterator [seq]: the answer and what is left of it. *)
Fixpoint any_consume (pred : term → bool) (seq : list term) : bool * list term :=
  match seq with
  | [] => (false, [])
  | elem :: seq' => if pred elem then (true, seq') else any_consume pred seq'
  end.

Section BetaNode.
Context `{PyHash}.

(** [memory.addToken(token)] for the memory at [pos] of the node [name]. *)
Definition memory_addToken (name : nat) (pos : position) (token : item) : M unit :=
  fun st =>
    match nodes st !! name with
    | Some node =>
        match addToken (commonVariables node) (memories node pos) token with
        | Ok m =>
            Ok (tt, {| nodes := <[name := set_memory node pos m]> (nodes st);
                       network := network st |})
        | Raise e => Raise e
        end
    | None => Raise AttributeError
    end.

(** [self.network.fireConsequent(tokens, self, debug)] of the stub. *)
Definition fireConsequent (tokens : PartialInstanciation) (termNode : nat) : M unit :=
  fun st =>
    match pyset_add (ItemPInst tokens) (conflictSet (network st)) with
    | Ok cs =>
        Ok (tt, {| nodes := nodes st;
                   network := {| firings := S (firings (network st));
                                 conflictSet := cs |} |})
    | Raise e => Raise e
    end.

Section activation.
(** [propagate] of the descendants, one level further down. *)
Variable propagate :
  nat → option position → option PartialInstanciation → option ReteToken → M unit.

(** The body of [for memory in self.descendentMemory] in [_activate]. *)
Definition activate_memory (partInstOrList : PartialInstanciation)
    (memory : nat * position) : M unit :=
  let '(successor, position) := memory in
  memory_addToken successor position (ItemPInst partInstOrList);;
  node ← get_node successor;
  if aPassThru node || negb (checkNullActivation node position) then
    match position with
    | LEFT_MEMORY => propagate successor (Some position) (Some partInstOrList) None
    | RIGHT_MEMORY => propagate successor None (Some partInstOrList) None
    end
  else mret tt.

(** [_activate(partInstOrList)]; [unlinkedMemory] is only set under
    [LEFT_UNLINKING], which is [False]. *)
Definition _activate (self : nat) (partInstOrList : PartialInstanciation) : M unit :=
  node ← get_node self;
  forM (descendentMemory node) (activate_memory partInstOrList);;
  if bool_decide (consequent node ≠ []) then fireConsequent partInstOrList self
  else mret tt.
End activation.

(** [PartialInstanciation([wme], consistentBindings = wme.bindingDict.copy())] *)
Definition singleToken (wme : ReteToken) : Result PartialInstanciation :=
  PartialInstanciation_init [wme] (bindingDict wme).

(** [ifilter(lambda x: x not in partialInst.joinedBindings, self.commonVariables)] *)
Definition unjoinedVariables (self : BetaNode) (partialInst : PartialInstanciation)
    : pyiterable :=
  PyIFilter (filter (fun x => joinedBindings partialInst !! x = None)
                    (commonVariables self)).

(** [isinstance(t, Variable) and binding[t] or t] *)
Definition builtin_operand (binding : pydict) (t : term) : Result term :=
  if isVariable t then
    v ← dict_item binding t;
    Ok (match v with
        | Some bound => if term_truth bound then bound else t
        | None => t
        end)
  else Ok t.

(** Left activation of a node fed by a built-in: [matches].
    [partialInst.addConsistentBinding(...)] changes the instanciation it is
    called on, and it is the changed instanciation that goes into [matches]
    and is activated below.  In the code that object is also the one which
    [_activate] has put into the memories, and its [joinedBindings] may be a
    dictionary that other instanciations share; the memories here hold
    values, so that what was stored before keeps the bindings it was stored
    with.  The two agree on networks [without_builtins], where this branch is
    not taken; what is stated about the instanciations that the memories
    hold after a propagation is stated for those. *)
Definition left_matches_builtin (self : BetaNode) (source : position)
    (partialInst : PartialInstanciation)
    : Result (list item) :=
  match mem_filter (memories self (_oppositeMemory self source)) with
  | None => Raise AttributeError
  | Some filter =>
      let newConsistentBindings :=
        List.filter (fun term => isVariable term &&
                                 bool_decide (joinedBindings partialInst !! term = None))
                    [argument filter; result filter] in
      partialInst ← addConsistentBinding partialInst newConsistentBindings;
      foldM (fun matches binding =>
               lhs ← builtin_operand binding (argument filter);
               rhs ← builtin_operand binding (result filter);
               if func filter lhs rhs then pyset_add (ItemPInst partialInst) matches
               else Ok matches)
            (bindings partialInst) []
  end.

(** Joining with a partial instanciation found in the right memory. *)
Definition left_join_instanciation (self : BetaNode)
    (partialInst rightWME : PartialInstanciation) (commonDict : pydict)
    (matches : list item) : Result (list item) :=
  let joinedTokens := set_union (tokens partialInst) (tokens rightWME) in
  if bool_decide (consequent self ≠ []) then
    let consVars :=
      match last (consequent self) with
      | Some consequent => List.filter isVariable (triple_terms consequent)
      | None => []
      end in
    let failed := true in
    probe ← PartialInstanciation_init joinedTokens commonDict;
    let '(failed, consVars) :=
      foldl (fun '(failed, consVars) (binding : pydict) =>
               let '(missing, consVars) :=
                 any_consume (fun x => bool_decide (binding !! x = None)) consVars in
               if missing : bool then (failed, consVars) else (false, consVars))
            (failed, consVars) (bindings probe) in
    if failed : bool then Ok matches
    else
      newP ← PartialInstanciation_init joinedTokens commonDict;
      pyset_add (ItemPInst newP) matches
  else
    newP ← PartialInstanciation_init joinedTokens commonDict;
    pyset_add (ItemPInst newP) matches.

(** Left activation of a node that no built-in feeds: [matches]. *)
Definition left_matches (self : BetaNode) (partialInst : PartialInstanciation)
    : Result (list item) :=
  foldM (fun matches (binding : pydict) =>
           let bound := List.filter (fun var => bool_decide (binding !! var ≠ None))
                                    (commonVariables self) in
           let commonDictKV := (fun var => (var, dict_get binding var)) <$> bound in
           let substitutedTerm := dict_get binding <$> bound in
           let rWMEs := substitution_get (memories self RIGHT_MEMORY) substitutedTerm in
           let commonDict := dict_of_pairs commonDictKV in
           foldM (fun matches rightWME =>
                    match rightWME with
                    | ItemToken rightWME =>
                        newP ← newJoin partialInst rightWME
                                 (unjoinedVariables self partialInst);
                        pyset_add (ItemPInst newP) matches
                    | ItemPInst rightWME =>
                        left_join_instanciation self partialInst rightWME
                                                commonDict matches
                    end)
                 rWMEs matches)
        (bindings partialInst) [].

(** Right activation: [matches]. *)
Definition right_matches (self : BetaNode) (wme : ReteToken) : Result (list item) :=
  key ← mapM (dict_item (bindingDict wme)) (commonVariables self);
  match substitutionDict (memories self LEFT_MEMORY) !! key with
  | None => Ok []
  | Some lPartInsts =>
      foldM (fun matches partialInst =>
               match partialInst with
               | ItemToken partialInst =>
                   singleToken ← singleToken partialInst;
                   pyset_add (ItemPInst singleToken) matches
               | ItemPInst partialInst =>
                   newP ← newJoin partialInst wme (unjoinedVariables self partialInst);
                   pyset_add (ItemPInst newP) matches
               end)
            lPartInsts []
  end.

(** Right activation with [wme = None]: [wme.bindingDict] is read for each
    common variable, and by [newJoin] for an instanciation of the left
    memory; a token of the left memory is turned into an instanciation
    without it. *)
Definition right_matches_no_wme (self : BetaNode) : Result (list item) :=
  match commonVariables self with
  | _ :: _ => Raise AttributeError
  | [] =>
      match substitutionDict (memories self LEFT_MEMORY) !! [] with
      | None => Ok []
      | Some lPartInsts =>
          foldM (fun matches partialInst =>
                   match partialInst with
                   | ItemToken partialInst =>
                       singleToken ← singleToken partialInst;
                       pyset_add (ItemPInst singleToken) matches
                   | ItemPInst partialInst => Raise AttributeError
                   end)
                lPartInsts []
      end
  end.

(** [for pInst in matches: self._activate(pInst, debug)] *)
Definition activate_matches (activate : nat → PartialInstanciation → M unit)
    (self : nat) (matches : list item) : M unit :=
  forM matches (fun pInst =>
    match pInst with
    | ItemPInst pInst => activate self pInst
    | ItemToken _ => mret tt
    end).

(** A beta node activated by another beta node: the body of
    [for binding in partialInst.bindings]. *)
Definition signal_binding (activate : nat → PartialInstanciation → M unit)
    (self : nat) (binding : pydict) : M unit :=
  node ← get_node self;
  commonVals ← lift (mapM (dict_item binding) (commonVariables node));
  let lTokens := substitution_get (memories node RIGHT_MEMORY) commonVals in
  let rTokens := substitution_get (memories node LEFT_MEMORY) commonVals in
  both ← lift (pyset_union rTokens lTokens);
  let joinedTokens := set_of_list (_unrollTokens both) in
  if bool_decide (joinedTokens ≠ []) then
    let commonDict :=
      dict_of_pairs
        ((fun var =>
            (var, mjoin (i ← fst <$> list_find (fun x => x = var) (commonVariables node);
                         commonVals !! i)))
           <$> commonVariables node) in
    newP ← lift (PartialInstanciation_init joinedTokens commonDict);
    activate self newP
  else mret tt.

(** [propagate(propagationSource, debug, partialInst, wme)].  [fuel] bounds
    the depth of the calls down the network. *)
Fixpoint propagate (fuel : nat) (self : nat) (propagationSource : option position)
    (partialInst : option PartialInstanciation) (wme : option ReteToken)
    {struct fuel} : M unit :=
  match fuel with
  | O => fun _ => Raise OutOfFuel
  | S fuel =>
      let activate := _activate (propagate fuel) in
      node ← get_node self;
      if aPassThru node then
        if bool_decide (consequent node ≠ []) then
          lift (py_assert (bool_decide (partialInst = None)) "%s,%s");;
          match wme with
          | Some wme => newP ← lift (singleToken wme); activate self newP
          | None => lift (Raise AttributeError)
          end
        else if bool_decide (mem_items (memories node RIGHT_MEMORY) ≠ []) then
          match wme, partialInst with
          | Some wme, _ => newP ← lift (singleToken wme); activate self newP
          | None, Some partialInst => activate self partialInst
          | None, None => mret tt
          end
        else mret tt
      else
        match propagationSource with
        | None =>
            match partialInst with
            | Some partialInst =>
                forM (bindings partialInst) (signal_binding activate self)
            | None => mret tt
            end
        | Some LEFT_MEMORY =>
            match partialInst with
            | Some partialInst =>
                matches ←
                  lift (match fedByBuiltin node with
                        | Some source => left_matches_builtin node source partialInst
                        | None => left_matches node partialInst
                        end);
                activate_matches activate self matches
            | None => lift (Raise AttributeError)
            end
        | Some RIGHT_MEMORY =>
            match wme with
            | Some wme =>
                matches ← lift (right_matches node wme);
                activate_matches activate self matches
            | None =>
                matches ← lift (right_matches_no_wme node);
                activate_matches activate self matches
            end
        end
  end.

(** [BetaNode._activate] with the whole of [propagate] below it. *)
Definition BetaNode_activate (fuel : nat) : nat → PartialInstanciation → M unit :=
  _activate (propagate fuel).

End BetaNode.

(** ** Activation from an alpha node *)

(** Modelled from the spec: [AlphaNode.activate] lives in [AlphaNode.py],
    which is not part of the sources at hand.  An alpha node that accepts a
    fact binds the variables of its pattern, puts the token into the right
    memory of a join node that it feeds and activates that node from the
    right. *)
Definition AlphaNode_activate `{PyHash} (fuel : nat) (triplePattern : term * term * term)
    (successor : nat) (fact : term * term * term) : M unit :=
  let token := bindVariables triplePattern fact in
  memory_addToken successor RIGHT_MEMORY (ItemToken token);;
  propagate fuel successor (Some RIGHT_MEMORY) None (Some token).

(** ** The remaining functions of the module *)

(** [project(orig_dict, attributes, inverse = True)]:
    [dict([item for item in orig_dict.items() if item[0] not in attributes])] *)
Definition project_inverse (orig_dict : pydict) (attributes : pyiterable)
    : pydict * pyiterable :=
  foldl (fun '(d, it) (item : term * pyval) =>
           let '(b, it') := iterable_contains item.1 it in
           (if b then d else <[item.1 := item.2]> d, it'))
        (∅, attributes) (map_to_list orig_dict).

(** [ReteMemory.union(other)], which [s | other] calls for a memory [s]:
    [result = ReteMemory(self.successor, self.position)], then
    [result._update(other)]; the new memory starts empty and [_update] takes
    over the elements of the set [other]. *)
Definition ReteMemory_union (self : ReteMemory) (other : list item) : ReteMemory :=
  let result := ReteMemory_init (mem_position self) None in
  {| mem_filter := mem_filter result; mem_position := mem_position result;
     substitutionDict := substitutionDict result; mem_items := other |}.

(** [_checkOpposingMemory(memoryPosition)] *)
Definition _checkOpposingMemory (self : BetaNode) (memoryPosition : position) : bool :=
  bool_decide (length (mem_items (memories self (_oppositeMemory self memoryPosition)))
               ≠ 0%nat).

(** ** Vocabulary of the statements *)

(** As soon as [isolatedBindings] has an entry, the loop variable [var] of
    [_generateBindings] is bound. *)
Definition var_bound (st : option term * list (term * list pyval) * list pydict) : Prop :=
  st.1.2 ≠ [] → is_Some st.1.1.

(** [m'] holds what [m] holds, in the set and under every key. *)
Definition memory_le (m m' : ReteMemory) : Prop :=
  mem_items m ⊆ mem_items m' ∧
  ∀ key, substitution_get m key ⊆ substitution_get m' key.

(** Every node of [st] is a node of [st'], with memories that hold at least
    as much. *)
Definition state_le (st st' : state) : Prop :=
  ∀ name node, nodes st !! name = Some node →
    ∃ node', nodes st' !! name = Some node' ∧
             ∀ pos, memory_le (memories node pos) (memories node' pos).

(** A computation that removes nothing from any memory. *)
Definition growing {A : Type} (c : M A) : Prop :=
  ∀ st a st', c st = Ok (a, st') → state_le st st'.

Section vocabulary.
Context `{PyHash}.

(** The hash that [_generateHash] gives to a set of tokens. *)
Definition sorted_hash (ts : list ReteToken) : Z :=
  hash_int (foldr Z.add 0 (merge_sort Z.le (hash_token <$> ts))).

(** A memory as [addToken] fills it, starting from an empty one. *)
Definition filled_by_addToken (cv : list term) (m : ReteMemory) : Prop :=
  ∃ position filter ts, foldM (addToken cv) ts (ReteMemory_init position filter) = Ok m.
End vocabulary.

(** whether a computation returned *)
Definition is_ok {A : Type} (r : Result A) : bool :=
  match r with Ok _ => true | Raise _ => false end.

(** The entry [k -> v] of a binding comes from [joinedBindings] or from the
    binding of one of the tokens. *)
Definition entry_from (joinedBindings : pydict) (tokens : list ReteToken)
    (k : term) (v : pyval) : Prop :=
  joinedBindings !! k = Some v ∨ ∃ t, t ∈ tokens ∧ bindingDict t !! k = Some v.

(** A binding that has the entries of [joinedBindings] and, besides them,
    only entries of the tokens. *)
Definition derived_binding (joinedBindings : pydict) (tokens : list ReteToken)
    (b : pydict) : Prop :=
  joinedBindings ⊆ b ∧ ∀ k v, b !! k = Some v → entry_from joinedBindings tokens k v.

(** What the first loop of [_generateBindings] has collected comes from the
    tokens. *)
Definition collected_from (tokens : list ReteToken)
    (st : option term * list (term * list pyval) * list pydict) : Prop :=
  (∀ k vals val, (k, vals) ∈ st.1.2 → val ∈ vals →
                 ∃ t, t ∈ tokens ∧ bindingDict t !! k = Some val) ∧
  Forall (fun d : pydict =>
            ∀ k v, d !! k = Some v → ∃ t, t ∈ tokens ∧ bindingDict t !! k = Some v)
         st.2.

(** The first value other than [None] that the bindings give for [key], and
    [None] when there is none. *)
Definition first_bound (bindings : list pydict) (key : term) : pyval :=
  head (omap (fun binding : pydict => dict_get binding key) bindings).

(** [left] and [right] both have a key that is not a key of [joinedBindings]. *)
Definition shares_free_key (joinedBindings left right : pydict) : Prop :=
  ∃ key, joinedBindings !! key = None ∧ is_Some (left !! key) ∧ is_Some (right !! key).

(** The key under which a left activation looks into the right memory for
    [binding]: the values of the common variables that [binding] has. *)
Definition left_key (self : BetaNode) (binding : pydict) : list pyval :=
  dict_get binding
    <$> List.filter (fun var => bool_decide (binding !! var ≠ None))
                    (commonVariables self).

(** The tokens of a match made of the instanciation [p] and the item [r] of
    the right memory. *)
Definition left_joined (p : PartialInstanciation) (r : item)
    (q : PartialInstanciation) : Prop :=
  match r with
  | ItemToken t => tokens q = set_add t (set_of_list (tokens p))
  | ItemPInst rightWME => tokens q = set_of_list (set_union (tokens p) (tokens rightWME))
  end.

(** The only exceptions that [r] can raise are those of [E]. *)
Definition raises_only {A : Type} (E : exn → Prop) (r : Result A) : Prop :=
  ∀ e, r = Raise e → E e.

(** The exceptions of the join: a missing key, a missing attribute (an
    absent node, filter or token, an instanciation without hash), a failed
    assertion. *)
Definition join_error (e : exn) : Prop :=
  e = KeyError ∨ e = AttributeError ∨ ∃ msg, e = AssertionError msg.

(** The nodes of [st'] are those of [st], configured and wired as in [st];
    what the memories hold, and the network, may differ. *)
Definition same_structure (st st' : state) : Prop :=
  ∀ name,
    match nodes st !! name, nodes st' !! name with
    | Some node, Some node' =>
        aPassThru node' = aPassThru node ∧ consequent node' = consequent node ∧
        fedByBuiltin node' = fedByBuiltin node ∧
        leftVariables node' = leftVariables node ∧
        rightVariables node' = rightVariables node ∧
        commonVariables node' = commonVariables node ∧
        descendentMemory node' = descendentMemory node ∧
        ∀ pos, mem_filter (memories node' pos) = mem_filter (memories node pos) ∧
               mem_position (memories node' pos) = mem_position (memories node pos)
    | None, None => True
    | _, _ => False
    end.

(** A computation that leaves the structure of the network alone. *)
Definition structural {A : Type} (c : M A) : Prop :=
  ∀ st a st', c st = Ok (a, st') → same_structure st st'.

(** No node of the network is fed by a built-in: [addConsistentBinding],
    the one place where [propagate] changes an instanciation that exists
    already, is not reached. *)
Definition without_builtins (st : state) : Prop :=
  map_Forall (fun (_ : nat) (node : BetaNode) => fedByBuiltin node = None) (nodes st).

(** The descendent memories of every node belong to nodes with a larger
    name, none larger than [bound]: the network has no cycle. *)
Definition ranked (bound : nat) (st : state) : Prop :=
  ∀ name node successor pos,
    nodes st !! name = Some node → (successor, pos) ∈ descendentMemory node →
    (name < successor ≤ bound)%nat.

(** On every ranked network [c] and [c'] do the same, raise nothing but
    the exceptions of the join, keep the network ranked and leave the nodes
    up to [n] as they are. *)
Definition settled (bound n : nat) {A : Type} (c c' : M A) : Prop :=
  ∀ st, ranked bound st →
    c st = c' st ∧ raises_only join_error (c st) ∧
    ∀ a st', c st = Ok (a, st') →
      ranked bound st' ∧
      ∀ name, (name ≤ n)%nat → nodes st' !! name = nodes st !! name.

Section hashed.
Context `{PyHash}.

(** An instanciation that has tokens and the hash of its tokens. *)
Definition well_hashed (x : item) : Prop :=
  match x with
  | ItemToken _ => True
  | ItemPInst p => tokens p ≠ [] ∧ hash p = Some (sorted_hash (tokens p))
  end.

(** Every instanciation in the memories and in the conflict set is well
    hashed. *)
Definition state_well_hashed (st : state) : Prop :=
  (∀ name node pos x,
      nodes st !! name = Some node →
      (x ∈ mem_items (memories node pos) ∨
       ∃ key, x ∈ substitution_get (memories node pos) key) →
      well_hashed x) ∧
  ∀ x, x ∈ conflictSet (network st) → well_hashed x.

(** A computation that keeps it so. *)
Definition keeps_well_hashed {A : Type} (c : M A) : Prop :=
  ∀ st a st', state_well_hashed st → c st = Ok (a, st') → state_well_hashed st'.
End hashed.

(** decides a closed proposition by evaluation *)
Ltac by_compute := apply (bool_decide_unpack _); vm_compute; exact I.

(** ** Example data

    The patterns, facts and tokens of the docstrings of [BetaNode.py], and
    two hash functions: one that tells all tokens apart, one that only looks
    at the length of the subject and therefore collides. *)

Definition distinct_hash : PyHash := {|
  hash_token t :=
    Z.pos (encode (subject t, predicate t, object t, map_to_list (bindingDict t)));
  hash_int z := z
|}.

Definition colliding_hash : PyHash := {|
  hash_token t := Z.of_nat (String.length (term_text (subject t)));
  hash_int z := z
|}.

Definition rdf_type : term := URIRef "rdf:type".
Definition rdf_value : term := URIRef "rdf:value".
Definition rdfs_domain : term := URIRef "rdfs:domain".
Definition rdfs_range : term := URIRef "rdfs:range".
Definition rdfs_Class : term := URIRef "rdfs:Class".
Definition Prop1 : term := URIRef "urn:uuid:Prop1".

(** the three patterns of the docstring of [newJoin], and its tokens *)
Definition P1_pattern : term * term * term := (Var "P1", rdf_type, Prop1).
Definition P2_pattern : term * term * term := (Var "P2", rdf_type, Prop1).
Definition P1_P2_pattern : term * term * term := (Var "P1", Var "P2", rdfs_Class).

Definition token_P2_range : ReteToken :=
  bindVariables P2_pattern (rdfs_range, rdf_type, Prop1).
Definition token_P1_domain : ReteToken :=
  bindVariables P1_pattern (rdfs_domain, rdf_type, Prop1).
Definition token_P2_domain : ReteToken :=
  bindVariables P2_pattern (rdfs_domain, rdf_type, Prop1).
Definition token_P1_P2_domain : ReteToken :=
  bindVariables P1_P2_pattern (rdfs_domain, rdfs_domain, rdfs_Class).

(** the instanciation of that docstring: its tokens, and what the
    constructor makes of them under [distinct_hash] *)
Definition docstring_tokens : list ReteToken :=
  [token_P1_domain; token_P2_range; token_P2_domain].

Definition docstring_inst : PartialInstanciation :=
  {| joinedBindings := ∅;
     tokens := docstring_tokens;
     bindings := [ {[ Var "P1" := Some rdfs_domain; Var "P2" := Some rdfs_range ]};
                   {[ Var "P1" := Some rdfs_domain; Var "P2" := Some rdfs_domain ]} ];
     hash := Some (@sorted_hash distinct_hash docstring_tokens) |}.

(** the four tokens of the third example in the docstring of
    [_generateBindings] *)
Definition token_P1_P2_range_domain : ReteToken :=
  bindVariables P1_P2_pattern (rdfs_range, rdfs_domain, rdfs_Class).

(** two tokens with one variable each, bound to the same term *)
Definition token_A : ReteToken :=
  bindVariables (Var "A", URIRef "urn:p", URIRef "urn:c")
                (URIRef "urn:v", URIRef "urn:p", URIRef "urn:c").
Definition token_B : ReteToken :=
  bindVariables (Var "B", URIRef "urn:q", URIRef "urn:c")
                (URIRef "urn:v", URIRef "urn:q", URIRef "urn:c").

(** the one binding that [_generateBindings] derives from them *)
Definition same_value_binding : pydict :=
  {[ Var "A" := Some (URIRef "urn:v"); Var "B" := Some (URIRef "urn:v") ]}.

(** a built-in and two patterns that share a blank node *)
Definition equal_builtin : N3Builtin :=
  {| argument := Var "X"; result := Var "Y";
     func := fun lhs rhs => bool_decide (lhs = rhs) |}.
Definition blank_left : term * term * term := (Var "X", rdf_value, BNode "b").
Definition blank_right : term * term * term := (BNode "b", rdf_type, Var "Y").

(** the network of the docstring of [BetaNode]: a pass-through node over
    [?X rdf:value 2], joined with [?X rdf:type ?Y], joined with
    [?Z Prop1 ?W]; the last node carries the consequent *)
Definition joinNode1 : BetaNode :=
  {| aPassThru := true; consequent := []; fedByBuiltin := None;
     leftVariables := []; rightVariables := [Var "X"]; commonVariables := [Var "X"];
     memories := fun pos => ReteMemory_init pos None;
     descendentMemory := [(2%nat, LEFT_MEMORY)] |}.
Definition joinNode2 : BetaNode :=
  {| aPassThru := false; consequent := []; fedByBuiltin := None;
     leftVariables := [Var "X"]; rightVariables := [Var "X"; Var "Y"];
     commonVariables := [Var "X"];
     memories := fun pos => ReteMemory_init pos None;
     descendentMemory := [(3%nat, LEFT_MEMORY)] |}.
Definition joinNode3 : BetaNode :=
  {| aPassThru := false;
     consequent := [(Var "X", rdf_type, URIRef "urn:uuid:SelectedVar")];
     fedByBuiltin := None;
     leftVariables := [Var "X"; Var "Y"]; rightVariables := [Var "Z"; Var "W"];
     commonVariables := [];
     memories := fun pos => ReteMemory_init pos None;
     descendentMemory := [] |}.
Definition docstring_network : state :=
  {| nodes := {[ 1%nat := joinNode1; 2%nat := joinNode2; 3%nat := joinNode3 ]};
     network := {| firings := 0; conflictSet := [] |} |}.

Definition token_Foo_value : ReteToken :=
  bindVariables (Var "X", rdf_value, Literal "2" None None)
                (URIRef "urn:uuid:Foo", rdf_value, Literal "2" None None).

(** [PartialInstanciation([token_Foo_value], consistentBindings = ...)], as
    the pass-through node makes it, with the hash of [distinct_hash] *)
Definition inst_Foo : PartialInstanciation :=
  {| joinedBindings := bindingDict token_Foo_value;
     tokens := [token_Foo_value];
     bindings := [bindingDict token_Foo_value];
     hash := Some (@hash_token distinct_hash token_Foo_value) |}.

(** the three patterns and the six facts of that docstring, each fact with
    the pattern it matches and the join node the pattern feeds *)
Definition aNode1 : term * term * term := (Var "X", rdf_value, Literal "2" None None).
Definition aNode2 : term * term * term := (Var "X", rdf_type, Var "Y").
Definition aNode3 : term * term * term := (Var "Z", Prop1, Var "W").

Definition docstring_facts : list (term * term * term * nat * (term * term * term)) :=
  [ (aNode1, 1%nat, (URIRef "urn:uuid:Boo", rdf_value, Literal "2" None None));
    (aNode1, 1%nat, (URIRef "urn:uuid:Foo", rdf_value, Literal "2" None None));
    (aNode2, 2%nat, (URIRef "urn:uuid:Foo", rdf_type, URIRef "urn:uuid:Baz"));
    (aNode2, 2%nat, (URIRef "urn:uuid:Bash", rdf_type, URIRef "urn:uuid:Baz"));
    (aNode3, 3%nat, (URIRef "urn:uuid:Bar", Prop1, URIRef "urn:uuid:Beezle"));
    (aNode3, 3%nat, (URIRef "urn:uuid:Bar", Prop1, URIRef "urn:uuid:Bundle")) ].

(** the facts fed in the given order; then the number of firings, the size
    of the conflict set and the sizes of the memories of the terminal node *)
Definition docstring_run (facts : list (term * term * term * nat * (term * term * term)))
    : Result (nat * nat * nat * nat) :=
  match forM facts (fun '(pattern, successor, fact) =>
                      AlphaNode_activate (H := distinct_hash) 4 pattern successor fact)
             docstring_network with
  | Ok (_, st) =>
      match nodes st !! 3%nat with
      | Some node =>
          Ok (firings (network st), length (conflictSet (network st)),
              length (mem_items (memories node LEFT_MEMORY)),
              length (mem_items (memories node RIGHT_MEMORY)))
      | None => Raise AttributeError
      end
  | Raise e => Raise e
  end.

(** feeding the facts of the second and of the third pattern, and putting
    the token of [urn:uuid:Foo rdf:value 2] into the right memory of the
    first node *)
Definition feed_docstring_facts : M unit :=
  forM (drop 2 docstring_facts)
       (fun '(pattern, successor, fact) =>
          AlphaNode_activate (H := distinct_hash) 4 pattern successor fact);;
  memory_addToken (H := distinct_hash) 1 RIGHT_MEMORY (ItemToken token_Foo_value).

(** the network of the docstring after that: the state in which the first
    node is activated from the right with this token *)
Definition docstring_network_fed : state :=
  match feed_docstring_facts docstring_network with
  | Ok (_, st) => st
  | Raise _ => docstring_network
  end.

(** joined bindings that cover the variables of two tokens of the docstring
    of [newJoin] *)
Definition P1_P2_joined : pydict :=
  {[ Var "P1" := Some rdfs_domain; Var "P2" := Some rdfs_range ]}.

(** four facts matched by [?P1 ?P2 rdfs:Class], no two of which agree on a
    variable; two instanciations of two of them each *)
Definition token_ab : ReteToken :=
  bindVariables P1_P2_pattern (URIRef "urn:a", URIRef "urn:b", rdfs_Class).
Definition token_cd : ReteToken :=
  bindVariables P1_P2_pattern (URIRef "urn:c", URIRef "urn:d", rdfs_Class).
Definition token_ef : ReteToken :=
  bindVariables P1_P2_pattern (URIRef "urn:e", URIRef "urn:f", rdfs_Class).
Definition token_gh : ReteToken :=
  bindVariables P1_P2_pattern (URIRef "urn:g", URIRef "urn:h", rdfs_Class).

Definition inst_ab_cd : PartialInstanciation :=
  {| joinedBindings := ∅; tokens := [token_ab; token_cd]; bindings := [];
     hash := Some (@sorted_hash distinct_hash [token_ab; token_cd]) |}.
Definition inst_ef_gh : PartialInstanciation :=
  {| joinedBindings := ∅; tokens := [token_ef; token_gh]; bindings := [];
     hash := Some (@sorted_hash distinct_hash [token_ef; token_gh]) |}.

(** the second join node of the docstring of [BetaNode] once [inst_Foo] has
    been added to its left memory, and the token of the third fact *)
Definition joinNode2_with_Foo : BetaNode :=
  set_memory joinNode2 LEFT_MEMORY
    (match addToken (H := distinct_hash) (commonVariables joinNode2)
                    (memories joinNode2 LEFT_MEMORY) (ItemPInst inst_Foo) with
     | Ok m => m
     | Raise _ => memories joinNode2 LEFT_MEMORY
     end).

Definition token_Foo_Baz : ReteToken :=
  bindVariables aNode2 (URIRef "urn:uuid:Foo", rdf_type, URIRef "urn:uuid:Baz").

(** the same node once the token of the third fact has been added to its
    right memory *)
Definition joinNode2_with_Baz : BetaNode :=
  set_memory joinNode2 RIGHT_MEMORY
    (match addToken (H := distinct_hash) (commonVariables joinNode2)
                    (memories joinNode2 RIGHT_MEMORY) (ItemToken token_Foo_Baz) with
     | Ok m => m
     | Raise _ => memories joinNode2 RIGHT_MEMORY
     end).

(** * Properties *)

(** ** Sets *)

Section sets.
Context `{EqDecision A}.
Implicit Types (x y : A) (s t l : list A).

Lemma elem_of_set_add x y s : y ∈ set_add x s ↔ y = x ∨ y ∈ s.
Proof.
  unfold set_add. case_decide.
  - split; [auto | intros [->|]; done].
  - rewrite elem_of_app, list_elem_of_singleton. tauto.
Qed.

Lemma NoDup_set_add x s : NoDup s → NoDup (set_add x s).
Proof.
  intros Hs. unfold set_add. case_decide; [done|].
  apply NoDup_app. split_and!; [done | | apply NoDup_singleton].
  intros y Hy ->%list_elem_of_singleton. done.
Qed.

Lemma elem_of_set_union s t x : x ∈ set_union s t ↔ x ∈ s ∨ x ∈ t.
Proof.
  unfold set_union. revert s. induction t as [|y t IH]; intros s; simpl.
  - rewrite elem_of_nil. tauto.
  - rewrite IH, elem_of_set_add, elem_of_cons. tauto.
Qed.

Lemma NoDup_set_union s t : NoDup s → NoDup (set_union s t).
Proof.
  unfold set_union. revert s. induction t as [|y t IH]; intros s Hs; simpl; [done|].
  apply IH, NoDup_set_add, Hs.
Qed.

Lemma elem_of_set_of_list l x : x ∈ set_of_list l ↔ x ∈ l.
Proof.
  change (set_of_list l) with (set_union [] l).
  rewrite elem_of_set_union, elem_of_nil. tauto.
Qed.

Lemma NoDup_set_of_list l : NoDup (set_of_list l).
Proof. apply (NoDup_set_union [] l), NoDup_nil_2. Qed.

Lemma set_of_list_nil_inv l : set_of_list l = [] → l = [].
Proof.
  intros Hl. destruct l as [|x l]; [done|].
  assert (x ∈ set_of_list (x :: l)) as Hx by (apply elem_of_set_of_list; left).
  rewrite Hl in Hx. by apply elem_of_nil in Hx.
Qed.
End sets.

(** ** Loops *)

Lemma foldM_pure {A B : Type} (g : B → A → B) (l : list A) (b : B) :
  foldM (fun b x => Ok (g b x)) l b = Ok (foldl g b l).
Proof. revert b. induction l as [|x l IH]; intros b; simpl; [done|]. apply IH. Qed.

Lemma foldM_invariant {A B : Type} (I : B → Prop) (P : A → Prop)
    (f : B → A → Result B) (l : list A) (b : B) :
  (∀ b x, I b → P x → ∃ b', f b x = Ok b' ∧ I b') →
  Forall P l → I b → ∃ b', foldM f l b = Ok b' ∧ I b'.
Proof.
  intros Hf. revert b. induction l as [|x l IH]; intros b Hl Hb; simpl.
  - eauto.
  - apply Forall_cons in Hl as [Hx Hl].
    destruct (Hf b x Hb Hx) as (b' & -> & Hb'). simpl. by apply IH.
Qed.

Lemma foldM_app {A B : Type} (f : B → A → Result B) (l k : list A) (b : B) :
  foldM f (l ++ k) b = foldM f l b ≫= foldM f k.
Proof.
  revert b. induction l as [|x l IH]; intros b; simpl; [done|].
  destruct (f b x) as [b'|e]; simpl; [apply IH | done].
Qed.

(** ** The hash of a partial instanciation *)

Lemma foldl_Zadd (x : Z) (l : list Z) : foldl Z.add x l = x + foldr Z.add 0 l.
Proof. revert x. induction l as [|y l IH]; intros x; simpl; [lia|]. rewrite IH. lia. Qed.

Lemma sum_Permutation (l k : list Z) : l ≡ₚ k → foldr Z.add 0 l = foldr Z.add 0 k.
Proof. induction 1; simpl; lia. Qed.

Lemma reduce_Zadd (l : list Z) : l ≠ [] → reduce Z.add l = Ok (foldr Z.add 0 l).
Proof. destruct l as [|x l]; [done|]. intros _. simpl. by rewrite foldl_Zadd. Qed.

Section hash.
Context `{PyHash}.

Lemma _generateHash_sorted (ts : list ReteToken) :
  ts ≠ [] →
  _generateHash ts
  = Ok (hash_int (foldr Z.add 0 (merge_sort Z.le (hash_token <$> ts)))).
Proof.
  intros Hts. unfold _generateHash. rewrite reduce_Zadd; [done|].
  intros Hnil. apply Hts.
  assert (merge_sort Z.le (hash_token <$> ts) ≡ₚ hash_token <$> ts) as Hp
    by apply merge_sort_Permutation.
  rewrite Hnil in Hp. apply Permutation_nil_l in Hp.
  symmetry in Hp. by apply fmap_nil_inv in Hp.
Qed.

Lemma sorted_hashes_Permutation (ts ts' : list ReteToken) :
  ts ≡ₚ ts' →
  foldr Z.add 0 (merge_sort Z.le (hash_token <$> ts))
  = foldr Z.add 0 (merge_sort Z.le (hash_token <$> ts')).
Proof.
  intros Hp. apply sum_Permutation.
  rewrite !merge_sort_Permutation. by apply fmap_Permutation.
Qed.

Lemma _generateHash_Permutation (ts ts' : list ReteToken) :
  ts ≡ₚ ts' → _generateHash ts = _generateHash ts'.
Proof.
  intros Hp. destruct (decide (ts = [])) as [->|Hne].
  - by apply Permutation_nil_l in Hp as ->.
  - rewrite !_generateHash_sorted; [|intros ->; by apply Permutation_nil_r in Hp|done].
    by rewrite (sorted_hashes_Permutation _ _ Hp).
Qed.

Lemma add_noPostProcessing_loop (ts : list ReteToken) (self : PartialInstanciation) :
  foldM (fun self token => PartialInstanciation_add self token true) ts self
  = Ok {| joinedBindings := joinedBindings self;
          tokens := set_union (tokens self) ts;
          bindings := bindings self; hash := hash self |}.
Proof.
  revert self. induction ts as [|t ts IH]; intros self; simpl.
  - by destruct self.
  - rewrite IH. done.
Qed.
End hash.

(** ** [_generateBindings] never raises *)

Lemma generateBindings_keys_spec (jb : pydict) (var : option term) (token : ReteToken) :
  let l := filter (fun item : term * pyval => jb !! item.1 = None)
                  (map_to_list (bindingDict token)) in
  ∃ newDict,
    generateBindings_keys jb var token
    = (match last l with Some item => Some item.1 | None => var end,
       newDict, length l).
Proof.
  intros l. unfold generateBindings_keys. fold l.
  assert (∀ (var : option term) (nd : pydict) (n : nat), ∃ newDict : pydict,
    foldl (fun '((var, newDict, noIterations) : option term * pydict * nat)
               (item : term * pyval) =>
             let var := item.1 in
             (Some var, <[var := item.2]> newDict, S noIterations))
          (var, nd, n) l
    = (match last l with Some item => Some item.1 | None => var end,
       newDict, (n + length l)%nat)) as Hgen.
  { clear var. induction l as [|item l IH]; intros var nd n.
    - exists nd. simpl. f_equal. lia.
    - destruct (IH (Some item.1) (<[item.1:=item.2]> nd) (S n)) as [nd' Hnd'].
      exists nd'. etransitivity; [exact Hnd'|].
      f_equal; [|simpl; lia]. f_equal. rewrite last_cons. by destruct (last l). }
  destruct (Hgen var ∅ 0%nat) as [nd Hnd]. exists nd. exact Hnd.
Qed.


Lemma setdefault_add_not_nil {K V : Type} `{EqDecision K, EqDecision V}
    (k : K) (v : V) (d : list (K * list V)) : setdefault_add k v d ≠ [].
Proof. destruct d as [|[k' s] d]; simpl; [done|]. by case_decide. Qed.

Lemma generateBindings_token_ok (jb : pydict) st (token : ReteToken) :
  var_bound st →
  ∃ st', generateBindings_token jb st token = Ok st' ∧ var_bound st'.
Proof.
  destruct st as [[var iso] forced]. unfold var_bound. simpl. intros Hinv.
  unfold generateBindings_token.
  destruct (generateBindings_keys_spec jb var token) as [nd ->].
  remember (filter (fun item : term * pyval => jb !! item.1 = None)
                   (map_to_list (bindingDict token))) as l eqn:Hl.
  case_bool_decide as Hone.
  - destruct l as [|[k v] [|??]]; simplify_eq/=.
    assert ((k, v) ∈ filter (fun item : term * pyval => jb !! item.1 = None)
                            (map_to_list (bindingDict token))) as Hin.
    { rewrite <- Hl. left. }
    apply list_elem_of_filter in Hin as [_ Hin].
    apply elem_of_map_to_list in Hin.
    unfold dict_item. rewrite Hin. simpl.
    eexists. split; [done|]. simpl. eauto.
  - case_bool_decide.
    + eexists. split; [done|]. simpl. intros Hiso.
      destruct (last l); [eauto | by apply Hinv].
    + eexists. split; [done|]. simpl. intros Hiso.
      destruct (last l); [eauto | by apply Hinv].
Qed.

Lemma foldM_accumulate {A B : Type} (Q : B → A → Prop)
    (f : B → A → Result B) (l : list A) (b : B) :
  (∀ b x, ∃ b', f b x = Ok b' ∧ Q b' x ∧ ∀ y, Q b y → Q b' y) →
  ∃ b', foldM f l b = Ok b' ∧ (∀ y, Q b y → Q b' y) ∧ ∀ x, x ∈ l → Q b' x.
Proof.
  intros Hf. revert b. induction l as [|x l IH]; intros b; simpl.
  - exists b. split_and!; [done..|]. intros x Hx. by apply elem_of_nil in Hx.
  - destruct (Hf b x) as (b1 & -> & Hx & Hmono). simpl.
    destruct (IH b1) as (b2 & -> & Hmono2 & Hl). exists b2. split_and!; [done|auto|].
    intros y [->|Hy]%elem_of_cons; auto.
Qed.

Section alist.
Context {K V : Type} `{EqDecision K, EqDecision V}.

Lemma alist_item_setdefault_add_eq (k : K) (v : V) (d : list (K * list V)) :
  ∃ s, alist_item (setdefault_add k v d) k = Ok s.
Proof.
  induction d as [|[k' s] d IH]; simpl.
  - rewrite decide_True by done. eauto.
  - case_decide as Hk; simpl.
    + rewrite decide_True by done. eauto.
    + rewrite decide_False by done. done.
Qed.

Lemma alist_item_setdefault_add_mono (k k' : K) (v : V) (d : list (K * list V)) :
  (∃ s, alist_item d k' = Ok s) → ∃ s, alist_item (setdefault_add k v d) k' = Ok s.
Proof.
  induction d as [|[k0 s] d IH]; simpl.
  - intros [s Hs]. done.
  - intros Hd. destruct (decide (k = k0)); simpl;
      destruct (decide (k' = k0)); eauto.
Qed.
End alist.

Lemma generateBindings_rev_ok (var : option term) (iso : list (term * list pyval)) :
  (iso ≠ [] → is_Some var) →
  ∃ rev, generateBindings_rev var iso = Ok rev ∧
         ∀ vals val, vals ∈ iso.*2 → val ∈ vals → ∃ s, alist_item rev val = Ok s.
Proof.
  intros Hvar. unfold generateBindings_rev. destruct var as [v|].
  - destruct (foldM_accumulate
                (fun (rev : list (pyval * list term)) (vals : list pyval) =>
                   ∀ val, val ∈ vals → ∃ s, alist_item rev val = Ok s)
                (fun rev vals =>
                   foldM (fun rev val => Ok (setdefault_add val v rev)) vals rev)
                iso.*2 []) as (rev & Hrev & _ & Hall).
    + intros rev vals.
      destruct (foldM_accumulate
                  (fun (rev : list (pyval * list term)) (val : pyval) =>
                     ∃ s, alist_item rev val = Ok s)
                  (fun rev val => Ok (setdefault_add val v rev)) vals rev)
        as (rev' & Hrev' & Hmono & Hvals).
      { intros b x. eexists. split; [done|]. split.
        - apply alist_item_setdefault_add_eq.
        - intros y. apply alist_item_setdefault_add_mono. }
      exists rev'. split_and!; [done|done|]. intros vals' Hvals' val Hval.
      apply Hmono, Hvals', Hval.
    + exists rev. split; [done|]. intros vals val Hvals Hval. by apply (Hall vals).
  - destruct iso as [|kv iso]; [|by destruct Hvar as [? ?]].
    simpl. exists []. split; [done|]. intros vals val Hvals. by apply elem_of_nil in Hvals.
Qed.

Lemma xcombine_elem {A : Type} (seqin : list (list A)) (comb : list A) :
  comb ∈ xcombine seqin → Forall2 (fun x s => x ∈ s) comb seqin.
Proof.
  revert comb. induction seqin as [|s rest IH]; intros comb; simpl.
  - intros ->%list_elem_of_singleton. constructor.
  - intros (item & Hcomb & Hitem)%list_elem_of_bind.
    apply list_elem_of_bind in Hcomb as (comb' & ->%list_elem_of_singleton & Hcomb').
    constructor; [done | by apply IH].
Qed.

Lemma dict_of_pairs_lookup (l : list (term * pyval)) (k : term) (v : pyval) :
  dict_of_pairs l !! k = Some v → (k, v) ∈ l.
Proof.
  unfold dict_of_pairs.
  assert (∀ d : pydict,
            foldl (fun d (p : term * pyval) => <[p.1 := p.2]> d) d l !! k = Some v →
            (k, v) ∈ l ∨ d !! k = Some v) as Hgen.
  { induction l as [|[k' v'] l IH]; intros d; simpl; [auto|].
    intros [Hl|Hd]%IH; [left; by right|].
    destruct (decide (k' = k)) as [->|Hne].
    - rewrite lookup_insert_eq in Hd. simplify_eq. left. left.
    - rewrite lookup_insert_ne in Hd by done. auto. }
  intros [?|Hd]%Hgen; [done|]. by rewrite lookup_empty in Hd.
Qed.

Lemma dict_values_of_pairs (l : list (term * pyval)) (val : pyval) :
  val ∈ dict_values (dict_of_pairs l) → val ∈ l.*2.
Proof.
  unfold dict_values. intros ([k v] & -> & Hkv)%list_elem_of_fmap.
  apply elem_of_map_to_list, dict_of_pairs_lookup in Hkv.
  apply list_elem_of_fmap. by exists (k, v).
Qed.

Lemma generateBindings_isolated_ok (jb : pydict) (rev : list (pyval * list term))
    (bindings : list pydict) (i : list (term * pyval)) :
  (∀ val, val ∈ i.*2 → ∃ s, alist_item rev val = Ok s) →
  ∃ bs, generateBindings_isolated jb rev bindings i = Ok bs.
Proof.
  intros Hrev. unfold generateBindings_isolated.
  destruct (foldM_invariant (fun _ => True)
              (fun val => ∃ s, alist_item rev val = Ok s)
              (fun bindings val =>
                 keysForVal ← alist_item rev val;
                 if bool_decide (length keysForVal ≤ 1)%nat then
                   let newDict := dict_update (dict_of_pairs i) jb in
                   Ok (if decide (newDict ∈ bindings) then bindings
                       else bindings ++ [newDict])
                 else Ok bindings)
              (dict_values (dict_of_pairs i)) bindings) as (bs & Hbs & _); [| |done|eauto].
  - intros b val _ [s ->]. simpl. case_bool_decide; eauto.
  - apply Forall_forall. intros val Hval. by apply Hrev, dict_values_of_pairs.
Qed.

Lemma generateBindings_many_ok (jb : pydict) (tokens : list ReteToken) :
  ∃ bs, generateBindings_many jb tokens = Ok bs ∧ bs ≠ [].
Proof.
  unfold generateBindings_many.
  destruct (foldM_invariant var_bound (fun _ => True)
              (generateBindings_token jb) tokens (None, [], []))
    as ([[var iso] forced] & -> & Hbound).
  { intros st token Hst _. by apply generateBindings_token_ok. }
  { by apply Forall_forall. }
  { intros Hnil. done. }
  simpl. destruct (generateBindings_rev_ok var iso Hbound) as (rev & -> & Hrev). simpl.
  assert (∃ bs, (if bool_decide (iso ≠ []) then
                   foldM (generateBindings_isolated jb rev)
                         (xcombine ((fun kv : term * list pyval =>
                                       (fun val : pyval => (kv.1, val)) <$> kv.2) <$> iso))
                         []
                 else Ok []) = Ok bs) as [bs ->].
  { case_bool_decide; [|eauto].
    destruct (foldM_invariant (fun _ => True)
                (fun i : list (term * pyval) =>
                   ∀ val, val ∈ i.*2 → ∃ s, alist_item rev val = Ok s)
                (generateBindings_isolated jb rev)
                (xcombine ((fun kv : term * list pyval =>
                              (fun val : pyval => (kv.1, val)) <$> kv.2) <$> iso))
                []) as (bs & Hbs & _); [| |done|eauto].
    - intros b i _ Hi. destruct (generateBindings_isolated_ok jb rev b i Hi) as [bs Hbs].
      eauto.
    - apply Forall_forall. intros i Hi%xcombine_elem val Hval.
      apply list_elem_of_fmap in Hval as ([k v] & -> & Hkv).
      apply list_elem_of_lookup in Hkv as [n Hn].
      destruct (Forall2_lookup_l _ _ _ _ _ Hi Hn) as (s & Hs & Hin).
      apply list_lookup_fmap_Some in Hs as ([k' vals] & -> & Hkv').
      apply list_elem_of_fmap in Hin as (val & Heq & Hval). simplify_eq/=.
      apply (Hrev vals); [|done].
      apply list_elem_of_fmap. exists (k', vals). split; [done|].
      by eapply list_elem_of_lookup_2. }
  simpl. eexists. split; [done|]. case_bool_decide; [done|done].
Qed.

Lemma _generateBindings_ok (jb : pydict) (tokens : list ReteToken) :
  ∃ bs, _generateBindings jb tokens = Ok bs ∧ bs ≠ [].
Proof.
  unfold _generateBindings. destruct tokens as [|token [|token' tokens]].
  - apply generateBindings_many_ok.
  - eexists. split; done.
  - apply generateBindings_many_ok.
Qed.

(** ** Construction of a partial instanciation *)

Section instanciation.
Context `{PyHash}.


Lemma PartialInstanciation_init_spec (ts : list ReteToken) (cb : pydict) :
  ∃ p, PartialInstanciation_init ts cb = Ok p ∧
       joinedBindings p = cb ∧ tokens p = set_of_list ts ∧
       (ts ≠ [] → hash p = Some (sorted_hash (tokens p)) ∧ bindings p ≠ []) ∧
       (ts = [] → hash p = None ∧ bindings p = []).
Proof.
  unfold PartialInstanciation_init. case_bool_decide as Hts.
  - rewrite add_noPostProcessing_loop. simpl.
    change (set_union [] ts) with (set_of_list ts).
    rewrite _generateHash_sorted
      by (intros Hnil; by apply set_of_list_nil_inv in Hnil).
    simpl. destruct (_generateBindings_ok cb (set_of_list ts)) as (bs & -> & Hbs).
    simpl. eexists. split; [done|]. simpl. split_and!; [done..|done].
  - subst ts. eexists. split; [done|]. simpl. split_and!; done.
Qed.

Lemma PartialInstanciation_add_spec (self : PartialInstanciation) (t : ReteToken) :
  ∃ p, PartialInstanciation_add self t false = Ok p ∧
       joinedBindings p = joinedBindings self ∧
       tokens p = set_add t (tokens self) ∧
       hash p = Some (sorted_hash (tokens p)) ∧ bindings p ≠ [].
Proof.
  unfold PartialInstanciation_add.
  rewrite _generateHash_sorted.
  2:{ unfold set_add. case_decide as Hin; [|by destruct (tokens self)].
      intros Hnil. rewrite Hnil in Hin. by apply elem_of_nil in Hin. }
  simpl. destruct (_generateBindings_ok (joinedBindings self) (set_add t (tokens self)))
    as (bs & -> & Hbs).
  simpl. eexists. split; [done|]. simpl. done.
Qed.

Lemma sorted_hash_same_set (ts ts' : list ReteToken) :
  NoDup ts → NoDup ts' → ts ⊆ ts' → ts' ⊆ ts → sorted_hash ts = sorted_hash ts'.
Proof.
  intros Hts Hts' Hsub Hsub'. unfold sorted_hash. f_equal.
  apply sorted_hashes_Permutation, NoDup_Permutation; [done..|].
  intros t. split; [apply Hsub | apply Hsub'].
Qed.

Lemma PartialInstanciation_eq_true (p q : PartialInstanciation) :
  PartialInstanciation_eq p q = Ok true ↔ ∃ h, hash p = Some h ∧ hash q = Some h.
Proof.
  unfold PartialInstanciation_eq, PartialInstanciation_hash.
  destruct (hash p) as [hp|], (hash q) as [hq|]; simpl.
  - case_bool_decide; split.
    + intros _. exists hp. by subst.
    + done.
    + done.
    + intros (h & ? & ?). simplify_eq.
  - split; [done|]. intros (h & ? & ?). done.
  - split; [done|]. intros (h & ? & ?). done.
  - split; [done|]. intros (h & ? & ?). done.
Qed.
End instanciation.

(** ** Sets of items and memories *)

Section memory.
Context `{PyHash}.
Implicit Types (x y t : item) (s : list item) (m : ReteMemory) (h : Z).

Lemma item_equal_refl x h : item_hash x = Ok h → item_equal x x = true.
Proof.
  intros Hx. destruct x as [t|p]; simpl in *.
  - by apply bool_decide_eq_true.
  - rewrite Hx. by apply bool_decide_eq_true.
Qed.

Lemma pyset_add_ok x h s : item_hash x = Ok h → pyset_add x s = Ok (pyset_insert x s).
Proof. intros Hx. unfold pyset_add. by rewrite Hx. Qed.

Lemma pyset_add_inv x s s' :
  pyset_add x s = Ok s' → s' = pyset_insert x s ∧ ∃ h, item_hash x = Ok h.
Proof.
  unfold pyset_add. destruct (item_hash x) as [h|e]; simpl; [|done].
  intros [= <-]. eauto.
Qed.

Lemma pyset_mem_true x s :
  pyset_mem x s = true ↔ ∃ stored, stored ∈ s ∧ item_equal stored x = true.
Proof.
  unfold pyset_mem. rewrite existsb_exists.
  split; intros (y & Hy & Heq); exists y; by rewrite ?list_elem_of_In in *.
Qed.

Lemma elem_of_pyset_insert x y s :
  y ∈ pyset_insert x s ↔ y ∈ s ∨ (y = x ∧ pyset_mem x s = false).
Proof.
  unfold pyset_insert. destruct (pyset_mem x s).
  - split; [auto | intros [?|[_ ?]]; done].
  - rewrite elem_of_app, list_elem_of_singleton. split; [intros [?|?]; auto|].
    intros [?|[? _]]; auto.
Qed.

Lemma pyset_insert_subseteq x s : s ⊆ pyset_insert x s.
Proof. intros y Hy. apply elem_of_pyset_insert. auto. Qed.

Lemma pyset_mem_insert_mono x y s :
  pyset_mem y s = true → pyset_mem y (pyset_insert x s) = true.
Proof.
  rewrite !pyset_mem_true. intros (z & Hz & Heq). exists z. split; [|done].
  by apply pyset_insert_subseteq.
Qed.

Lemma pyset_mem_insert x s : item_equal x x = true → pyset_mem x (pyset_insert x s) = true.
Proof.
  intros Hx. unfold pyset_insert. destruct (pyset_mem x s) eqn:Hmem; [done|].
  apply pyset_mem_true. exists x. split; [|done].
  apply elem_of_app. right. by left.
Qed.

Lemma pyset_insert_idemp x s :
  item_equal x x = true → pyset_insert x (pyset_insert x s) = pyset_insert x s.
Proof.
  intros Hx. unfold pyset_insert at 1. by rewrite pyset_mem_insert.
Qed.

Lemma substitution_add_ok t h (key : list pyval) (d : gmap (list pyval) (list item)) :
  item_hash t = Ok h →
  substitution_add key t d = Ok (<[key := pyset_insert t (default [] (d !! key))]> d).
Proof. intros Ht. unfold substitution_add. by rewrite (pyset_add_ok _ h). Qed.

Lemma substitution_add_loop t h (keys : list (list pyval))
    (d : gmap (list pyval) (list item)) :
  item_hash t = Ok h →
  ∃ d', foldM (fun d key => substitution_add key t d) keys d = Ok d' ∧
        ∀ key,
          (key ∈ keys → default [] (d' !! key) = pyset_insert t (default [] (d !! key))) ∧
          (key ∉ keys → default [] (d' !! key) = default [] (d !! key)).
Proof.
  intros Ht. revert d. induction keys as [|k keys IH]; intros d.
  - exists d. split; [done|]. intros key. split; [|done].
    by intros ?%elem_of_nil.
  - cbn [foldM]. rewrite (substitution_add_ok _ h) by done.
    destruct (IH (<[k := pyset_insert t (default [] (d !! k))]> d)) as (d' & Hd' & Hkeys).
    exists d'. split; [exact Hd'|]. intros key.
    destruct (Hkeys key) as [Hin Hnin].
    destruct (decide (key = k)) as [->|Hne].
    + rewrite lookup_insert_eq in Hin, Hnin. simpl in Hin, Hnin.
      split; [|intros []; left]. intros _.
      destruct (decide (k ∈ keys)) as [Hk|Hk]; [|by apply Hnin].
      rewrite Hin by done. apply pyset_insert_idemp. by eapply item_equal_refl.
    + rewrite lookup_insert_ne in Hin, Hnin by done. split.
      * intros [?|?]%elem_of_cons; [done | by apply Hin].
      * intros Hk. apply Hnin. intros ?. apply Hk. by right.
Qed.

(** What [addToken] does to the set and to the index. *)
Lemma addToken_spec (cv : list term) m t h :
  item_hash t = Ok h →
  ∃ m', addToken cv m t = Ok m' ∧
        mem_items m' = pyset_insert t (mem_items m) ∧
        mem_filter m' = mem_filter m ∧ mem_position m' = mem_position m ∧
        ∀ key,
          (key ∈ commonVarKeys cv t →
           substitution_get m' key = pyset_insert t (substitution_get m key)) ∧
          (key ∉ commonVarKeys cv t →
           substitution_get m' key = substitution_get m key).
Proof.
  intros Ht. unfold addToken.
  destruct (substitution_add_loop t h (commonVarKeys cv t) (substitutionDict m) Ht)
    as (d' & -> & Hd').
  simpl. rewrite (pyset_add_ok _ h) by done. simpl.
  eexists. split; [done|]. simpl. split_and!; done.
Qed.

Lemma addToken_inv (cv : list term) m t m' :
  addToken cv m t = Ok m' → ∃ h, item_hash t = Ok h.
Proof.
  unfold addToken. destruct (foldM _ _ _) as [d|e]; simpl; [|done].
  destruct (pyset_add t (mem_items m)) as [s|e] eqn:Hadd; simpl; [|done].
  intros _. by apply pyset_add_inv in Hadd as [_ ?].
Qed.
End memory.

(** ** Equality and hash of partial instanciations *)




(** C9: [p == q] holds exactly when the hashes of [p] and [q] are equal,
    the hash being the hash of the sum of the sorted token hashes; the token
    sets are not looked at, so a set, a memory or the conflict set that
    holds [p] takes a [q] with the same hash for an element it already has. *)
Theorem PartialInstanciation_eq_by_hash `{PyHash} :
  (∀ p q,
      PartialInstanciation_eq p q = Ok true ↔
      ∃ h, PartialInstanciation_hash p = Ok h ∧ PartialInstanciation_hash q = Ok h) ∧
  (∀ ts cb, ts ≠ [] →
      ∃ p, PartialInstanciation_init ts cb = Ok p ∧
           PartialInstanciation_hash p
           = Ok (hash_int (foldr Z.add 0 (merge_sort Z.le (hash_token <$> tokens p))))) ∧
  (∀ p q h,
      PartialInstanciation_hash p = Ok h → PartialInstanciation_hash q = Ok h →
      (∀ s, ItemPInst p ∈ s → pyset_add (ItemPInst q) s = Ok s) ∧
      (∀ cv m, ItemPInst p ∈ mem_items m →
               ∃ m', addToken cv m (ItemPInst q) = Ok m' ∧ mem_items m' = mem_items m) ∧
      (∀ st termNode, ItemPInst p ∈ conflictSet (network st) →
               ∃ st', fireConsequent q termNode st = Ok (tt, st') ∧
                      conflictSet (network st') = conflictSet (network st))).
Proof.
  split_and!.
  - intros p q. rewrite PartialInstanciation_eq_true.
    unfold PartialInstanciation_hash.
    split; intros (h & Hp & Hq); exists h;
      destruct (hash p), (hash q); by simplify_eq.
  - intros ts cb Hts.
    destruct (PartialInstanciation_init_spec ts cb) as (p & Hp & _ & _ & Hh & _).
    exists p. split; [done|]. destruct (Hh Hts) as [Hh' _].
    unfold PartialInstanciation_hash. by rewrite Hh'.
  - intros p q h Hp Hq.
    assert (∀ s, ItemPInst p ∈ s → pyset_insert (ItemPInst q) s = s) as Hins.
    { intros s Hs. unfold pyset_insert.
      replace (pyset_mem (ItemPInst q) s) with true; [done|].
      symmetry. apply pyset_mem_true. exists (ItemPInst p). split; [done|].
      simpl. rewrite Hp, Hq. by apply bool_decide_eq_true. }
    split_and!.
    + intros s Hs. rewrite (pyset_add_ok _ h) by done. by rewrite Hins.
    + intros cv m Hm.
      destruct (addToken_spec cv m (ItemPInst q) h Hq) as (m' & Hm' & Hitems & _).
      exists m'. split; [done|]. by rewrite Hitems, Hins.
    + intros st termNode Hst. unfold fireConsequent.
      rewrite (pyset_add_ok _ h) by done. eexists. split; [done|]. simpl.
      by apply Hins.
Qed.

Lemma PartialInstanciation_eq_by_hash_witness :
  ∃ p q,
    PartialInstanciation_init (H := colliding_hash) [token_P1_domain] ∅ = Ok p ∧
    PartialInstanciation_init (H := colliding_hash) [token_P2_domain] ∅ = Ok q ∧
    tokens p ≠ tokens q ∧
    PartialInstanciation_eq p q = Ok true ∧
    pyset_add (H := colliding_hash) (ItemPInst q) [ItemPInst p] = Ok [ItemPInst p].
Proof.
  pose proof (PartialInstanciation_eq_by_hash (H := colliding_hash)) as (Heq & _ & Hset).
  destruct (PartialInstanciation_init_spec (H := colliding_hash) [token_P1_domain] ∅)
    as (p & Hp & _ & Htp & Hhp & _).
  destruct (PartialInstanciation_init_spec (H := colliding_hash) [token_P2_domain] ∅)
    as (q & Hq & _ & Htq & Hhq & _).
  destruct Hhp as [Hhp _]; [done|]. destruct Hhq as [Hhq _]; [done|].
  assert (PartialInstanciation_hash p = Ok 11) as Hp11.
  { unfold PartialInstanciation_hash. rewrite Hhp, Htp. vm_compute. reflexivity. }
  assert (PartialInstanciation_hash q = Ok 11) as Hq11.
  { unfold PartialInstanciation_hash. rewrite Hhq, Htq. vm_compute. reflexivity. }
  destruct (Hset p q 11 Hp11 Hq11) as (Hs & _ & _).
  exists p, q. split_and!; [exact Hp | exact Hq | | |].
  - rewrite Htp, Htq. apply (bool_decide_unpack _). vm_compute. exact I.
  - apply Heq. by exists 11.
  - apply Hs, list_elem_of_singleton. reflexivity.
Defined.

(** ** Construction of a join node *)

Lemma elem_of_collectVariables_alpha (triplePattern : term * term * term) (t : term) :
  t ∈ collectVariables (AnAlphaNode triplePattern) ↔
  t ∈ triple_terms triplePattern ∧ (isVariable t = true ∨ isBNode t = true).
Proof.
  unfold collectVariables. rewrite elem_of_set_of_list, list_elem_of_filter.
  unfold isVariableOrBNode. rewrite orb_true_iff. tauto.
Qed.

Lemma BetaNode_init_alpha (leftPattern rightPattern : term * term * term) :
  ∃ node,
    BetaNode_init (AnAlphaNode leftPattern) (AnAlphaNode rightPattern) false = Ok node ∧
    fedByBuiltin node = None ∧
    leftVariables node = collectVariables (AnAlphaNode leftPattern) ∧
    rightVariables node = collectVariables (AnAlphaNode rightPattern) ∧
    commonVariables node
    = filter (fun leftVar => leftVar ∈ collectVariables (AnAlphaNode rightPattern))
             (collectVariables (AnAlphaNode leftPattern)).
Proof. eexists. split; [reflexivity|]. simpl. done. Qed.

(** C10: [collectVariables] takes the blank nodes of a triple pattern along
    with its variables, so a blank node that occurs in the patterns of both
    inputs is among the [commonVariables] of the join node, and [addToken]
    files a token under the key that has, at the place of each common
    variable, blank node or not, what the binding of the token gives for it. *)
Theorem collectVariables_blank_nodes `{PyHash} :
  (∀ triplePattern t,
      t ∈ collectVariables (AnAlphaNode triplePattern) ↔
      t ∈ triple_terms triplePattern ∧ (isVariable t = true ∨ isBNode t = true)) ∧
  (∀ leftPattern rightPattern b,
      BNode b ∈ triple_terms leftPattern → BNode b ∈ triple_terms rightPattern →
      ∃ node,
        BetaNode_init (AnAlphaNode leftPattern) (AnAlphaNode rightPattern) false
        = Ok node ∧
        BNode b ∈ leftVariables node ∧ BNode b ∈ rightVariables node ∧
        BNode b ∈ commonVariables node) ∧
  (∀ (commonVariables : list term) (m : ReteMemory) (token : ReteToken),
      ∃ m' key,
        addToken commonVariables m (ItemToken token) = Ok m' ∧
        pyset_mem (ItemToken token) (substitution_get m' key) = true ∧
        length key = length commonVariables ∧
        ∀ i var, commonVariables !! i = Some var →
                 key !! i = Some (dict_get (bindingDict token) var)).
Proof.
  split_and!.
  - apply elem_of_collectVariables_alpha.
  - intros leftPattern rightPattern b Hl Hr.
    destruct (BetaNode_init_alpha leftPattern rightPattern)
      as (node & Hnode & _ & Hlv & Hrv & Hcv).
    assert (BNode b ∈ collectVariables (AnAlphaNode leftPattern)) as Hl'
      by (apply elem_of_collectVariables_alpha; auto).
    assert (BNode b ∈ collectVariables (AnAlphaNode rightPattern)) as Hr'
      by (apply elem_of_collectVariables_alpha; auto).
    exists node. rewrite Hlv, Hrv, Hcv. split_and!; [done..|].
    by apply list_elem_of_filter.
  - intros cv m token.
    destruct (addToken_spec cv m (ItemToken token) (hash_token token) eq_refl)
      as (m' & Hm' & _ & _ & _ & Hkeys).
    exists m', (dict_get (bindingDict token) <$> cv). split_and!; [done|..].
    + destruct (Hkeys (dict_get (bindingDict token) <$> cv)) as [Hin _].
      rewrite Hin by (by apply list_elem_of_singleton).
      apply pyset_mem_insert. by apply bool_decide_eq_true.
    + by rewrite length_fmap.
    + intros i var Hi. by rewrite list_lookup_fmap, Hi.
Qed.

Lemma collectVariables_blank_nodes_witness :
  ∃ node,
    BetaNode_init (AnAlphaNode blank_left) (AnAlphaNode blank_right) false = Ok node ∧
    BNode "b" ∈ leftVariables node ∧ BNode "b" ∈ rightVariables node ∧
    BNode "b" ∈ commonVariables node.
Proof.
  apply (collectVariables_blank_nodes (H := distinct_hash)).
  - apply (bool_decide_unpack _). vm_compute. exact I.
  - apply (bool_decide_unpack _). vm_compute. exact I.
Defined.

(** C6, as the code has it: a join node with built-ins on both sides is
    refused with the assertion about two built-ins; a built-in on the left
    is never accepted; a built-in on the right with anything else on the left
    gives a node fed by a built-in from the right, whose left memory carries
    the filter; without built-ins the node is fed by none. *)
Theorem BetaNode_init_builtins (leftNode rightNode : pynode) (aPassThru : bool) :
  (isBuiltInAlphaNode leftNode = true → isBuiltInAlphaNode rightNode = true →
   BetaNode_init leftNode rightNode aPassThru = Raise (AssertionError both_builtins)) ∧
  (isBuiltInAlphaNode leftNode = true →
   ∃ e, BetaNode_init leftNode rightNode aPassThru = Raise e) ∧
  (isBuiltInAlphaNode leftNode = false →
   ∀ n3builtin, rightNode = ABuiltInAlphaNode n3builtin →
   ∃ node, BetaNode_init leftNode rightNode aPassThru = Ok node ∧
           fedByBuiltin node = Some RIGHT_MEMORY ∧
           mem_filter (memories node LEFT_MEMORY) = Some n3builtin) ∧
  (isBuiltInAlphaNode leftNode = false → isBuiltInAlphaNode rightNode = false →
   ∃ node, BetaNode_init leftNode rightNode aPassThru = Ok node ∧
           fedByBuiltin node = None).
Proof.
  unfold BetaNode_init. split_and!.
  - intros -> ->. done.
  - intros ->. destruct (isBuiltInAlphaNode rightNode); simpl; eauto.
  - intros -> n3builtin ->. simpl. destruct aPassThru; eexists; split; done.
  - intros -> Hr. destruct rightNode; try done; simpl;
      destruct aPassThru; eexists; split; done.
Qed.

Lemma BetaNode_init_builtins_witness :
  ∃ node,
    BetaNode_init (AnAlphaNode P1_pattern) (ABuiltInAlphaNode equal_builtin) false
    = Ok node ∧
    fedByBuiltin node = Some RIGHT_MEMORY ∧
    mem_filter (memories node LEFT_MEMORY) = Some equal_builtin.
Proof.
  apply (BetaNode_init_builtins (AnAlphaNode P1_pattern)
           (ABuiltInAlphaNode equal_builtin) false); reflexivity.
Defined.

(** C6, as the claim has it, fails: a built-in on the left alone, with a
    pattern on the right, does not give a node. *)
Lemma BetaNode_init_left_builtin_refused :
  BetaNode_init (ABuiltInAlphaNode equal_builtin) (AnAlphaNode P1_pattern) false
  = Raise TypeError ∧
  ¬ ∃ node,
      BetaNode_init (ABuiltInAlphaNode equal_builtin) (AnAlphaNode P1_pattern) false
      = Ok node.
Proof. split; [reflexivity|]. intros [node Hnode]. discriminate Hnode. Qed.

(** ** Memories *)

Section memories.
Context `{PyHash}.
Implicit Types (x y t : item) (m : ReteMemory) (h : Z) (cv : list term).

Lemma addToken_ok_iff cv m t :
  (∃ m', addToken cv m t = Ok m') ↔ ∃ h, item_hash t = Ok h.
Proof.
  split.
  - intros [m' Hm']. by eapply addToken_inv.
  - intros [h Hh]. destruct (addToken_spec cv m t h Hh) as (m' & ? & _). eauto.
Qed.

(** A memory that was filled by a series of [addToken]. *)
Lemma addToken_series cv (ts : list item) m0 m :
  foldM (addToken cv) ts m0 = Ok m →
  (∀ x, x ∈ mem_items m → x ∈ mem_items m0 ∨ x ∈ ts) ∧
  (∀ y, pyset_mem y (mem_items m0) = true → pyset_mem y (mem_items m) = true) ∧
  (∀ t, t ∈ ts → pyset_mem t (mem_items m) = true) ∧
  (∀ key x, x ∈ substitution_get m key →
            x ∈ substitution_get m0 key ∨ (x ∈ ts ∧ key ∈ commonVarKeys cv x)) ∧
  (∀ key y, pyset_mem y (substitution_get m0 key) = true →
            pyset_mem y (substitution_get m key) = true) ∧
  (∀ key t, t ∈ ts → key ∈ commonVarKeys cv t →
            pyset_mem t (substitution_get m key) = true).
Proof.
  revert m0. induction ts as [|t ts IH]; intros m0; simpl.
  - intros [= <-]. split_and!; try done; auto.
    + intros t Ht. by apply elem_of_nil in Ht.
    + intros key t Ht. by apply elem_of_nil in Ht.
  - destruct (addToken cv m0 t) as [m1|e] eqn:Hadd; simpl; [|done].
    intros Hm. destruct (IH m1 Hm) as (I1 & I2 & I3 & I4 & I5 & I6).
    destruct (addToken_inv _ _ _ _ Hadd) as [h Hh].
    destruct (addToken_spec cv m0 t h Hh) as (m1' & Hadd' & Hitems & _ & _ & Hkeys).
    rewrite Hadd in Hadd'. injection Hadd' as <-.
    pose proof (item_equal_refl t h Hh) as Hrefl.
    split_and!.
    + intros x [Hx|Hx]%I1; [|right; by right].
      rewrite Hitems in Hx. apply elem_of_pyset_insert in Hx as [?|[-> _]]; [by left|].
      right. by left.
    + intros y Hy. apply I2. rewrite Hitems. by apply pyset_mem_insert_mono.
    + intros t' [->|Ht']%elem_of_cons; [|by apply I3].
      apply I2. rewrite Hitems. by apply pyset_mem_insert.
    + intros key x [Hx|[Hx Hkey]]%I4; [|right; split; [by right|done]].
      destruct (Hkeys key) as [Hin Hnin].
      destruct (decide (key ∈ commonVarKeys cv t)) as [Hk|Hk].
      * rewrite Hin in Hx by done.
        apply elem_of_pyset_insert in Hx as [?|[-> _]]; [by left|].
        right. split; [by left | done].
      * rewrite Hnin in Hx by done. by left.
    + intros key y Hy. apply I5. destruct (Hkeys key) as [Hin Hnin].
      destruct (decide (key ∈ commonVarKeys cv t)) as [Hk|Hk].
      * rewrite Hin by done. by apply pyset_mem_insert_mono.
      * by rewrite Hnin.
    + intros key t' [->|Ht']%elem_of_cons Hkey; [|by apply I6].
      apply I5. destruct (Hkeys key) as [Hin _]. rewrite Hin by done.
      by apply pyset_mem_insert.
Qed.

End memories.


(** ** Memories only grow during propagation *)

Section growth.
Context `{PyHash}.

Lemma memory_le_refl (m : ReteMemory) : memory_le m m.
Proof. split; [done|]. intros key. done. Qed.

Lemma memory_le_trans (m1 m2 m3 : ReteMemory) :
  memory_le m1 m2 → memory_le m2 m3 → memory_le m1 m3.
Proof.
  intros [H1 H1'] [H2 H2']. split.
  - by transitivity (mem_items m2).
  - intros key. by transitivity (substitution_get m2 key).
Qed.

Lemma state_le_refl (st : state) : state_le st st.
Proof.
  intros name node Hnode. exists node. split; [done|]. intros pos.
  apply memory_le_refl.
Qed.

Lemma state_le_trans (st1 st2 st3 : state) :
  state_le st1 st2 → state_le st2 st3 → state_le st1 st3.
Proof.
  intros H12 H23 name node Hnode.
  destruct (H12 name node Hnode) as (node2 & Hnode2 & Hle2).
  destruct (H23 name node2 Hnode2) as (node3 & Hnode3 & Hle3).
  exists node3. split; [done|]. intros pos.
  by apply (memory_le_trans _ (memories node2 pos)).
Qed.

Lemma growing_ret {A : Type} (a : A) : growing (mret a).
Proof. intros st a' st' [= <- <-]. apply state_le_refl. Qed.

Lemma growing_lift {A : Type} (r : Result A) : growing (lift r).
Proof.
  intros st a st'. unfold lift. destruct r; [|done]. intros [= <- <-].
  apply state_le_refl.
Qed.

Lemma growing_bind {A B : Type} (c : M A) (f : A → M B) :
  growing c → (∀ a, growing (f a)) → growing (c ≫= f).
Proof.
  intros Hc Hf st b st'. unfold mbind, M_bind.
  destruct (c st) as [[a st1]|e] eqn:Hcst; [|done].
  intros Hfst. apply (state_le_trans _ st1); [by eapply Hc | by eapply Hf].
Qed.

Lemma growing_get_node (name : nat) : growing (get_node name).
Proof.
  intros st a st'. unfold get_node. destruct (nodes st !! name); [|done].
  intros [= <- <-]. apply state_le_refl.
Qed.

Lemma growing_forM {A : Type} (l : list A) (body : A → M unit) :
  (∀ x, growing (body x)) → growing (forM l body).
Proof.
  intros Hbody. induction l as [|x l IH]; simpl.
  - apply growing_ret.
  - apply growing_bind; [apply Hbody | intros _; apply IH].
Qed.

Lemma addToken_le (cv : list term) (m m' : ReteMemory) (t : item) :
  addToken cv m t = Ok m' → memory_le m m'.
Proof.
  intros Hadd. destruct (addToken_inv _ _ _ _ Hadd) as [h Hh].
  destruct (addToken_spec cv m t h Hh) as (m1 & Hadd' & Hitems & _ & _ & Hkeys).
  rewrite Hadd in Hadd'. injection Hadd' as <-. split.
  - rewrite Hitems. apply pyset_insert_subseteq.
  - intros key. destruct (Hkeys key) as [Hin Hnin].
    destruct (decide (key ∈ commonVarKeys cv t)).
    + rewrite Hin by done. apply pyset_insert_subseteq.
    + by rewrite Hnin.
Qed.

Lemma growing_memory_addToken (name : nat) (pos : position) (t : item) :
  growing (memory_addToken name pos t).
Proof.
  intros st a st'. unfold memory_addToken.
  destruct (nodes st !! name) as [node|] eqn:Hnode; [|done].
  destruct (addToken _ _ _) as [m|e] eqn:Hadd; [|done].
  intros [= <- <-]. intros name' node' Hnode'. simpl.
  destruct (decide (name' = name)) as [->|Hne].
  - rewrite lookup_insert_eq. eexists. split; [done|]. simplify_eq.
    intros q. simpl. case_decide as Hq; [|apply memory_le_refl]. subst q.
    by eapply addToken_le.
  - rewrite lookup_insert_ne by done. exists node'. split; [done|].
    intros q. apply memory_le_refl.
Qed.

Lemma growing_fireConsequent (tokens : PartialInstanciation) (termNode : nat) :
  growing (fireConsequent tokens termNode).
Proof.
  intros st a st'. unfold fireConsequent.
  destruct (pyset_add _ _); [|done]. intros [= <- <-].
  intros name node Hnode. exists node. split; [done|]. intros pos.
  apply memory_le_refl.
Qed.

Lemma growing_activate
    (propagate : nat → option position → option PartialInstanciation →
                 option ReteToken → M unit)
    (self : nat) (partInstOrList : PartialInstanciation) :
  (∀ name source p w, growing (propagate name source p w)) →
  growing (_activate propagate self partInstOrList).
Proof.
  intros Hprop. unfold _activate.
  apply growing_bind; [apply growing_get_node|]. intros node.
  apply growing_bind.
  - apply growing_forM. intros [successor position]. unfold activate_memory.
    apply growing_bind; [apply growing_memory_addToken|]. intros _.
    apply growing_bind; [apply growing_get_node|]. intros node'.
    destruct (_ || _); [|apply growing_ret].
    destruct position; apply Hprop.
  - intros _. case_bool_decide; [apply growing_fireConsequent | apply growing_ret].
Qed.

Lemma growing_activate_matches (activate : nat → PartialInstanciation → M unit)
    (self : nat) (matches : list item) :
  (∀ name p, growing (activate name p)) →
  growing (activate_matches activate self matches).
Proof.
  intros Hact. unfold activate_matches. apply growing_forM.
  intros [t|p]; [apply growing_ret | apply Hact].
Qed.

Lemma growing_propagate (fuel : nat) (self : nat) (source : option position)
    (partialInst : option PartialInstanciation) (wme : option ReteToken) :
  growing (propagate fuel self source partialInst wme).
Proof.
  revert self source partialInst wme.
  induction fuel as [|fuel IH]; intros self source partialInst wme.
  - intros st a st'. done.
  - assert (∀ name p, growing (_activate (propagate fuel) name p)) as Hact.
    { intros name p. by apply growing_activate. }
    cbn [propagate].
    apply growing_bind; [apply growing_get_node|]. intros node.
    destruct (aPassThru node).
    + case_bool_decide.
      * apply growing_bind; [apply growing_lift|]. intros _.
        destruct wme; [|apply growing_lift].
        apply growing_bind; [apply growing_lift | intros newP; apply Hact].
      * case_bool_decide; [|apply growing_ret].
        destruct wme, partialInst; try apply growing_ret; try apply Hact.
        all: apply growing_bind; [apply growing_lift | intros newP; apply Hact].
    + destruct source as [[|]|].
      * destruct partialInst; [|apply growing_lift].
        apply growing_bind; [apply growing_lift|]. intros matches.
        by apply growing_activate_matches.
      * destruct wme; (apply growing_bind; [apply growing_lift|]);
          intros matches; by apply growing_activate_matches.
      * destruct partialInst; [|apply growing_ret].
        apply growing_forM. intros binding. unfold signal_binding.
        apply growing_bind; [apply growing_get_node|]. intros node'.
        apply growing_bind; [apply growing_lift|]. intros commonVals.
        apply growing_bind; [apply growing_lift|]. intros both.
        case_bool_decide; [|apply growing_ret].
        apply growing_bind; [apply growing_lift | intros newP; apply Hact].
Qed.
End growth.

(** ** [_generateBindings] and [newJoin] on the tokens of the docstrings *)

Lemma is_ok_true {A : Type} (r : Result A) : is_ok r = true → ∃ a, r = Ok a.
Proof. destruct r; [eauto | done]. Qed.

(** Every value of [isolatedBindings] is filed under the one leftover
    variable: no set of [revIsolBindings] has more than one element. *)
Lemma generateBindings_rev_singletons (v : term) (iso : list (term * list pyval))
    (rev : list (pyval * list term)) :
  generateBindings_rev (Some v) iso = Ok rev → Forall (fun kv => kv.2 = [v]) rev.
Proof.
  unfold generateBindings_rev.
  assert (∀ (val : pyval) (rev : list (pyval * list term)),
            Forall (fun kv => kv.2 = [v]) rev →
            Forall (fun kv => kv.2 = [v]) (setdefault_add val v rev)) as Hstep.
  { intros val rev0. induction rev0 as [|[k s] rev0 IH]; simpl.
    - intros _. by constructor.
    - intros [Hs Hrest]%Forall_cons. simpl in Hs. subst s. case_decide.
      + constructor; [|done]. simpl. unfold set_add.
        rewrite decide_True; [done | by apply list_elem_of_singleton].
      + constructor; [done | by apply IH]. }
  assert (∀ vals (rev0 rev1 : list (pyval * list term)),
            Forall (fun kv => kv.2 = [v]) rev0 →
            foldM (fun rev val => Ok (setdefault_add val v rev)) vals rev0 = Ok rev1 →
            Forall (fun kv => kv.2 = [v]) rev1) as Hinner.
  { intros vals rev0 rev1 H0. rewrite foldM_pure. intros [= <-].
    revert rev0 H0. induction vals as [|val vals IH]; intros rev0 H0; simpl; [done|].
    apply IH, Hstep, H0. }
  generalize (@nil (pyval * list term)) (Forall_nil_2 (fun kv : pyval * list term => kv.2 = [v])).
  induction (iso.*2) as [|vals l IH]; intros rev0 H0; simpl.
  - by intros [= <-].
  - destruct (foldM _ vals rev0) as [rev1|e] eqn:Hvals; simpl; [|done].
    apply IH. by eapply Hinner.
Qed.

(** [newJoin] takes over every token of [self], whatever it binds. *)
Section newJoin.
Context `{PyHash}.

Lemma set_add_idemp (t : ReteToken) (s : list ReteToken) :
  set_add t (set_add t s) = set_add t s.
Proof.
  unfold set_add at 1. rewrite decide_True; [done|].
  apply elem_of_set_add. by left.
Qed.

Lemma newJoin_token_tokens (rightWME token : ReteToken)
    (newPInst newPInst' : PartialInstanciation) (it it' : pyiterable) :
  newJoin_token rightWME (newPInst, it) token = Ok (newPInst', it') →
  tokens newPInst' = set_add token (tokens newPInst) ∧
  joinedBindings newPInst' = joinedBindings newPInst.
Proof.
  unfold newJoin_token. destruct (iterable_elements it) as [vars it1].
  assert (∀ vars (commonVars : bool) (np : PartialInstanciation) r,
            (tokens np = tokens newPInst ∧ commonVars = false ∨
             tokens np = set_add token (tokens newPInst) ∧ commonVars = true) →
            joinedBindings np = joinedBindings newPInst →
            foldM (fun '(commonVars, newPInst) newVar =>
                     ok ← newJoin_consistent rightWME token newVar;
                     if ok : bool then
                       newPInst ← PartialInstanciation_add newPInst token true;
                       Ok (true, newPInst)
                     else Ok (commonVars, newPInst))
                  vars (commonVars, np) = Ok r →
            (tokens r.2 = tokens newPInst ∧ r.1 = false ∨
             tokens r.2 = set_add token (tokens newPInst) ∧ r.1 = true) ∧
            joinedBindings r.2 = joinedBindings newPInst) as Hloop.
  { clear. intros vars. induction vars as [|x vars IH]; intros cv np r Hinv Hjb; simpl.
    - intros [= <-]. done.
    - destruct (newJoin_consistent rightWME token x) as [[|]|e]; simpl; [| |done].
      + apply IH; [|done]. right. split; [|done]. simpl.
        destruct Hinv as [[-> _]|[-> _]]; [done | apply set_add_idemp].
      + by apply IH. }
  destruct (foldM _ vars (false, newPInst)) as [[cv np]|e] eqn:Hfold; simpl; [|done].
  apply Hloop in Hfold as [Hinv Hjb]; [|by left|done]. simpl in *.
  destruct cv; simpl.
  - intros [= <- <-]. destruct Hinv as [[_ ?]|[? _]]; done.
  - intros [= <- <-]. simpl. destruct Hinv as [[-> _]|[_ ?]]; done.
Qed.

Lemma newJoin_collect_tokens (self : PartialInstanciation) (rightWME : ReteToken)
    (newJoinVariables : pyiterable) (newPInst : PartialInstanciation) :
  newJoin_collect self rightWME newJoinVariables = Ok newPInst →
  tokens newPInst = set_of_list (tokens self).
Proof.
  unfold newJoin_collect. destruct (iterable_truth newJoinVariables).
  - destruct (project _ _) as [projected it]. simpl.
    assert (∀ ts (np : PartialInstanciation) it r,
              foldM (newJoin_token rightWME) ts (np, it) = Ok r →
              tokens r.1 = set_union (tokens np) ts) as Hloop.
    { clear. intros ts. induction ts as [|t ts IH]; intros np it r; cbn [foldM].
      - by intros [= <-].
      - destruct (newJoin_token rightWME (np, it) t) as [[np' it']|e] eqn:Hstep;
          simpl; [|done].
        apply newJoin_token_tokens in Hstep as [Ht _].
        intros Hr. apply IH in Hr. rewrite Hr, Ht. reflexivity. }
    destruct (foldM _ _ _) as [r|e] eqn:Hfold; simpl; [|done].
    intros [= <-]. by apply Hloop in Hfold.
  - simpl. rewrite add_noPostProcessing_loop. by intros [= <-].
Qed.

(** Whenever [newJoin] returns, the result holds every token of [self],
    and [rightWME]. *)
Lemma newJoin_tokens (self : PartialInstanciation) (rightWME : ReteToken)
    (newJoinVariables : pyiterable) (p : PartialInstanciation) :
  newJoin self rightWME newJoinVariables = Ok p →
  tokens p = set_add rightWME (set_of_list (tokens self)).
Proof.
  unfold newJoin.
  destruct (newJoin_collect _ _ _) as [newPInst|e] eqn:Hcollect; [|done].
  unfold mbind, Result_bind.
  apply newJoin_collect_tokens in Hcollect.
  destruct (PartialInstanciation_add_spec newPInst rightWME) as (p' & -> & _ & Ht & _).
  intros [= <-]. by rewrite Ht, Hcollect.
Qed.
End newJoin.

Lemma newJoin_collect_fields `{PyHash} (self : PartialInstanciation)
    (rightWME : ReteToken) (newJoinVariables : pyiterable) :
  newJoin_collect self rightWME newJoinVariables
  = newJoin_collect {| joinedBindings := joinedBindings self; tokens := tokens self;
                       bindings := []; hash := None |}
                    rightWME newJoinVariables.
Proof. reflexivity. Qed.

(** C1, where the code does not reject: two tokens that each
    contribute one free variable, [?A] and [?B], bound to the same term, give
    the single combination that assigns that term to both; nothing is
    rejected. *)
Theorem isolated_same_value_kept `{PyHash} :
  bindingDict token_A = {[ Var "A" := Some (URIRef "urn:v") ]} ∧
  bindingDict token_B = {[ Var "B" := Some (URIRef "urn:v") ]} ∧
  ∃ p, PartialInstanciation_init [token_A; token_B] ∅ = Ok p ∧
       tokens p = [token_A; token_B] ∧
       bindings p = [same_value_binding] ∧
       same_value_binding !! Var "A" = Some (Some (URIRef "urn:v")) ∧
       same_value_binding !! Var "B" = Some (Some (URIRef "urn:v")).
Proof.
  split; [by_compute|]. split; [by_compute|].
  assert (set_of_list [token_A; token_B] = [token_A; token_B]) as Hset by by_compute.
  assert (_generateBindings ∅ [token_A; token_B] = Ok [same_value_binding]) as Hgen
    by by_compute.
  unfold PartialInstanciation_init. rewrite bool_decide_eq_true_2 by done.
  rewrite add_noPostProcessing_loop. cbn [mbind Result_bind tokens joinedBindings].
  change (set_union [] [token_A; token_B]) with (set_of_list [token_A; token_B]).
  rewrite Hset, _generateHash_sorted by done.
  cbn [mbind Result_bind]. rewrite Hgen. cbn [mbind Result_bind].
  eexists. split; [reflexivity|]. cbn [tokens bindings].
  split_and!; [done | done | by_compute | by_compute].
Qed.

(** C3, the code on the docstring of [newJoin]: the instanciation holds
    [?P2 -> rdfs:range], the new token binds [?P2] to [rdfs:domain] and [?P2]
    is the new join variable, yet the token is in the result. *)
Theorem newJoin_keeps_inconsistent_token `{PyHash} :
  dict_get (bindingDict token_P2_range) (Var "P2") = Some rdfs_range ∧
  dict_get (bindingDict token_P1_P2_domain) (Var "P2") = Some rdfs_domain ∧
  ∃ inst newInst,
    PartialInstanciation_init docstring_tokens ∅ = Ok inst ∧
    newJoin inst token_P1_P2_domain (PyList [Var "P2"]) = Ok newInst ∧
    tokens newInst
    = [token_P1_domain; token_P2_range; token_P2_domain; token_P1_P2_domain] ∧
    token_P2_range ∈ tokens newInst.
Proof.
  split; [by_compute|]. split; [by_compute|].
  destruct (PartialInstanciation_init_spec docstring_tokens ∅)
    as (inst & Hinst & Hjb & Htokens & _).
  assert (set_of_list docstring_tokens = docstring_tokens) as Hset by by_compute.
  rewrite Hset in Htokens.
  destruct (is_ok_true (newJoin_collect inst token_P1_P2_domain (PyList [Var "P2"])))
    as [newPInst Hcollect].
  { rewrite newJoin_collect_fields, Hjb, Htokens. vm_compute. reflexivity. }
  destruct (PartialInstanciation_add_spec newPInst token_P1_P2_domain)
    as (newInst & Hadd & _).
  assert (newJoin inst token_P1_P2_domain (PyList [Var "P2"]) = Ok newInst) as Hjoin.
  { unfold newJoin. rewrite Hcollect. exact Hadd. }
  pose proof (newJoin_tokens _ _ _ _ Hjoin) as Hnew. rewrite Htokens, Hset in Hnew.
  assert (set_add token_P1_P2_domain docstring_tokens
          = [token_P1_domain; token_P2_range; token_P2_domain; token_P1_P2_domain])
    as Hfour by by_compute.
  rewrite Hfour in Hnew.
  exists inst, newInst. split_and!; [done..|].
  rewrite Hnew. by_compute.
Qed.

(** ** What removes items from a memory, and what does not *)




(** ** Null activations *)

Section null.
Context `{PyHash}.

(** Such a memory has nothing in its index as long as its set is empty. *)
Lemma filled_by_addToken_empty (cv : list term) (m : ReteMemory) :
  filled_by_addToken cv m → mem_items m = [] →
  ∀ key, substitution_get m key = [].
Proof.
  intros (position & filter & ts & Hm) Hempty key.
  destruct (addToken_series cv ts _ m Hm) as (_ & _ & I3 & I4 & _).
  destruct ts as [|t ts].
  - destruct (substitution_get m key) as [|x l] eqn:Hget; [done|].
    destruct (I4 key x) as [Hx|[Hx _]].
    + rewrite Hget. by left.
    + unfold substitution_get in Hx. simpl in Hx. rewrite lookup_empty in Hx.
      by apply elem_of_nil in Hx.
    + by apply elem_of_nil in Hx.
  - specialize (I3 t). rewrite Hempty in I3. discriminate I3. by left.
Qed.

Lemma checkNullActivation_true (self : BetaNode) (source : position) :
  checkNullActivation self source = true ↔
  fedByBuiltin self = None ∧ mem_items (memories self (opposite source)) = [].
Proof.
  unfold checkNullActivation, _oppositeMemory.
  rewrite andb_true_iff, !bool_decide_eq_true. done.
Qed.

Lemma opposite_ne (pos : position) : opposite pos ≠ pos.
Proof. by destruct pos. Qed.

Lemma checkNullActivation_set_memory (node : BetaNode) (pos : position)
    (m : ReteMemory) :
  checkNullActivation (set_memory node pos m) pos = checkNullActivation node pos.
Proof.
  unfold checkNullActivation, _oppositeMemory, set_memory. simpl.
  destruct (decide (opposite pos = pos)) as [Heq|_]; [|done].
  by apply opposite_ne in Heq.
Qed.

Lemma left_matches_empty (self : BetaNode) (partialInst : PartialInstanciation) :
  (∀ key, substitution_get (memories self RIGHT_MEMORY) key = []) →
  left_matches self partialInst = Ok [].
Proof.
  intros Hempty. unfold left_matches.
  induction (bindings partialInst) as [|binding bs IH]; simpl; [done|].
  rewrite Hempty. simpl. exact IH.
Qed.

Lemma right_matches_empty (self : BetaNode) (wme : ReteToken) (key : list pyval) :
  (∀ key, substitution_get (memories self LEFT_MEMORY) key = []) →
  mapM (dict_item (bindingDict wme)) (commonVariables self) = Ok key →
  right_matches self wme = Ok [].
Proof.
  intros Hempty Hkey. unfold right_matches. rewrite Hkey. simpl.
  specialize (Hempty key). unfold substitution_get in Hempty.
  destruct (substitutionDict (memories self LEFT_MEMORY) !! key) as [l|]; [|done].
  simpl in Hempty. by subst l.
Qed.
End null.



(** ** The docstrings, and two facts beyond the claims *)

(** The constructor on the tokens of the docstring of [newJoin]. *)
Example docstring_inst_init :
  PartialInstanciation_init (H := distinct_hash) docstring_tokens ∅ = Ok docstring_inst.
Proof. by_compute. Qed.

(** The third example in the docstring of [_generateBindings]:
    [len(inst.bindings)] is 3. *)
Example generateBindings_docstring :
  _generateBindings ∅ [token_P1_P2_domain; token_P1_domain; token_P2_range;
                       token_P1_P2_range_domain]
  = Ok [ {[ Var "P1" := Some rdfs_domain; Var "P2" := Some rdfs_range ]};
         {[ Var "P1" := Some rdfs_domain; Var "P2" := Some rdfs_domain ]};
         {[ Var "P1" := Some rdfs_range; Var "P2" := Some rdfs_domain ]} ].
Proof. by_compute. Qed.

(** The docstring of [BetaNode]: two firings, two instanciations in the
    conflict set, and "1 in left, 2 in right memories" of the terminal node;
    the same when the facts come in the opposite order. *)
Example docstring_firings :
  docstring_run docstring_facts = Ok (2, 2, 1, 2)%nat ∧
  docstring_run (reverse docstring_facts) = Ok (2, 2, 1, 2)%nat.
Proof. split; by_compute. Qed.

(** X1: [_generateBindings] never raises, and it derives at least one
    binding, whatever the tokens and the joined bindings. *)
Theorem generateBindings_total (joinedBindings : pydict) (tokens : list ReteToken) :
  ∃ bs, _generateBindings joinedBindings tokens = Ok bs ∧ bs ≠ [].
Proof. apply _generateBindings_ok. Qed.

(** X2: whenever [newJoin] returns, its result holds [rightWME] and every
    token of [self]; no token is left out for what it binds. *)
Theorem newJoin_takes_over_every_token `{PyHash} (self : PartialInstanciation)
    (rightWME : ReteToken) (newJoinVariables : pyiterable) (p : PartialInstanciation) :
  newJoin self rightWME newJoinVariables = Ok p →
  rightWME ∈ tokens p ∧ ∀ t, t ∈ tokens self → t ∈ tokens p.
Proof.
  intros Hp. rewrite (newJoin_tokens _ _ _ _ Hp). split.
  - apply elem_of_set_add. by left.
  - intros t Ht. apply elem_of_set_add. right. by apply elem_of_set_of_list.
Qed.

Lemma newJoin_takes_over_every_token_witness :
  ∃ p, newJoin (H := distinct_hash) docstring_inst token_P1_P2_domain
               (PyList [Var "P2"]) = Ok p ∧
       token_P1_P2_domain ∈ tokens p ∧
       ∀ t, t ∈ tokens docstring_inst → t ∈ tokens p.
Proof.
  destruct (is_ok_true (newJoin (H := distinct_hash) docstring_inst token_P1_P2_domain
                                (PyList [Var "P2"]))) as [p Hp];
    [vm_compute; reflexivity|].
  exists p. split; [exact Hp|].
  exact (newJoin_takes_over_every_token (H := distinct_hash) _ _ _ _ Hp).
Defined.

(** * Further properties *)

(** ** Projection of a dictionary *)

Section sets_length.
Context `{EqDecision A}.
Implicit Types (x y : A) (s t l : list A).

Lemma set_union_length_le s l :
  (length (set_union s l) ≤ length s + length l)%nat.
Proof.
  unfold set_union. revert s. induction l as [|x l IH]; intros s; simpl; [lia|].
  etransitivity; [apply IH|]. unfold set_add. case_decide; [lia|].
  rewrite length_app. simpl. lia.
Qed.

Lemma set_union_length_NoDup s l :
  NoDup s →
  length (set_union s l) = (length s + length l)%nat ↔ NoDup (s ++ l).
Proof.
  unfold set_union. revert s. induction l as [|x l IH]; intros s Hs; simpl.
  - rewrite app_nil_r. split; [done | intros _; lia].
  - destruct (decide (x ∈ s)) as [Hx|Hx].
    + replace (set_add x s) with s by (unfold set_add; by rewrite decide_True).
      pose proof (set_union_length_le s l) as Hle. unfold set_union in Hle.
      split; [lia|]. intros Hnd. exfalso.
      apply NoDup_app in Hnd as (_ & Hdisj & _). apply (Hdisj x Hx). left.
    + replace (set_add x s) with (s ++ [x])
        by (unfold set_add; by rewrite decide_False).
      replace (s ++ x :: l) with ((s ++ [x]) ++ l)
        by (by rewrite <-(assoc_L (++))).
      rewrite <-(IH (s ++ [x])).
      * rewrite length_app. simpl. split; lia.
      * apply NoDup_app. split_and!; [done | | apply NoDup_singleton].
        intros y Hy ->%list_elem_of_singleton. done.
Qed.

Lemma set_of_list_length_NoDup l :
  length l = length (set_of_list l) ↔ NoDup l.
Proof.
  change (set_of_list l) with (set_union [] l).
  rewrite <-(set_union_length_NoDup [] l) by apply NoDup_nil_2. simpl.
  split; intros; congruence.
Qed.
End sets_length.

Lemma elem_of_dict_keys (d : pydict) (k : term) : k ∈ dict_keys d ↔ is_Some (d !! k).
Proof.
  unfold dict_keys. rewrite list_elem_of_fmap. split.
  - intros ([k' v] & -> & Hkv). apply elem_of_map_to_list in Hkv. by exists v.
  - intros [v Hv]. exists (k, v). split; [done|]. by apply elem_of_map_to_list.
Qed.

Lemma NoDup_dict_keys (d : pydict) : NoDup (dict_keys d).
Proof. apply NoDup_fst_map_to_list. Qed.

Lemma foldl_insert_if (P : term → bool) (items : list (term * pyval)) (d0 : pydict) :
  NoDup items.*1 →
  foldl (fun (d : pydict) (item : term * pyval) =>
           if P item.1 then <[item.1 := item.2]> d else d) d0 items
  = list_to_map (filter (fun item => P item.1 = true) items) ∪ d0.
Proof.
  revert d0. induction items as [|[k v] items IH]; intros d0 Hnd; simpl.
  - by rewrite (left_id_L ∅ (∪)).
  - apply NoDup_cons in Hnd as [Hk Hnd]. rewrite IH by done.
    assert ((list_to_map (filter (fun item : term * pyval => P item.1 = true) items)
               : pydict) !! k = None) as Hnone.
    { apply not_elem_of_list_to_map_1. intros Hin. apply Hk.
      apply list_elem_of_fmap in Hin as (kv & -> & Hkv).
      apply list_elem_of_filter in Hkv as [_ Hkv].
      apply list_elem_of_fmap. by exists kv. }
    rewrite filter_cons. cbn [fst snd]. destruct (P k) eqn:HP.
    + rewrite decide_True by done. simpl.
      rewrite <-insert_union_l. by rewrite insert_union_r.
    + rewrite decide_False by done. done.
Qed.

Lemma lookup_list_to_map_filter (P : term → bool) (d : pydict) (k : term) :
  (list_to_map (filter (fun item : term * pyval => P item.1 = true) (map_to_list d))
     : pydict) !! k
  = if P k then d !! k else None.
Proof.
  apply option_eq. intros v.
  rewrite <-elem_of_list_to_map.
  - rewrite list_elem_of_filter, elem_of_map_to_list. cbn [fst].
    destruct (P k); [tauto|]. split; [intros [? _] | intros ?]; done.
  - apply (NoDup_fmap_fst _). 
    + intros k' v1 v2 Hin1 Hin2.
      apply list_elem_of_filter in Hin1 as [_ Hin1].
      apply list_elem_of_filter in Hin2 as [_ Hin2].
      apply elem_of_map_to_list in Hin1. apply elem_of_map_to_list in Hin2.
      congruence.
    + apply NoDup_filter, NoDup_map_to_list.
Qed.

(** [project] with a list of attributes keeps the entries whose key is in the
    list and leaves the list as it is. *)
Lemma project_list (d : pydict) (l : list term) (k : term) :
  (project d (PyList l)).2 = PyList l ∧
  (project d (PyList l)).1 !! k = if decide (k ∈ l) then d !! k else None.
Proof.
  unfold project.
  match goal with
  | |- context [foldl ?f _ _] =>
      assert (∀ items d0,
                foldl f (d0, PyList l) items
                = (foldl (fun (d : pydict) (item : term * pyval) =>
                            if bool_decide (item.1 ∈ l) then <[item.1 := item.2]> d else d)
                         d0 items, PyList l)) as Hfold
  end.
  { induction items as [|[k' v] items IH]; intros d0; simpl; [done|]. apply IH. }
  rewrite Hfold. cbn [fst snd]. split; [done|].
  pose proof (foldl_insert_if (fun key => bool_decide (key ∈ l)) (map_to_list d) ∅
                (NoDup_fst_map_to_list d)) as Hins.
  cbv beta in Hins. rewrite Hins, (right_id_L ∅ (∪)).
  pose proof (lookup_list_to_map_filter (fun key => bool_decide (key ∈ l)) d k) as Hlook.
  cbv beta in Hlook. rewrite Hlook.
  destruct (decide (k ∈ l)).
  - by rewrite bool_decide_eq_true_2.
  - by rewrite bool_decide_eq_false_2.
Qed.

Lemma project_inverse_list (d : pydict) (l : list term) (k : term) :
  (project_inverse d (PyList l)).2 = PyList l ∧
  (project_inverse d (PyList l)).1 !! k = if decide (k ∈ l) then None else d !! k.
Proof.
  unfold project_inverse.
  match goal with
  | |- context [foldl ?f _ _] =>
      assert (∀ items d0,
                foldl f (d0, PyList l) items
                = (foldl (fun (d : pydict) (item : term * pyval) =>
                            if negb (bool_decide (item.1 ∈ l))
                            then <[item.1 := item.2]> d else d)
                         d0 items, PyList l)) as Hfold
  end.
  { induction items as [|[k' v] items IH]; intros d0; simpl; [done|].
    rewrite <-IH. by destruct (bool_decide (k' ∈ l)). }
  rewrite Hfold. cbn [fst snd]. split; [done|].
  pose proof (foldl_insert_if (fun key => negb (bool_decide (key ∈ l))) (map_to_list d) ∅
                (NoDup_fst_map_to_list d)) as Hins.
  cbv beta in Hins. rewrite Hins, (right_id_L ∅ (∪)).
  pose proof (lookup_list_to_map_filter (fun key => negb (bool_decide (key ∈ l))) d k)
    as Hlook.
  cbv beta in Hlook. rewrite Hlook.
  destruct (decide (k ∈ l)).
  - by rewrite bool_decide_eq_true_2.
  - by rewrite bool_decide_eq_false_2.
Qed.

(** X3: [project(d, attributes)] keeps exactly the entries of [d] whose key
    is among the attributes (an attribute that is no key of [d] gives
    nothing), [project(d, attributes, True)] keeps exactly the others, and the
    two halves put together are [d] again. *)
Theorem project_partition (d : pydict) (attributes : list term) :
  (∀ k, (project d (PyList attributes)).1 !! k
        = if decide (k ∈ attributes) then d !! k else None) ∧
  (∀ k, (project_inverse d (PyList attributes)).1 !! k
        = if decide (k ∈ attributes) then None else d !! k) ∧
  (project d (PyList attributes)).1 ##ₘ (project_inverse d (PyList attributes)).1 ∧
  (project d (PyList attributes)).1 ∪ (project_inverse d (PyList attributes)).1 = d.
Proof.
  split_and!.
  - intros k. apply project_list.
  - intros k. apply project_inverse_list.
  - apply map_disjoint_spec. intros k v1 v2 H1 H2.
    rewrite (proj2 (project_list d attributes k)) in H1.
    rewrite (proj2 (project_inverse_list d attributes k)) in H2.
    by destruct (decide (k ∈ attributes)).
  - apply map_eq. intros k. rewrite lookup_union.
    rewrite (proj2 (project_list d attributes k)).
    rewrite (proj2 (project_inverse_list d attributes k)).
    destruct (decide (k ∈ attributes)), (d !! k); done.
Qed.

(** ** [unify] *)

Lemma round_out (a b : pydict) :
  dict_update a
    (project b (PyList (filter (fun key => a !! key = None) (dict_keys b)))).1
  = a ∪ b.
Proof.
  unfold dict_update. apply map_eq. intros k. rewrite !lookup_union.
  rewrite (proj2 (project_list _ _ k)).
  destruct (decide (k ∈ _)) as [Hin|Hnin].
  - apply list_elem_of_filter in Hin as [Ha _]. rewrite Ha.
    by destruct (b !! k).
  - destruct (a !! k) as [va|] eqn:Ha; [by destruct (b !! k)|].
    destruct (b !! k) as [vb|] eqn:Hb; [|done].
    exfalso. apply Hnin. apply list_elem_of_filter. split; [done|].
    apply elem_of_dict_keys. by rewrite Hb.
Qed.

Lemma bothKeys_NoDup (jb left right : pydict) :
  NoDup (filter (fun key => jb !! key = None) (dict_keys left ++ dict_keys right))
  ↔ ¬ shares_free_key jb left right.
Proof.
  rewrite filter_app, NoDup_app. split.
  - intros (_ & Hdisj & _) (k & Hjb & Hl & Hr).
    apply (Hdisj k); apply list_elem_of_filter; by rewrite elem_of_dict_keys.
  - intros Hn. split_and!; try apply NoDup_filter, NoDup_dict_keys.
    intros k [Hjb Hl]%list_elem_of_filter [_ Hr]%list_elem_of_filter.
    apply Hn. exists k. rewrite <-!elem_of_dict_keys. by split_and!.
Qed.

Lemma unify_spec (jb left right : pydict) :
  (¬ shares_free_key jb left right → unify jb left right = inl (right ∪ left)) ∧
  (shares_free_key jb left right →
   unify jb left right = inr (left ∪ right, right ∪ left)).
Proof.
  unfold unify. case_bool_decide as Hlen;
    rewrite set_of_list_length_NoDup, bothKeys_NoDup in Hlen.
  - split; [done | tauto].
  - split; [tauto|]. intros _. rewrite !round_out. do 2 f_equal.
    apply map_eq. intros k. rewrite !lookup_union.
    by destruct (right !! k), (left !! k).
Qed.

Lemma classic_shares (jb left right : pydict) :
  shares_free_key jb left right ∨ ¬ shares_free_key jb left right.
Proof.
  destruct (decide (NoDup (filter (fun key => jb !! key = None)
                                  (dict_keys left ++ dict_keys right)))) as [Hnd|Hnd].
  - right. by apply bothKeys_NoDup.
  - left. destruct (unify_spec jb left right) as [Hinl Hinr].
    rewrite bothKeys_NoDup in Hnd.
    destruct (decide (Exists (fun key => jb !! key = None ∧ is_Some (right !! key))
                             (dict_keys left))) as [Hex|Hex].
    + apply Exists_exists in Hex as (k & Hk & Hjb & Hr).
      exists k. by rewrite <-elem_of_dict_keys.
    + exfalso. apply Hnd. intros (k & Hjb & Hl & Hr). apply Hex.
      apply Exists_exists. exists k. by rewrite elem_of_dict_keys.
Qed.

(** X4: [unify] gives one dictionary, [left] updated with [right], exactly
    when the two have no key in common outside [joinedBindings]; otherwise it
    gives two dictionaries over the keys of both, the first with the values
    of [left] where both have a key, the second with those of [right]. *)
Theorem unify_merges_or_rounds_out (joinedBindings left right : pydict) :
  (¬ shares_free_key joinedBindings left right →
   unify joinedBindings left right = inl (dict_update left right)) ∧
  (shares_free_key joinedBindings left right →
   ∃ l r, unify joinedBindings left right = inr (l, r) ∧
          dom l = dom left ∪ dom right ∧ dom r = dom left ∪ dom right ∧
          left ⊆ l ∧ right ⊆ r ∧
          (∀ k, left !! k = None → l !! k = right !! k) ∧
          (∀ k, right !! k = None → r !! k = left !! k)).
Proof.
  destruct (unify_spec joinedBindings left right) as [Hinl Hinr].
  split; [exact Hinl|]. intros Hs. exists (left ∪ right), (right ∪ left).
  split_and!.
  - by apply Hinr.
  - by rewrite dom_union_L.
  - by rewrite dom_union_L, (comm_L (∪)).
  - apply map_union_subseteq_l.
  - apply map_union_subseteq_l.
  - intros k Hk. rewrite lookup_union, Hk. by destruct (right !! k).
  - intros k Hk. rewrite lookup_union, Hk. by destruct (left !! k).
Qed.

(** ** What [_generateBindings] derives *)

Lemma foldM_preserves {A B : Type} (I : B → Prop) (P : A → Prop)
    (f : B → A → Result B) (l : list A) (b b' : B) :
  (∀ b x b', I b → P x → f b x = Ok b' → I b') →
  Forall P l → I b → foldM f l b = Ok b' → I b'.
Proof.
  intros Hf. revert b. induction l as [|x l IH]; intros b Hl Hb; simpl.
  - by intros [= <-].
  - apply Forall_cons in Hl as [Hx Hl].
    destruct (f b x) as [b1|e] eqn:Hfx; simpl; [|done].
    apply IH; [done|]. by eapply Hf.
Qed.

Lemma foldl_preserves {A B : Type} (I : B → Prop) (P : A → Prop)
    (f : B → A → B) (l : list A) (b : B) :
  (∀ b x, I b → P x → I (f b x)) → Forall P l → I b → I (foldl f b l).
Proof.
  intros Hf. revert b. induction l as [|x l IH]; intros b Hl Hb; simpl; [done|].
  apply Forall_cons in Hl as [Hx Hl]. apply IH; [done|]. by apply Hf.
Qed.

Lemma generateBindings_keys_newDict (jb : pydict) (var : option term)
    (token : ReteToken) (k : term) (v : pyval) :
  (generateBindings_keys jb var token).1.2 !! k = Some v →
  bindingDict token !! k = Some v ∧ jb !! k = None.
Proof.
  unfold generateBindings_keys.
  remember (filter (fun item : term * pyval => jb !! item.1 = None)
                   (map_to_list (bindingDict token))) as l eqn:Hl.
  assert (NoDup l.*1) as Hnd.
  { rewrite Hl. apply (NoDup_fmap_fst _).
    - intros k' v1 v2 Hin1 Hin2.
      apply list_elem_of_filter in Hin1 as [_ Hin1].
      apply list_elem_of_filter in Hin2 as [_ Hin2].
      apply elem_of_map_to_list in Hin1. apply elem_of_map_to_list in Hin2.
      congruence.
    - apply NoDup_filter, NoDup_map_to_list. }
  assert (∀ item, item ∈ l → bindingDict token !! item.1 = Some item.2 ∧
                              jb !! item.1 = None) as Hitems.
  { intros [k' v'] Hin. rewrite Hl in Hin.
    apply list_elem_of_filter in Hin as [Hjb Hin].
    by apply elem_of_map_to_list in Hin. }
  clear Hl.
  assert (∀ (var : option term) (nd : pydict) (n : nat),
    (foldl (fun '((var, newDict, noIterations) : option term * pydict * nat)
                (item : term * pyval) =>
              let var := item.1 in
              (Some var, <[var := item.2]> newDict, S noIterations))
           (var, nd, n) l).1.2 !! k = Some v →
    nd !! k = Some v ∨ (k, v) ∈ l) as Hgen.
  { clear var Hnd Hitems. induction l as [|[k' v'] l IH]; intros var nd n; simpl; [auto|].
    intros [Hnd|Hin]%IH; [|right; by right].
    destruct (decide (k' = k)) as [->|Hne].
    - rewrite lookup_insert_eq in Hnd. simplify_eq. right. left.
    - rewrite lookup_insert_ne in Hnd by done. auto. }
  intros [Hnd0|Hin]%Hgen.
  - by rewrite lookup_empty in Hnd0.
  - by apply (Hitems (k, v)).
Qed.

Lemma elem_of_setdefault_add {K V : Type} `{EqDecision K, EqDecision V}
    (k k' : K) (v v' : V) (s' : list V) (d : list (K * list V)) :
  (k', s') ∈ setdefault_add k v d → v' ∈ s' →
  (k' = k ∧ v' = v) ∨ ∃ s, (k', s) ∈ d ∧ v' ∈ s.
Proof.
  induction d as [|[k0 s0] d IH]; simpl.
  - intros Hin%list_elem_of_singleton Hv. simplify_eq.
    apply list_elem_of_singleton in Hv. by left.
  - case_decide as Hk.
    + subst k0. intros [Heq|Hin]%elem_of_cons Hv.
      * simplify_eq. apply elem_of_set_add in Hv as [->|Hv]; [by left|].
        right. exists s0. split; [left | done].
      * right. exists s'. split; [by right | done].
    + intros [Heq|Hin]%elem_of_cons Hv.
      * simplify_eq. right. eexists. split; [left | done].
      * destruct (IH Hin Hv) as [?|(s & Hs & Hvs)]; [by left|].
        right. exists s. split; [by right | done].
Qed.

Lemma generateBindings_token_sound (jb : pydict) (tokens : list ReteToken)
    st (token : ReteToken) st' :
  token ∈ tokens → collected_from tokens st →
  generateBindings_token jb st token = Ok st' → collected_from tokens st'.
Proof.
  destruct st as [[var iso] forced]. intros Htoken [Hiso Hforced].
  simpl in Hiso, Hforced. unfold generateBindings_token.
  pose proof (generateBindings_keys_newDict jb var token) as Hnd.
  destruct (generateBindings_keys jb var token) as [[var' newDict] n].
  simpl in Hnd. case_bool_decide as Hone.
  - destruct var' as [v|]; [|done].
    destruct (dict_item (bindingDict token) v) as [val|e] eqn:Hval; [|done].
    simpl. intros [= <-]. split; simpl; [|done].
    intros k vals val' Hin Hval'.
    destruct (elem_of_setdefault_add _ _ _ _ _ _ Hin Hval') as [[-> ->]|(s & Hs & Hv)].
    + exists token. split; [done|]. unfold dict_item in Hval.
      destruct (bindingDict token !! v); by simplify_eq.
    + by apply (Hiso k s).
  - case_bool_decide.
    + intros [= <-]. split; simpl; [done|].
      apply Forall_app. split; [done|]. apply Forall_singleton.
      intros k v Hkv. exists token. split; [done|]. by apply Hnd.
    + intros [= <-]. by split.
Qed.

Lemma derived_binding_update (jb : pydict) (tokens : list ReteToken) (d : pydict) :
  (∀ k v, d !! k = Some v → ∃ t, t ∈ tokens ∧ bindingDict t !! k = Some v) →
  derived_binding jb tokens (dict_update d jb).
Proof.
  intros Hd. unfold dict_update. split; [apply map_union_subseteq_l|].
  intros k v [Hjb|[_ Hkv]]%lookup_union_Some_raw; [by left|].
  right. by apply Hd.
Qed.

Lemma derived_binding_union (jb : pydict) (tokens : list ReteToken) (a b : pydict) :
  derived_binding jb tokens a → derived_binding jb tokens b →
  derived_binding jb tokens (a ∪ b).
Proof.
  intros [Ha1 Ha2] [Hb1 Hb2]. split.
  - etransitivity; [exact Ha1 | apply map_union_subseteq_l].
  - intros k v [Ha|[_ Hb]]%lookup_union_Some_raw; auto.
Qed.

Lemma collapse_derived (jb : pydict) (tokens : list ReteToken)
    (left : list pydict) (right : pydict) :
  Forall (derived_binding jb tokens) left → derived_binding jb tokens right →
  Forall (derived_binding jb tokens) (collapse jb left right).
Proof.
  intros Hleft Hright. unfold collapse.
  destruct left as [|l0 [|l1 left]].
  - by apply Forall_singleton.
  - apply Forall_inv in Hleft.
    destruct (unify_spec jb l0 right) as [Hinl Hinr].
    destruct (classic_shares jb l0 right) as [Hs|Hs].
    + rewrite Hinr by done. apply Forall_cons. split; [|apply Forall_singleton];
        by apply derived_binding_union.
    + rewrite Hinl by done. apply Forall_singleton. by apply derived_binding_union.
  - apply Forall_app. split; [done|]. by apply Forall_singleton.
Qed.

Lemma generateBindings_isolated_derived (jb : pydict) (tokens : list ReteToken)
    (rev : list (pyval * list term)) (bindings : list pydict)
    (i : list (term * pyval)) (bs : list pydict) :
  (∀ k v, (k, v) ∈ i → ∃ t, t ∈ tokens ∧ bindingDict t !! k = Some v) →
  Forall (derived_binding jb tokens) bindings →
  generateBindings_isolated jb rev bindings i = Ok bs →
  Forall (derived_binding jb tokens) bs.
Proof.
  intros Hi Hbindings. unfold generateBindings_isolated.
  apply (foldM_preserves (Forall (derived_binding jb tokens)) (fun _ => True));
    [|by apply Forall_forall|done].
  intros b val b' Hb _.
  destruct (alist_item rev val) as [keysForVal|e]; simpl; [|done].
  case_bool_decide; [|by intros [= <-]].
  intros [= <-]. case_decide; [done|].
  apply Forall_app. split; [done|]. apply Forall_singleton.
  apply derived_binding_update. intros k v Hkv.
  by apply Hi, dict_of_pairs_lookup.
Qed.

Lemma generateBindings_many_derived (jb : pydict) (tokens : list ReteToken)
    (bs : list pydict) :
  generateBindings_many jb tokens = Ok bs → Forall (derived_binding jb tokens) bs.
Proof.
  unfold generateBindings_many.
  destruct (foldM (generateBindings_token jb) tokens (None, [], []))
    as [[[var iso] forced]|e] eqn:Htokens; [|done].
  assert (collected_from tokens (var, iso, forced)) as [Hiso Hforced].
  { eapply (foldM_preserves (collected_from tokens) (fun t => t ∈ tokens));
      [| |
       |exact Htokens].
    - intros st token st' Hst Htoken. by apply generateBindings_token_sound.
    - by apply Forall_forall.
    - split; simpl; [|done]. intros k vals val Hin. by apply elem_of_nil in Hin. }
  simpl in Hiso, Hforced. simpl.
  destruct (generateBindings_rev var iso) as [rev|e]; [|done]. simpl.
  match goal with
  | |- (?c ≫= _) = _ → _ => destruct c as [bs0|e] eqn:Hisolated; [|done]
  end.
  simpl. intros [= <-].
  assert (Forall (derived_binding jb tokens) bs0) as Hbs0.
  { case_bool_decide; [|by simplify_eq].
    eapply (foldM_preserves (Forall (derived_binding jb tokens))
              (fun i : list (term * pyval) =>
                 ∀ k v, (k, v) ∈ i → ∃ t, t ∈ tokens ∧ bindingDict t !! k = Some v));
      [| |
       |exact Hisolated].
    - intros b i b' Hb Hi. by apply generateBindings_isolated_derived.
    - apply Forall_forall. intros i Hcomb%xcombine_elem k v Hkv.
      apply list_elem_of_lookup in Hkv as [n Hn].
      destruct (Forall2_lookup_l _ _ _ _ _ Hcomb Hn) as (s & Hs & Hin).
      apply list_lookup_fmap_Some in Hs as ([k' vals] & -> & Hkv').
      apply list_elem_of_fmap in Hin as (val & Heq & Hval). simplify_eq/=.
      apply (Hiso k' vals); [|done]. by eapply list_elem_of_lookup_2.
    - done. }
  match goal with
  | |- context [foldl (collapse jb) [] ?forcedAdded] =>
      assert (Forall (derived_binding jb tokens) forcedAdded) as Hadded
  end.
  { apply (foldl_preserves (Forall (derived_binding jb tokens))
             (fun d : pydict =>
                ∀ k v, d !! k = Some v → ∃ t, t ∈ tokens ∧ bindingDict t !! k = Some v));
      [|done|done].
    intros b d Hb Hd. cbv zeta. case_decide; [done|].
    apply Forall_app. split; [done|]. apply Forall_singleton.
    by apply derived_binding_update. }
  match goal with
  | |- context [foldl (collapse jb) [] ?forcedAdded] =>
      assert (Forall (derived_binding jb tokens) (foldl (collapse jb) [] forcedAdded))
        as Hcollapsed
  end.
  { apply (foldl_preserves (Forall (derived_binding jb tokens))
             (derived_binding jb tokens)); [|done|done].
    intros b d Hb Hd. by apply collapse_derived. }
  match goal with
  | |- Forall _ (if ?b then _ else _) => destruct b; [|exact Hcollapsed]
  end.
  apply Forall_singleton. split; [done|]. intros k v Hkv. by left.
Qed.

Lemma generateBindings_many_joined (jb : pydict) (tokens : list ReteToken) :
  (∀ t k, t ∈ tokens → is_Some (bindingDict t !! k) → is_Some (jb !! k)) →
  generateBindings_many jb tokens = Ok [jb].
Proof.
  intros Hjoined. unfold generateBindings_many.
  assert (foldM (generateBindings_token jb) tokens (None, [], []) = Ok (None, [], []))
    as ->.
  { induction tokens as [|token tokens IH]; cbn [foldM]; [done|].
    assert (generateBindings_token jb (None, [], []) token = Ok (None, [], [])) as ->.
    { unfold generateBindings_token.
      destruct (generateBindings_keys_spec jb None token) as [nd ->].
      assert (filter (fun item : term * pyval => jb !! item.1 = None)
                     (map_to_list (bindingDict token)) = []) as ->; [|done].
      destruct (filter _ _) as [|[k v] l] eqn:Hl; [done|]. exfalso.
      assert ((k, v) ∈ filter (fun item : term * pyval => jb !! item.1 = None)
                              (map_to_list (bindingDict token))) as Hin
        by (rewrite Hl; left).
      apply list_elem_of_filter in Hin as [Hjb Hkv]. simpl in Hjb.
      apply elem_of_map_to_list in Hkv.
      destruct (Hjoined token k) as [w Hw]; [left | by rewrite Hkv |].
      by rewrite Hw in Hjb. }
    cbn [mbind Result_bind]. apply IH. intros t k Ht. apply Hjoined. by right. }
  reflexivity.
Qed.

Lemma _generateBindings_derived (jb : pydict) (tokens : list ReteToken)
    (bs : list pydict) :
  length tokens ≠ 1%nat → _generateBindings jb tokens = Ok bs →
  Forall (derived_binding jb tokens) bs.
Proof.
  intros Hlen Hbs. apply generateBindings_many_derived.
  destruct tokens as [|t [|t' tokens]]; done.
Qed.

(** X5: every entry of a binding that [_generateBindings] derives is an entry
    of [joinedBindings] or of the binding of one of the tokens, and, unless
    there is exactly one token, every derived binding has all the entries of
    [joinedBindings]. *)
Theorem generateBindings_entries (joinedBindings : pydict) (tokens : list ReteToken)
    (bs : list pydict) :
  _generateBindings joinedBindings tokens = Ok bs →
  (∀ b k v, b ∈ bs → b !! k = Some v → entry_from joinedBindings tokens k v) ∧
  (length tokens ≠ 1%nat → ∀ b, b ∈ bs → joinedBindings ⊆ b).
Proof.
  intros Hbs.
  assert (length tokens ≠ 1%nat → Forall (derived_binding joinedBindings tokens) bs)
    as Hmany by (intros Hlen; by apply _generateBindings_derived).
  split.
  - intros b k v Hb Hkv. destruct (decide (length tokens = 1%nat)) as [Hone|Hlen].
    + destruct tokens as [|t [|t' tokens]]; try done. simpl in Hbs. simplify_eq.
      apply list_elem_of_singleton in Hb as ->. right. exists t. split; [left | done].
    + apply Hmany in Hlen. rewrite Forall_forall in Hlen.
      by apply (Hlen b Hb).
  - intros Hlen b Hb. apply Hmany in Hlen. rewrite Forall_forall in Hlen.
    by apply (Hlen b Hb).
Qed.

Lemma generateBindings_entries_witness :
  entry_from ∅ [token_A; token_B] (Var "A") (Some (URIRef "urn:v")) ∧
  (∅ : pydict) ⊆ same_value_binding.
Proof.
  destruct (generateBindings_entries ∅ [token_A; token_B] [same_value_binding])
    as [Hentries Hjoined]; [by_compute|].
  split.
  - apply (Hentries same_value_binding); [by apply list_elem_of_singleton | by_compute].
  - apply Hjoined; [simpl; lia | by apply list_elem_of_singleton].
Defined.

(** X6: when every variable that the tokens bind is a key of
    [joinedBindings], and there is not exactly one token, [_generateBindings]
    derives the single binding [joinedBindings]; with exactly one token it
    derives the binding of that token, whatever [joinedBindings] is. *)
Theorem generateBindings_all_joined (joinedBindings : pydict) (tokens : list ReteToken) :
  (length tokens ≠ 1%nat →
   (∀ t k, t ∈ tokens → is_Some (bindingDict t !! k) → is_Some (joinedBindings !! k)) →
   _generateBindings joinedBindings tokens = Ok [joinedBindings]) ∧
  (∀ token, _generateBindings joinedBindings [token] = Ok [bindingDict token]).
Proof.
  split; [|done]. intros Hlen Hjoined.
  rewrite <-(generateBindings_many_joined joinedBindings tokens Hjoined).
  destruct tokens as [|t [|t' tokens]]; done.
Qed.

Lemma generateBindings_all_joined_witness :
  _generateBindings P1_P2_joined [token_P1_domain; token_P2_range] = Ok [P1_P2_joined].
Proof.
  apply (generateBindings_all_joined P1_P2_joined [token_P1_domain; token_P2_range]).
  - simpl. lia.
  - intros t k Ht Hk.
    assert (bindingDict t ⊆ P1_P2_joined) as Hsub.
    { apply list_elem_of_In in Ht. simpl in Ht.
      destruct Ht as [<-|[<-|[]]]; by_compute. }
    destruct Hk as [v Hv]. exists v. by eapply lookup_weaken.
Defined.

(** ** [addConsistentBinding] *)

Lemma dict_of_pairs_None (vs : list term) (k : term) :
  dict_of_pairs ((fun v : term => (v, None)) <$> vs) !! k
  = if decide (k ∈ vs) then Some None else None.
Proof.
  unfold dict_of_pairs.
  assert (∀ d : pydict,
            foldl (fun d (p : term * pyval) => <[p.1 := p.2]> d) d
                  ((fun v : term => (v, None)) <$> vs) !! k
            = if decide (k ∈ vs) then Some None else d !! k) as Hgen.
  { induction vs as [|v vs IH]; intros d.
    - by destruct (decide (k ∈ [])) as [Hin%elem_of_nil|].
    - cbn [fmap list_fmap foldl]. rewrite IH. cbn [fst snd].
      destruct (decide (k ∈ vs)) as [Hin|Hnin],
               (decide (k ∈ v :: vs)) as [Hin'|Hnin']; try done.
      + exfalso. apply Hnin'. by right.
      + apply elem_of_cons in Hin' as [->|?]; [|done]. by rewrite lookup_insert_eq.
      + rewrite lookup_insert_ne; [done|]. intros ->. apply Hnin'. left. }
  rewrite Hgen. by rewrite lookup_empty.
Qed.

(** One round of the loop of [addConsistentBinding] over the keys of
    [newJoinDict]: a key that still has [None] takes what [binding] gives. *)
Lemma addConsistentBinding_round (binding : pydict) (l : list (term * pyval))
    (acc : pydict) (k : term) :
  NoDup l.*1 →
  foldl (fun (newJoinDict : pydict) '(key, val) =>
           match dict_get binding key, val with
           | Some boundVal, None => <[key := Some boundVal]> newJoinDict
           | _, _ => newJoinDict
           end) acc l !! k
  = if decide ((k, None) ∈ l) then
      match dict_get binding k with
      | Some boundVal => Some (Some boundVal)
      | None => acc !! k
      end
    else acc !! k.
Proof.
  revert acc. induction l as [|[k' v'] l IH]; intros acc Hnd.
  - by destruct (decide ((k, None) ∈ [])) as [Hin%elem_of_nil|].
  - rewrite fmap_cons in Hnd. apply NoDup_cons in Hnd as [Hk' Hnd].
    cbn [foldl]. rewrite IH by done.
    assert (k ≠ k' →
            (match dict_get binding k', v' with
             | Some boundVal, None => <[k' := Some boundVal]> acc
             | _, _ => acc
             end) !! k = acc !! k) as Hacc.
    { intros Hne. destruct (dict_get binding k'), v'; try done.
      by rewrite lookup_insert_ne. }
    destruct (decide ((k, None) ∈ l)) as [Hin|Hnin],
             (decide ((k, None) ∈ (k', v') :: l)) as [Hin'|Hnin'].
    + rewrite Hacc; [done|]. intros ->. apply Hk'.
      apply list_elem_of_fmap. by exists (k', None).
    + exfalso. apply Hnin'. by right.
    + apply elem_of_cons in Hin' as [Heq|?]; [|done]. simplify_eq.
      destruct (dict_get binding k'); [by rewrite lookup_insert_eq | done].
    + destruct (decide (k = k')) as [->|Hne]; [|by apply Hacc].
      destruct v' as [t|]; [by destruct (dict_get binding k')|].
      exfalso. apply Hnin'. left.
Qed.

Lemma addConsistentBinding_rounds (bindings : list pydict) (acc : pydict) (k : term) :
  foldl (fun newJoinDict binding =>
           foldl (fun (newJoinDict : pydict) '(key, val) =>
                    match dict_get binding key, val with
                    | Some boundVal, None => <[key := Some boundVal]> newJoinDict
                    | _, _ => newJoinDict
                    end)
                 newJoinDict (map_to_list newJoinDict))
        acc bindings !! k
  = match acc !! k with
    | Some None => Some (first_bound bindings k)
    | other => other
    end.
Proof.
  revert acc. induction bindings as [|binding bindings IH]; intros acc.
  - unfold first_bound. simpl. by destruct (acc !! k) as [[?|]|].
  - cbn [foldl]. rewrite IH.
    rewrite addConsistentBinding_round by apply NoDup_fst_map_to_list.
    unfold first_bound. cbn [omap list_omap].
    destruct (decide ((k, None) ∈ map_to_list acc)) as [Hin|Hnin].
    + apply elem_of_map_to_list in Hin. rewrite Hin.
      by destruct (dict_get binding k).
    + destruct (acc !! k) as [[t|]|] eqn:Hacc; try done.
      exfalso. apply Hnin. by apply elem_of_map_to_list.
Qed.

Lemma addConsistentBinding_spec (self : PartialInstanciation)
    (newJoinVariables : list term) :
  ∃ p, addConsistentBinding self newJoinVariables = Ok p ∧
       tokens p = tokens self ∧ hash p = hash self ∧
       (∀ k, joinedBindings p !! k
             = if decide (k ∈ newJoinVariables)
               then Some (first_bound (bindings self) k)
               else joinedBindings self !! k) ∧
       (length (tokens self) ≠ 1%nat →
        ∀ b v, b ∈ bindings p → v ∈ newJoinVariables → is_Some (b !! v)).
Proof.
  unfold addConsistentBinding.
  match goal with
  | |- context [dict_update (joinedBindings self) ?d] =>
      assert (∀ k, dict_update (joinedBindings self) d !! k
                   = if decide (k ∈ newJoinVariables)
                     then Some (first_bound (bindings self) k)
                     else joinedBindings self !! k) as Hjoined;
      [|generalize dependent (dict_update (joinedBindings self) d)]
  end.
  { intros k. unfold dict_update. rewrite lookup_union.
    rewrite addConsistentBinding_rounds, dict_of_pairs_None.
    destruct (decide (k ∈ newJoinVariables)).
    - by destruct (joinedBindings self !! k).
    - by destruct (joinedBindings self !! k). }
  intros joined Hjoined.
  destruct (_generateBindings_ok joined (tokens self)) as (bs & Hbs & _).
  rewrite Hbs. simpl. eexists. split; [reflexivity|]. simpl.
  split_and!; [done..|].
  intros Hlen b v Hb Hv.
  pose proof (_generateBindings_derived joined (tokens self) bs Hlen Hbs) as Hsub.
  rewrite Forall_forall in Hsub. destruct (Hsub b Hb) as [Hsub' _].
  specialize (Hjoined v). rewrite decide_True in Hjoined by done.
  eexists. eapply lookup_weaken; [exact Hjoined | exact Hsub'].
Qed.

(** X7: [addConsistentBinding] never raises and leaves tokens and hash as
    they are; every variable it is given becomes a key of [joinedBindings],
    with the first value other than [None] that the bindings give for it
    ([None] when no binding has one), the other entries of [joinedBindings]
    stay; and unless there is exactly one token, every binding derived
    afterwards has each of the given variables as a key. *)
Theorem addConsistentBinding_joins (self : PartialInstanciation)
    (newJoinVariables : list term) :
  ∃ p, addConsistentBinding self newJoinVariables = Ok p ∧
       tokens p = tokens self ∧ hash p = hash self ∧
       (∀ k, joinedBindings p !! k
             = if decide (k ∈ newJoinVariables)
               then Some (first_bound (bindings self) k)
               else joinedBindings self !! k) ∧
       (length (tokens self) ≠ 1%nat →
        ∀ b v, b ∈ bindings p → v ∈ newJoinVariables → is_Some (b !! v)).
Proof. apply addConsistentBinding_spec. Qed.

(** ** [newJoin] with a list of variables *)

Section newJoin_list.
Context `{PyHash}.

Lemma newJoin_consistent_ok (rightWME token : ReteToken) (x : term) :
  (is_Some (bindingDict token !! x) → is_Some (bindingDict rightWME !! x)) →
  ∃ ok, newJoin_consistent rightWME token x = Ok ok.
Proof.
  intros Hx. unfold newJoin_consistent.
  destruct (bindingDict token !! x) as [tv|]; [|eauto].
  destruct Hx as [wv Hwv]; [done|]. unfold dict_item. rewrite Hwv. simpl. eauto.
Qed.

Lemma newJoin_consistent_KeyError (rightWME token : ReteToken) (x : term) :
  is_Some (bindingDict token !! x) → bindingDict rightWME !! x = None →
  newJoin_consistent rightWME token x = Raise KeyError.
Proof.
  intros [tv Htv] Hw. unfold newJoin_consistent, dict_item. by rewrite Htv, Hw.
Qed.

Lemma newJoin_token_list_ok (rightWME token : ReteToken)
    (newPInst : PartialInstanciation) (vs : list term) :
  (∀ v, v ∈ vs → is_Some (bindingDict token !! v) →
        is_Some (bindingDict rightWME !! v)) →
  ∃ newPInst',
    newJoin_token rightWME (newPInst, PyList vs) token = Ok (newPInst', PyList vs).
Proof.
  intros Hvs. unfold newJoin_token. cbn [iterable_elements].
  assert (∀ (commonVars : bool) (np : PartialInstanciation),
            ∃ r, foldM (fun '(commonVars, newPInst) newVar =>
                          ok ← newJoin_consistent rightWME token newVar;
                          if ok : bool then
                            newPInst ← PartialInstanciation_add newPInst token true;
                            Ok (true, newPInst)
                          else Ok (commonVars, newPInst))
                       vs (commonVars, np) = Ok r) as Hloop.
  { induction vs as [|x vs IH]; intros cv np; simpl; [eauto|].
    destruct (newJoin_consistent_ok rightWME token x) as [ok ->].
    { apply Hvs. left. }
    simpl. destruct ok; simpl; apply IH; intros v Hv; apply Hvs; by right. }
  destruct (Hloop false newPInst) as [[cv np] ->]. simpl.
  destruct cv; simpl; eauto.
Qed.

Lemma newJoin_token_list_KeyError (rightWME token : ReteToken)
    (newPInst : PartialInstanciation) (vs : list term) (v : term) :
  v ∈ vs → is_Some (bindingDict token !! v) → bindingDict rightWME !! v = None →
  newJoin_token rightWME (newPInst, PyList vs) token = Raise KeyError.
Proof.
  intros Hv Htoken Hw. unfold newJoin_token. cbn [iterable_elements].
  assert (∀ (commonVars : bool) (np : PartialInstanciation),
            foldM (fun '(commonVars, newPInst) newVar =>
                     ok ← newJoin_consistent rightWME token newVar;
                     if ok : bool then
                       newPInst ← PartialInstanciation_add newPInst token true;
                       Ok (true, newPInst)
                     else Ok (commonVars, newPInst))
                  vs (commonVars, np) = Raise KeyError) as Hloop.
  { induction vs as [|x vs IH]; intros cv np; [by apply elem_of_nil in Hv|].
    cbn [foldM].
    destruct (decide (x = v)) as [->|Hne].
    - by rewrite newJoin_consistent_KeyError.
    - assert (v ∈ vs) as Hv' by (apply elem_of_cons in Hv as [?|?]; done).
      destruct (newJoin_consistent rightWME token x) as [[|]|e] eqn:Hx; simpl.
      + by apply IH.
      + by apply IH.
      + unfold newJoin_consistent, dict_item in Hx.
        destruct (bindingDict token !! x); [|done].
        destruct (bindingDict rightWME !! x); simpl in Hx; by simplify_eq. }
  by rewrite Hloop.
Qed.

Lemma newJoin_tokens_list_ok (rightWME : ReteToken) (ts : list ReteToken)
    (newPInst : PartialInstanciation) (vs : list term) :
  (∀ t v, t ∈ ts → v ∈ vs → is_Some (bindingDict t !! v) →
          is_Some (bindingDict rightWME !! v)) →
  ∃ newPInst',
    foldM (newJoin_token rightWME) ts (newPInst, PyList vs) = Ok (newPInst', PyList vs) ∧
    joinedBindings newPInst' = joinedBindings newPInst.
Proof.
  revert newPInst. induction ts as [|t ts IH]; intros np Hts; cbn [foldM].
  - eauto.
  - destruct (newJoin_token_list_ok rightWME t np vs) as [np' Hnp'].
    { intros v. apply Hts. left. }
    rewrite Hnp'. cbn [mbind Result_bind].
    destruct (IH np') as (np'' & -> & Hjb).
    { intros t' v Ht'. apply Hts. by right. }
    exists np''. split; [done|]. rewrite Hjb.
    by apply newJoin_token_tokens in Hnp' as [_ ?].
Qed.

Lemma newJoin_tokens_list_KeyError (rightWME : ReteToken) (ts : list ReteToken)
    (newPInst : PartialInstanciation) (vs : list term) (t : ReteToken) (v : term) :
  t ∈ ts → v ∈ vs → is_Some (bindingDict t !! v) → bindingDict rightWME !! v = None →
  foldM (newJoin_token rightWME) ts (newPInst, PyList vs) = Raise KeyError.
Proof.
  intros Ht Hv Htv Hw. revert newPInst.
  induction ts as [|t0 ts IH]; intros np; [by apply elem_of_nil in Ht|].
  cbn [foldM].
  destruct (decide (Exists (fun v0 => is_Some (bindingDict t0 !! v0) ∧
                                      bindingDict rightWME !! v0 = None) vs))
    as [(v0 & Hv0 & Ht0 & Hw0)%Exists_exists|Hnone].
  - by rewrite (newJoin_token_list_KeyError _ _ _ _ v0).
  - rewrite Exists_exists in Hnone. destruct (newJoin_token_list_ok rightWME t0 np vs) as [np' ->].
    { intros v0 Hv0 Ht0.
      destruct (bindingDict rightWME !! v0) eqn:Hw0; [done|].
      exfalso. apply Hnone. by exists v0. }
    cbn [mbind Result_bind]. apply IH.
    apply elem_of_cons in Ht as [->|?]; [|done].
    exfalso. apply Hnone. by exists v.
Qed.
End newJoin_list.

Section newJoin_list_results.
Context `{PyHash}.

Lemma PartialInstanciation_init_nil (cb : pydict) :
  PartialInstanciation_init [] cb
  = Ok {| joinedBindings := cb; tokens := []; bindings := []; hash := None |}.
Proof. reflexivity. Qed.

Lemma newJoin_collect_list_ok (self : PartialInstanciation) (rightWME : ReteToken)
    (vs : list term) :
  (∀ t v, t ∈ tokens self → v ∈ vs → is_Some (bindingDict t !! v) →
          is_Some (bindingDict rightWME !! v)) →
  ∃ newPInst,
    newJoin_collect self rightWME (PyList vs) = Ok newPInst ∧
    ∀ k, joinedBindings newPInst !! k
         = if decide (k ∈ vs ∧ is_Some (bindingDict rightWME !! k))
           then bindingDict rightWME !! k
           else joinedBindings self !! k.
Proof.
  intros Hts. unfold newJoin_collect. cbn [iterable_truth].
  case_bool_decide as Hvs.
  - destruct (project_list (bindingDict rightWME) vs (Var "")) as [Hit _].
    pose proof (fun k => proj2 (project_list (bindingDict rightWME) vs k)) as Hlook.
    destruct (project (bindingDict rightWME) (PyList vs)) as [projected it].
    simpl in Hit, Hlook. subst it. rewrite PartialInstanciation_init_nil.
    cbn [mbind Result_bind].
    destruct (newJoin_tokens_list_ok rightWME (tokens self)
                {| joinedBindings := dict_update (joinedBindings self) projected;
                   tokens := []; bindings := []; hash := None |} vs Hts)
      as (np & -> & Hjb).
    exists np. split; [done|]. intros k. rewrite Hjb. simpl.
    unfold dict_update. rewrite lookup_union, Hlook.
    destruct (decide (k ∈ vs)) as [Hk|Hk].
    + destruct (bindingDict rightWME !! k) as [x|] eqn:Hw.
      * rewrite decide_True by (split; [done | by eexists]).
        by destruct (joinedBindings self !! k).
      * rewrite decide_False by (intros [_ [? ?]]; done).
        by destruct (joinedBindings self !! k).
    + rewrite decide_False by (intros [? _]; done).
      by destruct (joinedBindings self !! k).
  - assert (vs = []) as -> by (by destruct vs).
    rewrite PartialInstanciation_init_nil.
    cbn [mbind Result_bind]. rewrite add_noPostProcessing_loop.
    eexists. split; [done|]. intros k. cbn [joinedBindings].
    destruct (decide _) as [[Hk _]|]; [by apply elem_of_nil in Hk | done].
Qed.

Lemma newJoin_collect_list_KeyError (self : PartialInstanciation)
    (rightWME : ReteToken) (vs : list term) (t : ReteToken) (v : term) :
  t ∈ tokens self → v ∈ vs → is_Some (bindingDict t !! v) →
  bindingDict rightWME !! v = None →
  newJoin_collect self rightWME (PyList vs) = Raise KeyError.
Proof.
  intros Ht Hv Htv Hw. unfold newJoin_collect. cbn [iterable_truth].
  rewrite bool_decide_eq_true_2 by (intros ->; by apply elem_of_nil in Hv).
  destruct (project_list (bindingDict rightWME) vs (Var "")) as [Hit _].
  destruct (project (bindingDict rightWME) (PyList vs)) as [projected it].
  simpl in Hit. subst it. rewrite PartialInstanciation_init_nil.
  cbn [mbind Result_bind].
  by rewrite (newJoin_tokens_list_KeyError _ _ _ _ t v).
Qed.
End newJoin_list_results.

(** X8: [newJoin] with a list of variables.  When [rightWME] binds every
    listed variable that a token of the instanciation binds, it returns an
    instanciation with the tokens of [self] and [rightWME], the hash of that
    token set, and the joined bindings of [self] updated with what [rightWME]
    binds for the listed variables.  When a token binds a listed variable
    that [rightWME] does not bind, it raises [KeyError]. *)
Theorem newJoin_with_list `{PyHash} (self : PartialInstanciation)
    (rightWME : ReteToken) (vs : list term) :
  ((∀ t v, t ∈ tokens self → v ∈ vs → is_Some (bindingDict t !! v) →
           is_Some (bindingDict rightWME !! v)) →
   ∃ p, newJoin self rightWME (PyList vs) = Ok p ∧
        tokens p = set_add rightWME (set_of_list (tokens self)) ∧
        hash p = Some (sorted_hash (tokens p)) ∧
        ∀ k, joinedBindings p !! k
             = if decide (k ∈ vs ∧ is_Some (bindingDict rightWME !! k))
               then bindingDict rightWME !! k
               else joinedBindings self !! k) ∧
  (∀ t v, t ∈ tokens self → v ∈ vs → is_Some (bindingDict t !! v) →
          bindingDict rightWME !! v = None →
          newJoin self rightWME (PyList vs) = Raise KeyError).
Proof.
  split.
  - intros Hts.
    destruct (newJoin_collect_list_ok self rightWME vs Hts) as (np & Hnp & Hjb).
    destruct (PartialInstanciation_add_spec np rightWME)
      as (p & Hp & Hjb' & Htokens & Hhash & _).
    assert (newJoin self rightWME (PyList vs) = Ok p) as Hjoin.
    { unfold newJoin. rewrite Hnp. exact Hp. }
    exists p. split_and!; [done | | done |].
    + by apply newJoin_tokens in Hjoin.
    + intros k. rewrite Hjb'. apply Hjb.
  - intros t v Ht Hv Htv Hw. unfold newJoin.
    by rewrite (newJoin_collect_list_KeyError self rightWME vs t v).
Qed.

Lemma newJoin_with_list_witness :
  ∃ p, newJoin (H := distinct_hash) docstring_inst token_P1_P2_domain
               (PyList [Var "P2"]) = Ok p ∧
       joinedBindings p !! Var "P2" = Some (Some rdfs_domain).
Proof.
  destruct (newJoin_with_list (H := distinct_hash) docstring_inst token_P1_P2_domain
              [Var "P2"]) as [Hok _].
  destruct Hok as (p & Hp & _ & _ & Hjb).
  - intros t v Ht ->%list_elem_of_singleton _. by_compute.
  - exists p. split; [exact Hp|]. rewrite Hjb.
    rewrite decide_True by (split; [by apply list_elem_of_singleton | by_compute]).
    by_compute.
Defined.

(** ** Adding an item twice *)

Section addToken_twice.
Context `{PyHash}.
Implicit Types (t : item) (s : list item) (m : ReteMemory) (h : Z).

Lemma pyset_insert_mem t h s :
  item_hash t = Ok h → pyset_mem t (pyset_insert t s) = true.
Proof. intros Ht. apply pyset_mem_insert. by eapply item_equal_refl. Qed.

Lemma pyset_insert_fix t s : pyset_mem t s = true → pyset_insert t s = s.
Proof. intros Hmem. unfold pyset_insert. by rewrite Hmem. Qed.

Lemma pyset_insert_not_nil t s : pyset_insert t s ≠ [].
Proof.
  unfold pyset_insert. destruct (pyset_mem t s) eqn:Hmem.
  - intros ->. done.
  - by destruct s.
Qed.

Lemma substitution_add_fix t h (keys : list (list pyval))
    (d : gmap (list pyval) (list item)) :
  item_hash t = Ok h →
  (∀ key, key ∈ keys → ∃ b, d !! key = Some b ∧ pyset_mem t b = true) →
  foldM (fun d key => substitution_add key t d) keys d = Ok d.
Proof.
  intros Ht. induction keys as [|k keys IH]; intros Hkeys; cbn [foldM]; [done|].
  rewrite (substitution_add_ok _ h) by done.
  destruct (Hkeys k) as (b & Hb & Hmem); [left|].
  rewrite Hb. cbn [default]. rewrite pyset_insert_fix by done.
  rewrite insert_id by done. cbn [mbind Result_bind].
  apply IH. intros key Hkey. apply Hkeys. by right.
Qed.

(** X9: [addToken] is idempotent: adding an item that has just been added
    leaves the memory, its set and its index, exactly as it is. *)
Theorem addToken_idempotent (cv : list term) m t m' :
  addToken cv m t = Ok m' → addToken cv m' t = Ok m'.
Proof.
  intros Hadd. destruct (addToken_inv _ _ _ _ Hadd) as [h Ht].
  destruct (addToken_spec cv m t h Ht) as (m1 & Hadd1 & Hitems & _ & _ & Hkeys).
  rewrite Hadd in Hadd1. injection Hadd1 as <-.
  unfold addToken. rewrite (substitution_add_fix t h).
  - cbn [mbind Result_bind]. rewrite (pyset_add_ok _ h) by done.
    rewrite Hitems, pyset_insert_fix by (by eapply pyset_insert_mem).
    cbn [mbind Result_bind]. rewrite <-Hitems. by destruct m'.
  - done.
  - intros key Hkey. destruct (Hkeys key) as [Hin _]. specialize (Hin Hkey).
    unfold substitution_get in Hin.
    destruct (substitutionDict m' !! key) as [b|] eqn:Hb.
    + exists b. split; [done|]. simpl in Hin. rewrite Hin.
      by eapply pyset_insert_mem.
    + simpl in Hin. symmetry in Hin. by apply pyset_insert_not_nil in Hin.
Qed.
End addToken_twice.


Lemma addToken_idempotent_witness :
  ∃ m', addToken (H := distinct_hash) [Var "A"] (ReteMemory_init RIGHT_MEMORY None)
                 (ItemToken token_A) = Ok m' ∧
        addToken (H := distinct_hash) [Var "A"] m' (ItemToken token_A) = Ok m'.
Proof.
  destruct (addToken_spec (H := distinct_hash) [Var "A"]
              (ReteMemory_init RIGHT_MEMORY None) (ItemToken token_A) _ eq_refl)
    as (m' & Hadd & _).
  exists m'. split; [exact Hadd|].
  exact (addToken_idempotent (H := distinct_hash) _ _ _ _ Hadd).
Defined.

(** ** The exceptions of the join *)

Lemma raises_only_Ok {A : Type} (E : exn → Prop) (a : A) : raises_only E (Ok a).
Proof. intros e. done. Qed.

Lemma raises_only_Raise {A : Type} (E : exn → Prop) (e : exn) :
  E e → raises_only E (Raise e : Result A).
Proof. intros He e' [= <-]. done. Qed.

Lemma raises_only_mono {A : Type} (E E' : exn → Prop) (r : Result A) :
  (∀ e, E e → E' e) → raises_only E r → raises_only E' r.
Proof. intros HE Hr e He. by apply HE, Hr. Qed.

Lemma raises_only_bind {A B : Type} (E : exn → Prop) (r : Result A) (f : A → Result B) :
  raises_only E r → (∀ a, raises_only E (f a)) → raises_only E (r ≫= f).
Proof.
  intros Hr Hf e. destruct r as [a|e']; simpl.
  - apply Hf.
  - intros [= <-]. by apply Hr.
Qed.

Lemma raises_only_fmap {A B : Type} (E : exn → Prop) (r : Result A) (f : A → B) :
  raises_only E r → raises_only E (f <$> r).
Proof. intros Hr e. destruct r as [a|e']; simpl; [done|]. intros [= <-]. by apply Hr. Qed.

Lemma raises_only_foldM {A B : Type} (E : exn → Prop) (f : B → A → Result B)
    (l : list A) (b : B) :
  (∀ b x, raises_only E (f b x)) → raises_only E (foldM f l b).
Proof.
  intros Hf. revert b. induction l as [|x l IH]; intros b; simpl.
  - apply raises_only_Ok.
  - apply raises_only_bind; [apply Hf | intros b'; apply IH].
Qed.

Lemma raises_only_mapM {A B : Type} (E : exn → Prop) (f : A → Result B) (l : list A) :
  (∀ x, raises_only E (f x)) → raises_only E (mapM f l).
Proof.
  intros Hf. induction l as [|x l IH]; simpl.
  - apply raises_only_Ok.
  - apply raises_only_bind; [apply Hf|]. intros y.
    apply raises_only_bind; [apply IH|]. intros k. apply raises_only_Ok.
Qed.

Lemma raises_only_dict_item (d : pydict) (k : term) :
  raises_only (fun e => e = KeyError) (dict_item d k).
Proof. unfold dict_item. intros e. destruct (d !! k); [done|]. by intros [= <-]. Qed.

Section raises.
Context `{PyHash}.

Lemma raises_only_item_hash (x : item) :
  raises_only (fun e => e = AttributeError) (item_hash x).
Proof.
  intros e. destruct x as [t|p]; simpl; [done|].
  unfold PartialInstanciation_hash. destruct (hash p); [done|]. by intros [= <-].
Qed.

Lemma raises_only_pyset_add (x : item) (s : list item) :
  raises_only (fun e => e = AttributeError) (pyset_add x s).
Proof.
  unfold pyset_add. apply raises_only_bind; [apply raises_only_item_hash|].
  intros _. apply raises_only_Ok.
Qed.

Lemma raises_only_pyset_union (s t : list item) :
  raises_only (fun e => e = AttributeError) (pyset_union s t).
Proof.
  unfold pyset_union. apply raises_only_foldM. intros b x.
  apply raises_only_pyset_add.
Qed.

Lemma raises_only_addToken (cv : list term) (m : ReteMemory) (t : item) :
  raises_only (fun e => e = AttributeError) (addToken cv m t).
Proof.
  unfold addToken. apply raises_only_bind.
  - apply raises_only_foldM. intros d key. unfold substitution_add.
    apply raises_only_bind; [apply raises_only_pyset_add|].
    intros b. apply raises_only_Ok.
  - intros d. apply raises_only_bind; [apply raises_only_pyset_add|].
    intros items. apply raises_only_Ok.
Qed.

Lemma raises_only_init (E : exn → Prop) (ts : list ReteToken) (cb : pydict) :
  raises_only E (PartialInstanciation_init ts cb).
Proof.
  destruct (PartialInstanciation_init_spec ts cb) as (p & -> & _).
  apply raises_only_Ok.
Qed.

Lemma raises_only_add (E : exn → Prop) (self : PartialInstanciation)
    (t : ReteToken) (noPostProcessing : bool) :
  raises_only E (PartialInstanciation_add self t noPostProcessing).
Proof.
  destruct noPostProcessing.
  - apply raises_only_Ok.
  - destruct (PartialInstanciation_add_spec self t) as (p & -> & _).
    apply raises_only_Ok.
Qed.

Lemma raises_only_newJoin_consistent (rightWME token : ReteToken) (x : term) :
  raises_only (fun e => e = KeyError) (newJoin_consistent rightWME token x).
Proof.
  unfold newJoin_consistent. destruct (bindingDict token !! x); [|apply raises_only_Ok].
  apply raises_only_bind; [apply raises_only_dict_item|].
  intros wv. apply raises_only_Ok.
Qed.

Lemma raises_only_newJoin_token (rightWME : ReteToken)
    (st : PartialInstanciation * pyiterable) (token : ReteToken) :
  raises_only (fun e => e = KeyError) (newJoin_token rightWME st token).
Proof.
  unfold newJoin_token. destruct st as [newPInst it].
  destruct (iterable_elements it) as [vars it'].
  apply raises_only_bind.
  - apply raises_only_foldM. intros [cv np] x.
    apply raises_only_bind; [apply raises_only_newJoin_consistent|].
    intros [|]; [|apply raises_only_Ok].
    apply raises_only_bind; [apply raises_only_add|].
    intros np'. apply raises_only_Ok.
  - intros [cv np]. apply raises_only_bind; [|intros np'; apply raises_only_Ok].
    destruct cv; [apply raises_only_Ok | apply raises_only_add].
Qed.

Lemma raises_only_newJoin (self : PartialInstanciation) (rightWME : ReteToken)
    (newJoinVariables : pyiterable) :
  raises_only (fun e => e = KeyError) (newJoin self rightWME newJoinVariables).
Proof.
  unfold newJoin. apply raises_only_bind; [|intros np; apply raises_only_add].
  unfold newJoin_collect. destruct (iterable_truth newJoinVariables).
  - destruct (project _ _) as [projected it].
    apply raises_only_bind; [apply raises_only_init|]. intros np.
    apply raises_only_fmap, raises_only_foldM. intros st token.
    apply raises_only_newJoin_token.
  - apply raises_only_bind; [apply raises_only_init|]. intros np.
    apply raises_only_foldM. intros np' token. apply raises_only_add.
Qed.
End raises.

Section raises_matches.
Context `{PyHash}.

Local Abbreviation key_or_attribute := (fun e => e = KeyError ∨ e = AttributeError).

Lemma raises_KeyError {A : Type} (r : Result A) :
  raises_only (fun e => e = KeyError) r → raises_only key_or_attribute r.
Proof. apply raises_only_mono. auto. Qed.

Lemma raises_AttributeError {A : Type} (r : Result A) :
  raises_only (fun e => e = AttributeError) r → raises_only key_or_attribute r.
Proof. apply raises_only_mono. auto. Qed.

Lemma raises_only_left_join_instanciation (self : BetaNode)
    (partialInst rightWME : PartialInstanciation) (commonDict : pydict)
    (matches : list item) :
  raises_only key_or_attribute
    (left_join_instanciation self partialInst rightWME commonDict matches).
Proof.
  unfold left_join_instanciation. case_bool_decide.
  - apply raises_only_bind; [apply raises_only_init|]. intros probe.
    destruct (foldl _ _ _) as [failed consVars]. destruct failed.
    + apply raises_only_Ok.
    + apply raises_only_bind; [apply raises_only_init|]. intros newP.
      apply raises_AttributeError, raises_only_pyset_add.
  - apply raises_only_bind; [apply raises_only_init|]. intros newP.
    apply raises_AttributeError, raises_only_pyset_add.
Qed.

Lemma raises_only_left_matches (self : BetaNode) (partialInst : PartialInstanciation) :
  raises_only key_or_attribute (left_matches self partialInst).
Proof.
  unfold left_matches. apply raises_only_foldM. intros matches binding.
  apply raises_only_foldM. intros matches' [rightWME|rightWME].
  - apply raises_only_bind; [apply raises_KeyError, raises_only_newJoin|].
    intros newP. apply raises_AttributeError, raises_only_pyset_add.
  - apply raises_only_left_join_instanciation.
Qed.

Lemma raises_only_singleToken (E : exn → Prop) (wme : ReteToken) :
  raises_only E (singleToken wme).
Proof. apply raises_only_init. Qed.

Lemma raises_only_right_matches (self : BetaNode) (wme : ReteToken) :
  raises_only key_or_attribute (right_matches self wme).
Proof.
  unfold right_matches. apply raises_only_bind.
  - apply raises_KeyError, raises_only_mapM. intros x. apply raises_only_dict_item.
  - intros key. destruct (substitutionDict _ !! key) as [lPartInsts|];
      [|apply raises_only_Ok].
    apply raises_only_foldM. intros matches [t|p].
    + apply raises_only_bind; [apply raises_only_singleToken|]. intros newP.
      apply raises_AttributeError, raises_only_pyset_add.
    + apply raises_only_bind; [apply raises_KeyError, raises_only_newJoin|].
      intros newP. apply raises_AttributeError, raises_only_pyset_add.
Qed.

Lemma raises_only_right_matches_no_wme (self : BetaNode) :
  raises_only key_or_attribute (right_matches_no_wme self).
Proof.
  unfold right_matches_no_wme.
  destruct (commonVariables self); [|apply raises_only_Raise; auto].
  destruct (substitutionDict _ !! []) as [lPartInsts|]; [|apply raises_only_Ok].
  apply raises_only_foldM. intros matches [t|p]; [|apply raises_only_Raise; auto].
  apply raises_only_bind; [apply raises_only_singleToken|]. intros newP.
  apply raises_AttributeError, raises_only_pyset_add.
Qed.

Lemma raises_only_addConsistentBinding (E : exn → Prop)
    (self : PartialInstanciation) (vs : list term) :
  raises_only E (addConsistentBinding self vs).
Proof.
  unfold addConsistentBinding.
  destruct (_generateBindings_ok
              (dict_update (joinedBindings self)
                 (foldl (fun newJoinDict binding =>
                           foldl (fun (newJoinDict : pydict) '(key, val) =>
                                    match dict_get binding key, val with
                                    | Some boundVal, None =>
                                        <[key := Some boundVal]> newJoinDict
                                    | _, _ => newJoinDict
                                    end)
                                 newJoinDict (map_to_list newJoinDict))
                        (dict_of_pairs ((fun v => (v, None)) <$> vs))
                        (bindings self)))
              (tokens self)) as (bs & -> & _).
  apply raises_only_Ok.
Qed.

Lemma raises_only_builtin_operand (binding : pydict) (t : term) :
  raises_only (fun e => e = KeyError) (builtin_operand binding t).
Proof.
  unfold builtin_operand. destruct (isVariable t); [|apply raises_only_Ok].
  apply raises_only_bind; [apply raises_only_dict_item|].
  intros v. apply raises_only_Ok.
Qed.

Lemma raises_only_left_matches_builtin (self : BetaNode) (source : position)
    (partialInst : PartialInstanciation) :
  raises_only key_or_attribute (left_matches_builtin self source partialInst).
Proof.
  unfold left_matches_builtin.
  destruct (mem_filter _) as [filter|]; [|apply raises_only_Raise; auto].
  apply raises_only_bind; [apply raises_only_addConsistentBinding|]. intros p.
  apply raises_only_foldM. intros matches binding.
  apply raises_only_bind; [apply raises_KeyError, raises_only_builtin_operand|].
  intros lhs.
  apply raises_only_bind; [apply raises_KeyError, raises_only_builtin_operand|].
  intros rhs. destruct (func filter lhs rhs); [|apply raises_only_Ok].
  apply raises_AttributeError, raises_only_pyset_add.
Qed.
End raises_matches.

(** ** Propagation through a network without cycles *)

Section settled.
Context `{PyHash}.
Variable bound : nat.

Lemma raises_join {A : Type} (r : Result A) :
  raises_only (fun e => e = KeyError ∨ e = AttributeError) r →
  raises_only join_error r.
Proof. apply raises_only_mono. unfold join_error. tauto. Qed.

Lemma settled_ret (n : nat) {A : Type} (a : A) : settled bound n (mret a) (mret a).
Proof.
  intros st Hst. split_and!; [done | by intros e |].
  by intros a' st' [= <- <-].
Qed.

Lemma settled_lift (n : nat) {A : Type} (r : Result A) :
  raises_only join_error r → settled bound n (lift r) (lift r).
Proof.
  intros Hr st Hst. unfold lift. destruct r as [a|e].
  - split_and!; [done | by intros e |]. by intros a' st' [= <- <-].
  - split_and!; [done | | done]. intros e' [= <-]. by apply Hr.
Qed.

Lemma settled_bind (n : nat) {A B : Type} (c c' : M A) (f f' : A → M B) :
  settled bound n c c' → (∀ a, settled bound n (f a) (f' a)) →
  settled bound n (c ≫= f) (c' ≫= f').
Proof.
  intros Hc Hf st Hst. destruct (Hc st Hst) as (Heq & Hraise & Hok).
  unfold mbind, M_bind. rewrite <-Heq.
  destruct (c st) as [[a st1]|e] eqn:Hcst.
  - destruct (Hok a st1 eq_refl) as [Hst1 Hframe].
    destruct (Hf a st1 Hst1) as (Heq' & Hraise' & Hok').
    split_and!; [done | done |]. intros b st' Hb.
    destruct (Hok' b st' Hb) as [Hst' Hframe']. split; [done|].
    intros name Hname. rewrite Hframe' by done. by apply Hframe.
  - split_and!; [done | | done]. intros e' [= <-]. by apply Hraise.
Qed.

Lemma settled_get_node (n self : nat) {B : Type} (f f' : BetaNode → M B) :
  (∀ node,
      (∀ successor pos, (successor, pos) ∈ descendentMemory node →
                        (self < successor ≤ bound)%nat) →
      settled bound n (f node) (f' node)) →
  settled bound n (get_node self ≫= f) (get_node self ≫= f').
Proof.
  intros Hf st Hst. unfold mbind, M_bind, get_node.
  destruct (nodes st !! self) as [node|] eqn:Hnode.
  - apply Hf; [|done]. intros successor pos Hin. by eapply Hst.
  - split_and!; [done | | done]. intros e [= <-]. right. by left.
Qed.

Lemma settled_forM (n : nat) {A : Type} (l : list A) (body body' : A → M unit) :
  (∀ x, x ∈ l → settled bound n (body x) (body' x)) →
  settled bound n (forM l body) (forM l body').
Proof.
  induction l as [|x l IH]; intros Hbody; simpl.
  - apply settled_ret.
  - apply settled_bind; [apply Hbody; left|]. intros _.
    apply IH. intros y Hy. apply Hbody. by right.
Qed.

Lemma settled_weaken (n m : nat) {A : Type} (c c' : M A) :
  (n ≤ m)%nat → settled bound m c c' → settled bound n c c'.
Proof.
  intros Hnm Hc st Hst. destruct (Hc st Hst) as (Heq & Hraise & Hok).
  split_and!; [done | done |]. intros a st' Ha.
  destruct (Hok a st' Ha) as [Hst' Hframe]. split; [done|].
  intros name Hname. apply Hframe. lia.
Qed.

Lemma settled_memory_addToken (n successor : nat) (pos : position) (t : item) :
  (n < successor)%nat →
  settled bound n (memory_addToken successor pos t) (memory_addToken successor pos t).
Proof.
  intros Hn st Hst. unfold memory_addToken.
  destruct (nodes st !! successor) as [node|] eqn:Hnode.
  - destruct (addToken _ _ _) as [m|e] eqn:Hadd.
    + split_and!; [done | by intros e |]. intros a st' [= <- <-]. split.
      * intros name node' succ pos' Hnode' Hin. cbn [nodes] in Hnode'.
        destruct (decide (name = successor)) as [->|Hne].
        -- rewrite lookup_insert_eq in Hnode'. simplify_eq.
           by eapply Hst.
        -- rewrite lookup_insert_ne in Hnode' by done. by eapply Hst.
      * intros name Hname. cbn [nodes]. rewrite lookup_insert_ne; [done | lia].
    + split_and!; [done | | done]. intros e' [= <-].
      right. left. by eapply raises_only_addToken.
  - split_and!; [done | | done]. intros e [= <-]. right. by left.
Qed.

Lemma settled_fireConsequent (n : nat) (tokens : PartialInstanciation)
    (termNode : nat) :
  settled bound n (fireConsequent tokens termNode) (fireConsequent tokens termNode).
Proof.
  intros st Hst. unfold fireConsequent.
  destruct (pyset_add _ _) as [cs|e] eqn:Hadd.
  - split_and!; [done | by intros e |]. by intros a st' [= <- <-].
  - split_and!; [done | | done]. intros e' [= <-].
    right. left. by eapply raises_only_pyset_add.
Qed.

Lemma settled_activate
    (propA propB : nat → option position → option PartialInstanciation →
                   option ReteToken → M unit)
    (self : nat) (partInstOrList : PartialInstanciation) :
  (∀ successor source p w, (self < successor ≤ bound)%nat →
      settled bound successor (propA successor source p w)
              (propB successor source p w)) →
  settled bound self (_activate propA self partInstOrList)
          (_activate propB self partInstOrList).
Proof.
  intros Hprop. unfold _activate. apply settled_get_node. intros node Hdesc.
  apply settled_bind.
  - apply settled_forM. intros [successor position] Hin.
    specialize (Hdesc successor position Hin). unfold activate_memory.
    apply settled_bind; [apply settled_memory_addToken; lia|]. intros _.
    apply settled_get_node. intros node' _.
    destruct (_ || _); [|apply settled_ret].
    destruct position; (apply (settled_weaken self successor); [lia|]);
      by apply Hprop.
  - intros _. case_bool_decide; [apply settled_fireConsequent | apply settled_ret].
Qed.

Lemma settled_activate_matches (activateA activateB : nat → PartialInstanciation → M unit)
    (self : nat) (matches : list item) :
  (∀ p, settled bound self (activateA self p) (activateB self p)) →
  settled bound self (activate_matches activateA self matches)
          (activate_matches activateB self matches).
Proof.
  intros Hact. unfold activate_matches. apply settled_forM.
  intros [t|p] _; [apply settled_ret | apply Hact].
Qed.

Lemma settled_signal_binding (activateA activateB : nat → PartialInstanciation → M unit)
    (self : nat) (binding : pydict) :
  (∀ p, settled bound self (activateA self p) (activateB self p)) →
  settled bound self (signal_binding activateA self binding)
          (signal_binding activateB self binding).
Proof.
  intros Hact. unfold signal_binding. apply settled_get_node. intros node _.
  apply settled_bind.
  { apply settled_lift, raises_join, raises_KeyError, raises_only_mapM.
    intros x. apply raises_only_dict_item. }
  intros commonVals. apply settled_bind.
  { apply settled_lift, raises_join, raises_AttributeError, raises_only_pyset_union. }
  intros both. case_bool_decide; [|apply settled_ret].
  apply settled_bind; [apply settled_lift, raises_only_init|].
  intros newP. apply Hact.
Qed.

Lemma propagate_settled (fuel : nat) :
  ∀ (fuel' self : nat) (source : option position)
    (partialInst : option PartialInstanciation) (wme : option ReteToken),
    (bound - self < fuel)%nat → (bound - self < fuel')%nat →
    settled bound self (propagate fuel self source partialInst wme)
            (propagate fuel' self source partialInst wme).
Proof.
  induction fuel as [|fuel IH]; intros fuel' self source partialInst wme Hf Hf';
    [lia|].
  destruct fuel' as [|fuel']; [lia|].
  assert (∀ p, settled bound self (_activate (propagate fuel) self p)
                       (_activate (propagate fuel') self p)) as Hact.
  { intros p. apply settled_activate. intros successor src q w Hsucc.
    apply IH; lia. }
  cbn [propagate]. apply settled_get_node. intros node _.
  destruct (aPassThru node).
  - case_bool_decide.
    + apply settled_bind.
      { apply settled_lift. unfold py_assert. destruct (bool_decide _).
        - apply raises_only_Ok.
        - apply raises_only_Raise. right. right. by eexists. }
      intros _. destruct wme as [w|].
      * apply settled_bind; [apply settled_lift, raises_only_singleToken|].
        intros newP. apply Hact.
      * apply settled_lift, raises_only_Raise. right. by left.
    + case_bool_decide; [|apply settled_ret].
      destruct wme as [w|], partialInst as [p|];
        try apply settled_ret; try apply Hact.
      all: apply settled_bind; [apply settled_lift, raises_only_singleToken|].
      all: intros newP; apply Hact.
  - destruct source as [[|]|].
    + destruct partialInst as [p|].
      * apply settled_bind; [|intros matches; by apply settled_activate_matches].
        apply settled_lift, raises_join. destruct (fedByBuiltin node).
        -- apply raises_only_left_matches_builtin.
        -- apply raises_only_left_matches.
      * apply settled_lift, raises_only_Raise. right. by left.
    + destruct wme as [w|];
        (apply settled_bind; [|intros matches; by apply settled_activate_matches]).
      * apply settled_lift, raises_join, raises_only_right_matches.
      * apply settled_lift, raises_join, raises_only_right_matches_no_wme.
    + destruct partialInst as [p|]; [|apply settled_ret].
      apply settled_forM. intros binding _. by apply settled_signal_binding.
Qed.
End settled.

Lemma run_with {A : Type} (r : Result (A * state)) (check : state → bool) :
  match r with Ok (_, st') => check st' | Raise _ => false end = true →
  ∃ a st', r = Ok (a, st') ∧ check st' = true.
Proof. destruct r as [[a st']|e]; [eauto | done]. Qed.

Lemma ranked_map_Forall (bound : nat) (st : state) :
  map_Forall (fun name node =>
                Forall (fun memory : nat * position =>
                          (name < memory.1 ≤ bound)%nat)
                       (descendentMemory node))
             (nodes st) →
  ranked bound st.
Proof.
  intros Hall name node successor pos Hnode Hin.
  specialize (Hall name node Hnode). rewrite Forall_forall in Hall.
  by apply (Hall (successor, pos)).
Qed.

(** X10: in a network without cycles (every descendent memory belongs to a
    node with a larger name, none above [bound]) the calls of [propagate] and
    [_activate] down the network end: with more fuel than there are levels
    below the node, the result of [propagate] does not depend on the fuel, and
    if it is an exception, then [KeyError], [AttributeError] or a failed
    assertion. *)
Theorem propagate_terminates `{PyHash} (bound fuel fuel' self : nat) (st : state)
    (source : option position) (partialInst : option PartialInstanciation)
    (wme : option ReteToken) :
  ranked bound st → (bound - self < fuel)%nat → (bound - self < fuel')%nat →
  propagate fuel' self source partialInst wme st
  = propagate fuel self source partialInst wme st ∧
  propagate fuel self source partialInst wme st ≠ Raise OutOfFuel ∧
  ∀ e, propagate fuel self source partialInst wme st = Raise e →
       e = KeyError ∨ e = AttributeError ∨ ∃ msg, e = AssertionError msg.
Proof.
  intros Hst Hf Hf'.
  destruct (propagate_settled bound fuel fuel' self source partialInst wme Hf Hf' st Hst)
    as (Heq & Hraise & _).
  split_and!; [done | | exact Hraise].
  intros Hout. destruct (Hraise _ Hout) as [?|[?|[msg ?]]]; done.
Qed.

Lemma propagate_terminates_witness :
  ∃ st',
    propagate (H := distinct_hash) 3 1 (Some RIGHT_MEMORY) None (Some token_Foo_value)
              docstring_network_fed = Ok (tt, st') ∧
    propagate (H := distinct_hash) 7 1 (Some RIGHT_MEMORY) None (Some token_Foo_value)
              docstring_network_fed = Ok (tt, st') ∧
    firings (network st') = 2%nat ∧
    propagate (H := distinct_hash) 2 1 (Some RIGHT_MEMORY) None (Some token_Foo_value)
              docstring_network_fed = Raise OutOfFuel.
Proof.
  destruct (run_with
              (propagate (H := distinct_hash) 3 1 (Some RIGHT_MEMORY) None
                         (Some token_Foo_value) docstring_network_fed)
              (fun st => bool_decide (firings (network st) = 2%nat)))
    as ([] & st' & Hrun & Hfirings); [vm_compute; reflexivity|].
  destruct (propagate_terminates (H := distinct_hash) 3 3 7 1 docstring_network_fed
              (Some RIGHT_MEMORY) None (Some token_Foo_value)) as (Heq & _ & _).
  - apply ranked_map_Forall. by_compute.
  - simpl. lia.
  - simpl. lia.
  - exists st'. split_and!.
    + exact Hrun.
    + by rewrite Heq.
    + by apply bool_decide_eq_true in Hfirings.
    + vm_compute. reflexivity.
Defined.

(** ** What propagation leaves alone *)

Section closure.
Context `{PyHash}.
Variable good : ∀ A : Type, M A → Prop.
Hypothesis good_ret : ∀ (A : Type) (a : A), good A (mret a).
Hypothesis good_raise : ∀ (A : Type) (e : exn), good A (fun _ => Raise e).
Hypothesis good_bind :
  ∀ (A B : Type) (c : M A) (f : A → M B),
    good A c → (∀ a, good B (f a)) → good B (c ≫= f).
Hypothesis good_get_node : ∀ name, good BetaNode (get_node name).
Hypothesis good_memory_addToken :
  ∀ name pos t, good unit (memory_addToken name pos t).
Hypothesis good_fireConsequent : ∀ p termNode, good unit (fireConsequent p termNode).

Lemma good_lift {A : Type} (r : Result A) : good A (lift r).
Proof. destruct r as [a|e]; [apply good_ret | apply good_raise]. Qed.

Lemma good_forM {A : Type} (l : list A) (body : A → M unit) :
  (∀ x, good unit (body x)) → good unit (forM l body).
Proof.
  intros Hbody. induction l as [|x l IH]; simpl; [apply good_ret|].
  apply good_bind; [apply Hbody | intros _; apply IH].
Qed.

Lemma good_after_addToken
    (propagate : nat → option position → option PartialInstanciation →
                 option ReteToken → M unit)
    (partInstOrList : PartialInstanciation) (successor : nat) (position : position) :
  (∀ name source p w, good unit (propagate name source p w)) →
  good unit
    (node ← get_node successor;
     if aPassThru node || negb (checkNullActivation node position) then
       match position with
       | LEFT_MEMORY => propagate successor (Some position) (Some partInstOrList) None
       | RIGHT_MEMORY => propagate successor None (Some partInstOrList) None
       end
     else mret tt).
Proof.
  intros Hprop. apply good_bind; [apply good_get_node|]. intros node'.
  destruct (_ || _); [|apply good_ret].
  destruct position; apply Hprop.
Qed.

Lemma good_activate_memory
    (propagate : nat → option position → option PartialInstanciation →
                 option ReteToken → M unit)
    (partInstOrList : PartialInstanciation) (memory : nat * position) :
  (∀ name source p w, good unit (propagate name source p w)) →
  good unit (activate_memory propagate partInstOrList memory).
Proof.
  intros Hprop. destruct memory as [successor position]. unfold activate_memory.
  apply good_bind; [apply good_memory_addToken|]. intros _.
  by apply good_after_addToken.
Qed.

Lemma good_activate
    (propagate : nat → option position → option PartialInstanciation →
                 option ReteToken → M unit)
    (self : nat) (partInstOrList : PartialInstanciation) :
  (∀ name source p w, good unit (propagate name source p w)) →
  good unit (_activate propagate self partInstOrList).
Proof.
  intros Hprop. unfold _activate.
  apply good_bind; [apply good_get_node|]. intros node.
  apply good_bind.
  - apply good_forM. intros memory. by apply good_activate_memory.
  - intros _. case_bool_decide; [apply good_fireConsequent | apply good_ret].
Qed.

(** Whatever holds of returning, raising, reading a node, [addToken] on a
    memory and [fireConsequent], and is kept by sequencing, holds of
    [propagate]. *)
Lemma good_propagate (fuel : nat) (self : nat) (source : option position)
    (partialInst : option PartialInstanciation) (wme : option ReteToken) :
  good unit (propagate fuel self source partialInst wme).
Proof.
  revert self source partialInst wme.
  induction fuel as [|fuel IH]; intros self source partialInst wme.
  - apply good_raise.
  - assert (∀ name p, good unit (_activate (propagate fuel) name p)) as Hact.
    { intros name p. by apply good_activate. }
    cbn [propagate].
    apply good_bind; [apply good_get_node|]. intros node.
    destruct (aPassThru node).
    + case_bool_decide.
      * apply good_bind; [apply good_lift|]. intros _.
        destruct wme; [|apply good_lift].
        apply good_bind; [apply good_lift | intros newP; apply Hact].
      * case_bool_decide; [|apply good_ret].
        destruct wme, partialInst; try apply good_ret; try apply Hact.
        all: apply good_bind; [apply good_lift | intros newP; apply Hact].
    + destruct source as [[|]|].
      * destruct partialInst; [|apply good_lift].
        apply good_bind; [apply good_lift|]. intros matches.
        unfold activate_matches. apply good_forM.
        intros [t|q]; [apply good_ret | apply Hact].
      * destruct wme; (apply good_bind; [apply good_lift|]); intros matches;
          unfold activate_matches; apply good_forM;
          intros [t|q]; [apply good_ret | apply Hact | apply good_ret | apply Hact].
      * destruct partialInst; [|apply good_ret].
        apply good_forM. intros binding. unfold signal_binding.
        apply good_bind; [apply good_get_node|]. intros node'.
        apply good_bind; [apply good_lift|]. intros commonVals.
        apply good_bind; [apply good_lift|]. intros both.
        case_bool_decide; [|apply good_ret].
        apply good_bind; [apply good_lift | intros newP; apply Hact].
Qed.
End closure.

Section structure.
Context `{PyHash}.

Lemma same_structure_refl (st : state) : same_structure st st.
Proof. intros name. destruct (nodes st !! name); [|done]. by split_and!. Qed.

Lemma same_structure_trans (st1 st2 st3 : state) :
  same_structure st1 st2 → same_structure st2 st3 → same_structure st1 st3.
Proof.
  intros H12 H23 name. specialize (H12 name). specialize (H23 name).
  destruct (nodes st1 !! name) as [n1|], (nodes st2 !! name) as [n2|],
           (nodes st3 !! name) as [n3|]; try done.
  destruct H12 as (?&?&?&?&?&?&?&Hm12). destruct H23 as (?&?&?&?&?&?&?&Hm23).
  split_and!; try congruence.
  intros pos. destruct (Hm12 pos) as [? ?]. destruct (Hm23 pos) as [? ?].
  split; congruence.
Qed.

Lemma structural_ret {A : Type} (a : A) : structural (mret a).
Proof. intros st a' st' [= <- <-]. apply same_structure_refl. Qed.

Lemma structural_raise {A : Type} (e : exn) : structural (fun _ => Raise e : Result (A * state)).
Proof. intros st a st'. done. Qed.

Lemma structural_bind {A B : Type} (c : M A) (f : A → M B) :
  structural c → (∀ a, structural (f a)) → structural (c ≫= f).
Proof.
  intros Hc Hf st b st'. unfold mbind, M_bind.
  destruct (c st) as [[a st1]|e] eqn:Hcst; [|done].
  intros Hfst. apply (same_structure_trans _ st1); [by eapply Hc | by eapply Hf].
Qed.

Lemma structural_get_node (name : nat) : structural (get_node name).
Proof.
  intros st a st'. unfold get_node. destruct (nodes st !! name); [|done].
  intros [= <- <-]. apply same_structure_refl.
Qed.

Lemma structural_memory_addToken (name : nat) (pos : position) (t : item) :
  structural (memory_addToken name pos t).
Proof.
  intros st a st'. unfold memory_addToken.
  destruct (nodes st !! name) as [node|] eqn:Hnode; [|done].
  destruct (addToken _ _ _) as [m|e] eqn:Hadd; [|done].
  intros [= <- <-]. intros name'. cbn [nodes].
  destruct (decide (name' = name)) as [->|Hne].
  - rewrite lookup_insert_eq, Hnode. simpl. split_and!; try done.
    intros q. case_decide as Hq; [|done]. subst q.
    destruct (addToken_inv _ _ _ _ Hadd) as [h Hh].
    destruct (addToken_spec (commonVariables node) (memories node pos) t h Hh)
      as (m1 & Hadd1 & _ & Hfilter & Hposition & _).
    rewrite Hadd in Hadd1. by simplify_eq.
  - rewrite lookup_insert_ne by done.
    destruct (nodes st !! name'); [|done]. by split_and!.
Qed.

Lemma structural_fireConsequent (p : PartialInstanciation) (termNode : nat) :
  structural (fireConsequent p termNode).
Proof.
  intros st a st'. unfold fireConsequent.
  destruct (pyset_add _ _); [|done]. intros [= <- <-].
  intros name. cbn [nodes]. destruct (nodes st !! name); [|done]. by split_and!.
Qed.

Lemma structural_propagate (fuel : nat) (self : nat) (source : option position)
    (partialInst : option PartialInstanciation) (wme : option ReteToken) :
  structural (propagate fuel self source partialInst wme).
Proof.
  apply (good_propagate (fun A => @structural A)).
  - intros A a. apply structural_ret.
  - intros A e. apply structural_raise.
  - intros A B c f. apply structural_bind.
  - apply structural_get_node.
  - apply structural_memory_addToken.
  - apply structural_fireConsequent.
Qed.
End structure.

Lemma without_builtins_same_structure (st st' : state) :
  same_structure st st' → without_builtins st → without_builtins st'.
Proof.
  intros Hsame Hst name node' Hnode'. specialize (Hsame name).
  rewrite Hnode' in Hsame.
  destruct (nodes st !! name) as [node|] eqn:Hnode; [|done].
  destruct Hsame as (_ & _ & Hfed & _). rewrite Hfed. by apply (Hst name).
Qed.

(** X11: in a network without cycles and without built-ins [propagate] at a
    node changes no node with the same or a smaller name, the node itself
    included: an activation is stored by the caller, and [propagate] only
    reaches the memories of the nodes below.  The network is without cycles
    and without built-ins afterwards as well. *)
Theorem propagate_frame `{PyHash} (bound fuel self : nat) (st st' : state)
    (source : option position) (partialInst : option PartialInstanciation)
    (wme : option ReteToken) :
  without_builtins st → ranked bound st → (bound - self < fuel)%nat →
  propagate fuel self source partialInst wme st = Ok (tt, st') →
  without_builtins st' ∧ ranked bound st' ∧
  ∀ name, (name ≤ self)%nat → nodes st' !! name = nodes st !! name.
Proof.
  intros Hplain Hst Hf Hrun.
  destruct (propagate_settled bound fuel fuel self source partialInst wme Hf Hf st Hst)
    as (_ & _ & Hok).
  split; [|by apply (Hok tt)].
  eapply without_builtins_same_structure; [|exact Hplain].
  by eapply structural_propagate.
Qed.

Lemma propagate_frame_witness :
  ∃ st' node2,
    propagate (H := distinct_hash) 3 1 (Some RIGHT_MEMORY) None (Some token_Foo_value)
              docstring_network_fed = Ok (tt, st') ∧
    nodes st' !! 1%nat = nodes docstring_network_fed !! 1%nat ∧
    nodes st' !! 2%nat = Some node2 ∧
    length (mem_items (memories node2 LEFT_MEMORY)) = 1%nat ∧
    firings (network st') = 2%nat.
Proof.
  destruct (run_with
              (propagate (H := distinct_hash) 3 1 (Some RIGHT_MEMORY) None
                         (Some token_Foo_value) docstring_network_fed)
              (fun st =>
                 match nodes st !! 2%nat with
                 | Some node2 =>
                     bool_decide (length (mem_items (memories node2 LEFT_MEMORY)) = 1%nat)
                 | None => false
                 end && bool_decide (firings (network st) = 2%nat)))
    as ([] & st' & Hrun & Hcheck); [vm_compute; reflexivity|].
  apply andb_true_iff in Hcheck as [Hnode2 Hfirings].
  destruct (nodes st' !! 2%nat) as [node2|] eqn:Hlookup; [|done].
  apply bool_decide_eq_true in Hnode2. apply bool_decide_eq_true in Hfirings.
  destruct (propagate_frame (H := distinct_hash) 3 3 1 docstring_network_fed st'
              (Some RIGHT_MEMORY) None (Some token_Foo_value)) as (_ & _ & Hframe).
  - by_compute.
  - apply ranked_map_Forall. by_compute.
  - simpl. lia.
  - exact Hrun.
  - exists st', node2. split_and!; [exact Hrun | by apply Hframe | done..].
Defined.

(** ** What an activation stores *)

Section stores.
Context `{PyHash}.

Local Abbreviation steady := (fun (A : Type) (c : M A) => growing c ∧ structural c).

Lemma steady_propagate (fuel : nat) (self : nat) (source : option position)
    (partialInst : option PartialInstanciation) (wme : option ReteToken) :
  steady unit (propagate fuel self source partialInst wme).
Proof.
  split; [apply growing_propagate | apply structural_propagate].
Qed.

Lemma steady_after_addToken (fuel : nat) (p : PartialInstanciation)
    (successor : nat) (position : position) :
  steady unit
    (node ← get_node successor;
     if aPassThru node || negb (checkNullActivation node position) then
       match position with
       | LEFT_MEMORY => propagate fuel successor (Some position) (Some p) None
       | RIGHT_MEMORY => propagate fuel successor None (Some p) None
       end
     else mret tt).
Proof.
  apply (good_after_addToken steady).
  - intros A a. split; [apply growing_ret | apply structural_ret].
  - intros A B c f [? ?] Hf. split.
    + apply growing_bind; [done|]. intros a. apply Hf.
    + apply structural_bind; [done|]. intros a. apply Hf.
  - intros name. split; [apply growing_get_node | apply structural_get_node].
  - intros name source q w. apply steady_propagate.
Qed.

Lemma steady_activate_memory (fuel : nat) (p : PartialInstanciation)
    (memory : nat * position) :
  steady unit (activate_memory (propagate fuel) p memory).
Proof.
  destruct memory as [successor position]. unfold activate_memory. split.
  - apply growing_bind; [apply growing_memory_addToken|]. intros _.
    apply steady_after_addToken.
  - apply structural_bind; [apply structural_memory_addToken|]. intros _.
    apply steady_after_addToken.
Qed.

Lemma forM_elem {A : Type} (l : list A) (body : A → M unit) (x : A) (st st' : state) :
  (∀ y, steady unit (body y)) →
  x ∈ l → forM l body st = Ok (tt, st') →
  ∃ sta stb, body x sta = Ok (tt, stb) ∧ state_le stb st' ∧ same_structure stb st'.
Proof.
  intros Hbody. revert st. induction l as [|y l IH]; intros st Hx; simpl.
  - by apply elem_of_nil in Hx.
  - unfold mbind, M_bind.
    destruct (body y st) as [[[] st1]|e] eqn:Hy; [|done]. intros Hrest.
    apply elem_of_cons in Hx as [->|Hx].
    + exists st, st1. split; [done|].
      assert (steady unit (forM l body)) as [Hg Hs].
      { split.
        - apply growing_forM. intros z. apply Hbody.
        - clear -Hbody. induction l as [|z l IHl]; simpl.
          + apply structural_ret.
          + apply structural_bind; [apply Hbody | intros _; apply IHl]. }
      split; [by eapply Hg | by eapply Hs].
    + by apply (IH st1).
Qed.

Lemma pyset_mem_subseteq (x : item) (s s' : list item) :
  s ⊆ s' → pyset_mem x s = true → pyset_mem x s' = true.
Proof.
  intros Hsub. rewrite !pyset_mem_true. intros (stored & Hin & Heq).
  exists stored. split; [by apply Hsub | done].
Qed.

Lemma activate_memory_stores (fuel : nat) (p : PartialInstanciation)
    (successor : nat) (pos : position) (sta stb : state) :
  activate_memory (propagate fuel) p (successor, pos) sta = Ok (tt, stb) →
  ∃ node, nodes stb !! successor = Some node ∧
    pyset_mem (ItemPInst p) (mem_items (memories node pos)) = true ∧
    ∀ key, key ∈ commonVarKeys (commonVariables node) (ItemPInst p) →
           pyset_mem (ItemPInst p) (substitution_get (memories node pos) key) = true.
Proof.
  unfold activate_memory, mbind, M_bind.
  destruct (memory_addToken successor pos (ItemPInst p) sta) as [[[] stc]|e] eqn:Hadd;
    [|done].
  intros Hrest.
  destruct (steady_after_addToken fuel p successor pos) as [Hg Hs].
  specialize (Hg stc tt stb Hrest). specialize (Hs stc tt stb Hrest).
  unfold memory_addToken in Hadd.
  destruct (nodes sta !! successor) as [nodeA|] eqn:HnodeA; [|done].
  destruct (addToken _ _ _) as [m|e] eqn:Hm; [|done].
  injection Hadd as <-.
  destruct (addToken_inv _ _ _ _ Hm) as [h Hh].
  destruct (addToken_spec (commonVariables nodeA) (memories nodeA pos)
              (ItemPInst p) h Hh) as (m1 & Hm1 & Hitems & _ & _ & Hkeys).
  rewrite Hm in Hm1. injection Hm1 as <-.
  destruct (Hg successor (set_memory nodeA pos m)) as (node & Hnode & Hle).
  { cbn [nodes]. by rewrite lookup_insert_eq. }
  specialize (Hs successor). cbn [nodes] in Hs.
  rewrite lookup_insert_eq, Hnode in Hs.
  destruct Hs as (_ & _ & _ & _ & _ & Hcv & _).
  destruct (Hle pos) as [Hitems_le Hkeys_le].
  assert (memories (set_memory nodeA pos m) pos = m) as Hmem
    by (simpl; by rewrite decide_True).
  rewrite Hmem in Hitems_le, Hkeys_le.
  exists node. split; [done|]. split.
  - apply (pyset_mem_subseteq _ _ _ Hitems_le). rewrite Hitems.
    by eapply pyset_insert_mem.
  - intros key Hkey. rewrite Hcv in Hkey. simpl in Hkey.
    apply (pyset_mem_subseteq _ _ _ (Hkeys_le key)).
    destruct (Hkeys key) as [Hin _]. rewrite Hin by done.
    by eapply pyset_insert_mem.
Qed.

(** X13: in a network without built-ins, when [_activate] returns, the
    instanciation it was given is in every descendent memory of the node,
    in the set and in the index under each of its keys, whatever the
    propagation below has added since; and if the node has a consequent,
    the instanciation is in the conflict set. *)
Theorem activate_stores (fuel self : nat) (p : PartialInstanciation)
    (st st' : state) (node : BetaNode) :
  without_builtins st →
  nodes st !! self = Some node →
  BetaNode_activate fuel self p st = Ok (tt, st') →
  (∀ successor pos, (successor, pos) ∈ descendentMemory node →
     ∃ node', nodes st' !! successor = Some node' ∧
       pyset_mem (ItemPInst p) (mem_items (memories node' pos)) = true ∧
       ∀ key, key ∈ commonVarKeys (commonVariables node') (ItemPInst p) →
              pyset_mem (ItemPInst p) (substitution_get (memories node' pos) key)
              = true) ∧
  (consequent node ≠ [] →
   pyset_mem (ItemPInst p) (conflictSet (network st')) = true).
Proof.
  intros _ Hnode. unfold BetaNode_activate, _activate, mbind, M_bind, get_node.
  rewrite Hnode.
  destruct (forM (descendentMemory node) (activate_memory (propagate fuel) p) st)
    as [[[] st1]|e] eqn:Hloop; [|done].
  intros Hfire.
  assert (nodes st' = nodes st1 ∧
          (consequent node ≠ [] →
           pyset_mem (ItemPInst p) (conflictSet (network st')) = true))
    as [Hnodes Hcs].
  { case_bool_decide as Hcons.
    - unfold fireConsequent in Hfire.
      destruct (pyset_add _ _) as [cs|e] eqn:Hadd; [|done].
      injection Hfire as <-. split; [done|]. intros _. simpl.
      apply pyset_add_inv in Hadd as [-> [h Hh]]. by eapply pyset_insert_mem.
    - injection Hfire as <-. split; [done|]. intros ?. done. }
  split; [|exact Hcs].
  intros successor pos Hin.
  destruct (forM_elem _ _ _ _ _ (steady_activate_memory fuel p) Hin Hloop)
    as (sta & stb & Hbody & Hle & Hsame).
  destruct (activate_memory_stores _ _ _ _ _ _ Hbody) as (nodeB & HnodeB & Hset & Hidx).
  destruct (Hle successor nodeB HnodeB) as (node' & Hnode' & Hmle).
  specialize (Hsame successor). rewrite HnodeB, Hnode' in Hsame.
  destruct Hsame as (_ & _ & _ & _ & _ & Hcv & _).
  destruct (Hmle pos) as [Hitems_le Hkeys_le].
  exists node'. rewrite Hnodes. split; [done|]. split.
  - by apply (pyset_mem_subseteq _ _ _ Hitems_le).
  - intros key Hkey. rewrite Hcv in Hkey.
    apply (pyset_mem_subseteq _ _ _ (Hkeys_le key)). by apply Hidx.
Qed.
End stores.


Lemma activate_stores_witness :
  ∃ st' node2,
    BetaNode_activate (H := distinct_hash) 2 1 inst_Foo docstring_network_fed
    = Ok (tt, st') ∧
    nodes st' !! 2%nat = Some node2 ∧
    pyset_mem (H := distinct_hash) (ItemPInst inst_Foo)
              (mem_items (memories node2 LEFT_MEMORY)) = true ∧
    pyset_mem (H := distinct_hash) (ItemPInst inst_Foo)
              (substitution_get (memories node2 LEFT_MEMORY)
                                [Some (URIRef "urn:uuid:Foo")]) = true ∧
    firings (network st') = 2%nat.
Proof.
  destruct (run_with
              (BetaNode_activate (H := distinct_hash) 2 1 inst_Foo docstring_network_fed)
              (fun st =>
                 match nodes st !! 2%nat with
                 | Some node2 => bool_decide (commonVariables node2 = [Var "X"])
                 | None => false
                 end && bool_decide (firings (network st) = 2%nat)))
    as ([] & st' & Hrun & Hcheck); [vm_compute; reflexivity|].
  apply andb_true_iff in Hcheck as [Hcv Hfirings].
  apply bool_decide_eq_true in Hfirings.
  assert (descendentMemory <$> nodes docstring_network_fed !! 1%nat
          = Some [(2%nat, LEFT_MEMORY)]) as Hdesc by by_compute.
  destruct (nodes docstring_network_fed !! 1%nat) as [node|] eqn:Hlookup1; [|done].
  injection Hdesc as Hdesc.
  destruct (activate_stores (H := distinct_hash) 2 1 inst_Foo docstring_network_fed st'
              node) as [Hmem _].
  - by_compute.
  - exact Hlookup1.
  - exact Hrun.
  - destruct (Hmem 2%nat LEFT_MEMORY) as (node2 & Hnode2 & Hset & Hidx).
    { rewrite Hdesc. apply list_elem_of_singleton. reflexivity. }
    rewrite Hnode2 in Hcv. apply bool_decide_eq_true in Hcv.
    exists st', node2. split_and!; [exact Hrun | exact Hnode2 | exact Hset | | exact Hfirings].
    apply Hidx. rewrite Hcv. apply list_elem_of_singleton. reflexivity.
Defined.

(** ** A common variable that is not bound *)

Lemma mapM_dict_item_KeyError (d : pydict) (cv : list term) (var : term) :
  var ∈ cv → d !! var = None → mapM (dict_item d) cv = Raise KeyError.
Proof.
  intros Hvar Hd. induction cv as [|x cv IH]; [by apply elem_of_nil in Hvar|].
  change (mapM (dict_item d) (x :: cv))
    with (y ← dict_item d x; k ← mapM (dict_item d) cv; mret (y :: k)).
  destruct (decide (x = var)) as [->|Hne].
  - assert (dict_item d var = Raise KeyError) as ->; [|done].
    unfold dict_item. by rewrite Hd.
  - destruct (dict_item d x) as [y|e] eqn:Hx; cbn [mbind Result_bind].
    + rewrite IH; [done|]. apply elem_of_cons in Hvar as [?|?]; done.
    + unfold dict_item in Hx. destruct (d !! x); by simplify_eq.
Qed.

Lemma List_filter_length_le {A : Type} (f : A → bool) (l : list A) :
  (length (List.filter f l) ≤ length l)%nat.
Proof. induction l as [|y l IH]; simpl; [lia|]. destruct (f y); simpl; lia. Qed.

Lemma List_filter_length_lt {A : Type} (f : A → bool) (l : list A) (x : A) :
  x ∈ l → f x = false → (length (List.filter f l) < length l)%nat.
Proof.
  intros Hx Hf. induction l as [|y l IH]; [by apply elem_of_nil in Hx|].
  simpl. pose proof (List_filter_length_le f l) as Hle.
  apply elem_of_cons in Hx as [<-|Hx].
  - rewrite Hf. lia.
  - specialize (IH Hx). destruct (f y); simpl; lia.
Qed.

Section unbound.
Context `{PyHash}.

Lemma commonVarKeys_length (cv : list term) (t : item) (key : list pyval) :
  key ∈ commonVarKeys cv t → length key = length cv.
Proof.
  destruct t as [t|p]; simpl.
  - intros ->%list_elem_of_singleton. by rewrite length_fmap.
  - intros (binding & -> & _)%list_elem_of_fmap. by rewrite length_fmap.
Qed.

Lemma filled_by_addToken_key_length (cv : list term) (m : ReteMemory)
    (key : list pyval) :
  filled_by_addToken cv m → length key ≠ length cv → substitution_get m key = [].
Proof.
  intros (position & filter & ts & Hm) Hlen.
  destruct (addToken_series cv ts _ m Hm) as (_ & _ & _ & Hidx & _).
  destruct (substitution_get m key) as [|x l] eqn:Hget; [done|].
  destruct (Hidx key x) as [Hx|[_ Hkey]].
  - rewrite Hget. left.
  - unfold substitution_get in Hx. simpl in Hx. rewrite lookup_empty in Hx.
    by apply elem_of_nil in Hx.
  - by apply commonVarKeys_length in Hkey.
Qed.

Lemma left_matches_unbound (self : BetaNode) (partialInst : PartialInstanciation) :
  filled_by_addToken (commonVariables self) (memories self RIGHT_MEMORY) →
  (∀ binding, binding ∈ bindings partialInst →
              ∃ var, var ∈ commonVariables self ∧ binding !! var = None) →
  left_matches self partialInst = Ok [].
Proof.
  intros Hfilled Hbindings. unfold left_matches.
  induction (bindings partialInst) as [|binding bs IH]; [done|].
  cbn [foldM].
  destruct (Hbindings binding) as (var & Hvar & Hnone); [left|].
  rewrite (filled_by_addToken_key_length (commonVariables self)); [| done |].
  - cbn [foldM mbind Result_bind]. apply IH.
    intros b Hb. apply Hbindings. by right.
  - rewrite length_fmap.
    pose proof (List_filter_length_lt
                  (fun var => bool_decide (binding !! var ≠ None))
                  (commonVariables self) var Hvar) as Hlt.
    cbv beta in Hlt. rewrite bool_decide_eq_false_2 in Hlt by (by intros ?).
    specialize (Hlt eq_refl). lia.
Qed.
End unbound.

(** X14: what a join node (not a pass-through) does with an activation that
    lacks a common variable.  [addToken] files a token that does not bind it
    under a key with [None] at its place; a right activation with such a
    token raises [KeyError], and so does the activation by a beta node from
    the right when the first binding of the instanciation lacks it; a left
    activation skips the variable, looks up a shorter key and finds nothing
    in a right memory that [addToken] has filled, so that it joins nothing
    when every binding lacks a common variable. *)
Theorem unbound_common_variable `{PyHash} (fuel self : nat) (st : state)
    (node : BetaNode) :
  nodes st !! self = Some node → aPassThru node = false →
  (∀ wme m, ∃ m', addToken (commonVariables node) m (ItemToken wme) = Ok m' ∧
                  pyset_mem (ItemToken wme)
                    (substitution_get m' (dict_get (bindingDict wme) <$> commonVariables node))
                  = true) ∧
  (∀ wme var, var ∈ commonVariables node → bindingDict wme !! var = None →
     propagate (S fuel) self (Some RIGHT_MEMORY) None (Some wme) st = Raise KeyError) ∧
  (∀ p binding rest var,
     bindings p = binding :: rest → var ∈ commonVariables node →
     binding !! var = None →
     propagate (S fuel) self None (Some p) None st = Raise KeyError) ∧
  (∀ p, fedByBuiltin node = None →
     filled_by_addToken (commonVariables node) (memories node RIGHT_MEMORY) →
     (∀ binding, binding ∈ bindings p →
                 ∃ var, var ∈ commonVariables node ∧ binding !! var = None) →
     propagate (S fuel) self (Some LEFT_MEMORY) (Some p) None st = Ok (tt, st)).
Proof.
  intros Hnode HpassThru. split_and!.
  - intros wme m.
    destruct (addToken_spec (commonVariables node) m (ItemToken wme)
                (hash_token wme) eq_refl) as (m' & Hm' & _ & _ & _ & Hkeys).
    exists m'. split; [done|].
    destruct (Hkeys (dict_get (bindingDict wme) <$> commonVariables node)) as [Hin _].
    rewrite Hin by (by apply list_elem_of_singleton).
    by eapply pyset_insert_mem.
  - intros wme var Hvar Hnone. cbn [propagate].
    unfold mbind, M_bind, get_node. rewrite Hnode, HpassThru.
    unfold right_matches. by rewrite (mapM_dict_item_KeyError _ _ var).
  - intros p binding rest var Hbindings Hvar Hnone. cbn [propagate].
    unfold mbind, M_bind, get_node. rewrite Hnode, HpassThru, Hbindings.
    cbn [forM]. unfold signal_binding, mbind, M_bind, get_node. rewrite Hnode.
    by rewrite (mapM_dict_item_KeyError _ _ var).
  - intros p Hfed Hfilled Hbindings. cbn [propagate].
    unfold mbind, M_bind, get_node. rewrite Hnode, HpassThru, Hfed.
    by rewrite left_matches_unbound.
Qed.

Lemma unbound_common_variable_witness :
  propagate (H := distinct_hash) 1 2 (Some RIGHT_MEMORY) None (Some token_A)
            docstring_network = Raise KeyError.
Proof.
  destruct (unbound_common_variable (H := distinct_hash) 0 2 docstring_network joinNode2)
    as (_ & Hright & _); [reflexivity | reflexivity |].
  apply (Hright token_A (Var "X")); [by apply list_elem_of_singleton | by_compute].
Defined.

(** ** A freshly built join node *)

Lemma NoDup_collectVariables (node : pynode) : NoDup (collectVariables node).
Proof.
  destruct node as [|b|pattern|node]; simpl; try apply NoDup_nil_2.
  - apply NoDup_set_of_list.
  - apply NoDup_set_union, NoDup_set_union, NoDup_nil_2.
Qed.

(** X15: a join node that [BetaNode(leftNode, rightNode, aPassThru)] has
    built has two empty memories, each at its position and with an empty
    index, no consequent and no descendent memory, and it is never fed by a
    built-in from the left.  Its common variables have no duplicates; for a
    pass-through node they are the variables of the right input and there
    are no left variables, otherwise they are the variables that both inputs
    have.  The variables that the node passes on to a node below are its left
    and its right variables.  As long as nothing is added, an activation from
    either side is a null activation unless a built-in feeds the node. *)
Theorem BetaNode_init_fresh (leftNode rightNode : pynode) (aPassThru0 : bool)
    (node : BetaNode) :
  BetaNode_init leftNode rightNode aPassThru0 = Ok node →
  (∀ pos, mem_items (memories node pos) = [] ∧
          substitutionDict (memories node pos) = ∅ ∧
          mem_position (memories node pos) = pos) ∧
  aPassThru node = aPassThru0 ∧ consequent node = [] ∧ descendentMemory node = [] ∧
  fedByBuiltin node ≠ Some LEFT_MEMORY ∧
  NoDup (commonVariables node) ∧
  (if aPassThru0
   then leftVariables node = [] ∧ commonVariables node = rightVariables node
   else ∀ x, x ∈ commonVariables node ↔ x ∈ leftVariables node ∧ x ∈ rightVariables node) ∧
  (∀ x, x ∈ collectVariables (ABetaNode node) ↔
        x ∈ leftVariables node ∨ x ∈ rightVariables node) ∧
  (fedByBuiltin node = None → ∀ pos, checkNullActivation node pos = true).
Proof.
  unfold BetaNode_init. destruct (isBuiltInAlphaNode leftNode) eqn:Hleft.
  { destruct (isBuiltInAlphaNode rightNode); simpl; done. }
  cbn [mbind Result_bind py_assert bool_decide decide_rel].
  rewrite bool_decide_eq_true_2 by done. cbn [py_assert mbind Result_bind].
  assert (∀ (fed : option position) (left_memory : ReteMemory),
            fed ≠ Some LEFT_MEMORY →
            mem_items left_memory = [] → substitutionDict left_memory = ∅ →
            mem_position left_memory = LEFT_MEMORY →
            ∀ lv rv cv,
              NoDup cv →
              (if aPassThru0 then lv = [] ∧ cv = rv
               else ∀ x, x ∈ cv ↔ x ∈ lv ∧ x ∈ rv) →
              NoDup lv → NoDup rv →
              let node :=
                {| aPassThru := aPassThru0; consequent := []; fedByBuiltin := fed;
                   leftVariables := lv; rightVariables := rv; commonVariables := cv;
                   memories := fun pos => match pos with
                                          | LEFT_MEMORY => left_memory
                                          | RIGHT_MEMORY => ReteMemory_init RIGHT_MEMORY None
                                          end;
                   descendentMemory := [] |} in
              (∀ pos, mem_items (memories node pos) = [] ∧
                      substitutionDict (memories node pos) = ∅ ∧
                      mem_position (memories node pos) = pos) ∧
              aPassThru node = aPassThru0 ∧ consequent node = [] ∧
              descendentMemory node = [] ∧
              fedByBuiltin node ≠ Some LEFT_MEMORY ∧
              NoDup (commonVariables node) ∧
              (if aPassThru0
               then leftVariables node = [] ∧ commonVariables node = rightVariables node
               else ∀ x, x ∈ commonVariables node ↔
                         x ∈ leftVariables node ∧ x ∈ rightVariables node) ∧
              (∀ x, x ∈ collectVariables (ABetaNode node) ↔
                    x ∈ leftVariables node ∨ x ∈ rightVariables node) ∧
              (fedByBuiltin node = None → ∀ pos, checkNullActivation node pos = true))
    as Hfresh.
  { intros fed left_memory Hfed Hitems Hdict Hposition lv rv cv Hcv Hvars Hlv Hrv node0.
    split_and!; try done.
    - intros [|]; simpl; done.
    - intros x. simpl. rewrite !elem_of_set_union, elem_of_nil. tauto.
    - intros Hnone pos. apply checkNullActivation_true. split; [done|].
      destruct pos; simpl; done. }
  assert (∀ lv rv : list term, NoDup lv →
            NoDup (filter (fun leftVar => leftVar ∈ rv) lv) ∧
            ∀ x, x ∈ filter (fun leftVar => leftVar ∈ rv) lv ↔ x ∈ lv ∧ x ∈ rv)
    as Hcommon.
  { intros lv rv Hlv. split; [by apply NoDup_filter|].
    intros x. rewrite list_elem_of_filter. tauto. }
  pose proof (NoDup_collectVariables leftNode) as HL.
  pose proof (NoDup_collectVariables rightNode) as HR.
  destruct rightNode as [|b|pattern|rnode]; cbn [mbind Result_bind py_assert];
    rewrite ?Hleft; cbn [negb py_assert mbind Result_bind];
    destruct aPassThru0; intros [= <-];
    apply Hfresh; try done; try apply NoDup_nil_2; try apply Hcommon; try done.
Qed.

Lemma BetaNode_init_fresh_witness :
  ∃ node,
    BetaNode_init (AnAlphaNode P1_pattern) (AnAlphaNode P1_P2_pattern) false = Ok node ∧
    NoDup (commonVariables node) ∧
    checkNullActivation node LEFT_MEMORY = true.
Proof.
  destruct (BetaNode_init_alpha P1_pattern P1_P2_pattern) as (node & Hnode & Hfed & _).
  destruct (BetaNode_init_fresh _ _ _ _ Hnode)
    as (_ & _ & _ & _ & _ & Hnodup & _ & _ & Hnull).
  exists node. split_and!; [exact Hnode | exact Hnodup | by apply Hnull].
Defined.

(** ** The union of a memory with a set *)

(** X16: [memory.union(other)] (and so [memory | other]) does not hold the
    items of [memory]: the result is a new memory at the same position,
    without filter and with an empty index, whose items are those of [other].
    A token of [other] is therefore not found under its key, and the result is
    not a memory as [addToken] fills it. *)
Theorem ReteMemory_union_takes_other `{PyHash} (cv : list term) (self : ReteMemory)
    (other : list item) :
  mem_items (ReteMemory_union self other) = other ∧
  mem_position (ReteMemory_union self other) = mem_position self ∧
  mem_filter (ReteMemory_union self other) = None ∧
  (∀ key, substitution_get (ReteMemory_union self other) key = []) ∧
  (∀ x, x ∈ mem_items self → x ∉ other → x ∉ mem_items (ReteMemory_union self other)) ∧
  (∀ t, ItemToken t ∈ other → ¬ filled_by_addToken cv (ReteMemory_union self other)).
Proof.
  split_and!; try done.
  intros t Ht (position & filter & ts & Hm).
  destruct (addToken_series cv ts _ _ Hm) as (Hitems & _ & _ & _ & _ & Hidx).
  destruct (Hitems (ItemToken t)) as [Hin|Hin]; [done | by apply elem_of_nil in Hin |].
  specialize (Hidx (dict_get (bindingDict t) <$> cv) (ItemToken t) Hin).
  change (substitution_get (ReteMemory_union self other)
            (dict_get (bindingDict t) <$> cv)) with (@nil item) in Hidx.
  discriminate Hidx. by apply list_elem_of_singleton.
Qed.

(** ** Joining two instanciations at a terminal node *)

Lemma any_consume_shorter (pred : term → bool) (seq rest : list term) (b : bool) :
  any_consume pred seq = (b, rest) →
  if b then (length rest < length seq)%nat else rest = [].
Proof.
  revert rest. induction seq as [|x seq IH]; intros rest; simpl.
  - by intros [= <- <-].
  - destruct (pred x).
    + intros [= <- <-]. simpl. lia.
    + intros Hrest. specialize (IH rest Hrest). destruct b; [simpl; lia | done].
Qed.

Lemma any_consume_all (pred : term → bool) (seq : list term) :
  (any_consume pred seq).1 = true ↔ ∃ x, x ∈ seq ∧ pred x = true.
Proof.
  induction seq as [|x seq IH]; simpl.
  - split; [done | intros (x & Hx & _); by apply elem_of_nil in Hx].
  - destruct (pred x) eqn:Hx; simpl.
    + split; [intros _; exists x; split; [left | done] | done].
    + rewrite IH. split.
      * intros (y & Hy & Hpy). exists y. split; [by right | done].
      * intros (y & [->|Hy]%elem_of_cons & Hpy); [congruence | eauto].
Qed.

Lemma consVars_loop_false (bs : list pydict) (consVars : list term) :
  (foldl (fun '(failed, consVars) (binding : pydict) =>
            let '(missing, consVars) :=
              any_consume (fun x => bool_decide (binding !! x = None)) consVars in
            if missing : bool then (failed, consVars) else (false, consVars))
         (false, consVars) bs).1 = false.
Proof.
  revert consVars. induction bs as [|b bs IH]; intros consVars; [done|].
  cbn [foldl]. destruct (any_consume _ consVars) as [[|] rest]; apply IH.
Qed.

Lemma consVars_loop_exhausted (bs : list pydict) (failed : bool) (consVars : list term) :
  (length consVars < length bs)%nat →
  (foldl (fun '(failed, consVars) (binding : pydict) =>
            let '(missing, consVars) :=
              any_consume (fun x => bool_decide (binding !! x = None)) consVars in
            if missing : bool then (failed, consVars) else (false, consVars))
         (failed, consVars) bs).1 = false.
Proof.
  revert failed consVars. induction bs as [|b bs IH]; intros failed consVars Hlen;
    [simpl in Hlen; lia|].
  cbn [foldl].
  destruct (any_consume (fun x => bool_decide (b !! x = None)) consVars)
    as [missing rest] eqn:Hany.
  apply any_consume_shorter in Hany. destruct missing.
  - apply IH. simpl in Hlen. lia.
  - apply consVars_loop_false.
Qed.

Lemma consVars_length (consequent : list (term * term * term)) :
  (length (match last consequent with
           | Some c => List.filter isVariable (triple_terms c)
           | None => []
           end) ≤ 3)%nat.
Proof.
  destruct (last consequent) as [[[s p] o]|]; simpl; [|lia].
  destruct (isVariable s), (isVariable p), (isVariable o); simpl; lia.
Qed.

(** X17: the check that a terminal node makes before it joins an
    instanciation with an instanciation of its right memory.  With one
    consequent and one binding of the joined tokens, the join is kept exactly
    when the binding has every variable of the consequent.  The variables of
    the consequent are an iterator that the test of each binding consumes,
    so that with more than three bindings the join is kept whatever they
    bind: a triple has at most three variables. *)
Theorem terminal_join_check `{PyHash} (self : BetaNode)
    (partialInst rightWME : PartialInstanciation) (commonDict : pydict)
    (matches : list item) (newP : PartialInstanciation) :
  PartialInstanciation_init (set_union (tokens partialInst) (tokens rightWME)) commonDict
  = Ok newP →
  (∀ c b, consequent self = [c] → bindings newP = [b] →
     ((∀ x, x ∈ triple_terms c → isVariable x = true → is_Some (b !! x)) →
      left_join_instanciation self partialInst rightWME commonDict matches
      = pyset_add (ItemPInst newP) matches) ∧
     ((∃ x, x ∈ triple_terms c ∧ isVariable x = true ∧ b !! x = None) →
      left_join_instanciation self partialInst rightWME commonDict matches
      = Ok matches)) ∧
  ((3 < length (bindings newP))%nat →
   left_join_instanciation self partialInst rightWME commonDict matches
   = pyset_add (ItemPInst newP) matches).
Proof.
  intros Hinit. split.
  - intros c b Hcons Hbindings. unfold left_join_instanciation.
    rewrite Hcons, Hinit. rewrite bool_decide_eq_true_2 by done.
    cbn [mbind Result_bind last]. rewrite Hbindings. cbn [foldl].
    destruct (any_consume (fun x => bool_decide (b !! x = None))
                (List.filter isVariable (triple_terms c))) as [missing rest] eqn:Hany.
    pose proof (any_consume_all (fun x => bool_decide (b !! x = None))
                  (List.filter isVariable (triple_terms c))) as Hall.
    rewrite Hany in Hall. cbn [fst] in Hall.
    split.
    + intros Hbound. destruct missing; [|done].
      destruct Hall as [Hall _]. destruct (Hall eq_refl) as (x & Hx & Hnone).
      apply list_elem_of_In, List.filter_In in Hx as [Hx Hvar].
      apply list_elem_of_In in Hx. apply bool_decide_eq_true in Hnone.
      destruct (Hbound x Hx Hvar) as [v Hv]. congruence.
    + intros (x & Hx & Hvar & Hnone). destruct missing; [done|].
      destruct Hall as [_ Hall]. discriminate Hall.
      exists x. split; [|by apply bool_decide_eq_true].
      apply list_elem_of_In, List.filter_In. split; [by apply list_elem_of_In | done].
  - intros Hlen. unfold left_join_instanciation. rewrite Hinit.
    case_bool_decide; [|done]. cbn [mbind Result_bind].
    pose proof (consVars_length (consequent self)) as Hvars.
    match goal with
    | |- context [foldl ?f (true, ?cv) (bindings newP)] =>
        pose proof (consVars_loop_exhausted (bindings newP) true cv) as Hloop;
        destruct (foldl f (true, cv) (bindings newP)) as [failed rest]
    end.
    cbn [fst] in Hloop. rewrite Hloop by lia. done.
Qed.

Lemma terminal_join_check_witness :
  ∃ newP,
    PartialInstanciation_init (H := distinct_hash)
      (set_union (tokens inst_ab_cd) (tokens inst_ef_gh)) ∅ = Ok newP ∧
    left_join_instanciation (H := distinct_hash) joinNode3 inst_ab_cd inst_ef_gh ∅ []
    = pyset_add (H := distinct_hash) (ItemPInst newP) [].
Proof.
  destruct (PartialInstanciation_init_spec (H := distinct_hash)
              (set_union (tokens inst_ab_cd) (tokens inst_ef_gh)) ∅)
    as (newP & Hinit & _).
  exists newP. split; [exact Hinit|].
  apply (terminal_join_check (H := distinct_hash) joinNode3 inst_ab_cd inst_ef_gh ∅ []
           newP Hinit).
  assert (bindings <$> PartialInstanciation_init (H := distinct_hash)
                         (set_union (tokens inst_ab_cd) (tokens inst_ef_gh)) ∅
          = bindings <$> Ok newP) as Hbs by (by rewrite Hinit).
  assert (length <$> (bindings <$> PartialInstanciation_init (H := distinct_hash)
                         (set_union (tokens inst_ab_cd) (tokens inst_ef_gh)) ∅)
          = Ok 4%nat) as Hfour by (vm_compute; reflexivity).
  rewrite Hbs in Hfour. simpl in Hfour. injection Hfour as ->. lia.
Defined.

(** [checkNullActivation] in terms of [_checkOpposingMemory]. *)
Lemma checkNullActivation_opposing (self : BetaNode) (source : position) :
  checkNullActivation self source
  = bool_decide (fedByBuiltin self = None) && negb (_checkOpposingMemory self source).
Proof.
  unfold checkNullActivation, _checkOpposingMemory. f_equal.
  destruct (mem_items _) as [|x l]; done.
Qed.

(** ** The instanciations that propagation stores *)

Section well_hashed.
Context `{PyHash}.

Lemma set_add_not_nil (t : ReteToken) (s : list ReteToken) : set_add t s ≠ [].
Proof.
  unfold set_add. case_decide as Hin; [|by destruct s].
  intros ->. by apply elem_of_nil in Hin.
Qed.

Lemma well_hashed_add (self p : PartialInstanciation) (t : ReteToken) :
  PartialInstanciation_add self t false = Ok p → well_hashed (ItemPInst p).
Proof.
  destruct (PartialInstanciation_add_spec self t) as (p' & -> & _ & Ht & Hh & _).
  intros [= <-]. split; [|done]. rewrite Ht. apply set_add_not_nil.
Qed.

Lemma well_hashed_init (ts : list ReteToken) (cb : pydict) (p : PartialInstanciation) :
  ts ≠ [] → PartialInstanciation_init ts cb = Ok p → well_hashed (ItemPInst p).
Proof.
  intros Hts. destruct (PartialInstanciation_init_spec ts cb)
    as (p' & -> & _ & Ht & Hh & _).
  intros [= <-]. destruct (Hh Hts) as [Hh' _]. split; [|done].
  rewrite Ht. intros Hnil. by apply set_of_list_nil_inv in Hnil.
Qed.

Lemma well_hashed_newJoin (self : PartialInstanciation) (rightWME : ReteToken)
    (newJoinVariables : pyiterable) (p : PartialInstanciation) :
  newJoin self rightWME newJoinVariables = Ok p → well_hashed (ItemPInst p).
Proof.
  unfold newJoin. destruct (newJoin_collect _ _ _) as [np|e]; [|done].
  cbn [mbind Result_bind]. apply well_hashed_add.
Qed.

Lemma well_hashed_pyset_add (x : item) (s s' : list item) :
  Forall well_hashed s → well_hashed x → pyset_add x s = Ok s' →
  Forall well_hashed s'.
Proof.
  intros Hs Hx Hadd. apply pyset_add_inv in Hadd as [-> _].
  unfold pyset_insert. destruct (pyset_mem x s); [done|].
  apply Forall_app. split; [done|]. by apply Forall_singleton.
Qed.

Lemma set_union_not_nil (s t : list ReteToken) : s ≠ [] → set_union s t ≠ [].
Proof.
  intros Hs Hnil. destruct s as [|x s]; [done|].
  assert (x ∈ set_union (x :: s) t) as Hx by (apply elem_of_set_union; left; left).
  rewrite Hnil in Hx. by apply elem_of_nil in Hx.
Qed.

Lemma well_hashed_left_join_instanciation (self : BetaNode)
    (partialInst rightWME : PartialInstanciation) (commonDict : pydict)
    (matches matches' : list item) :
  tokens partialInst ≠ [] → Forall well_hashed matches →
  left_join_instanciation self partialInst rightWME commonDict matches = Ok matches' →
  Forall well_hashed matches'.
Proof.
  intros Htokens Hmatches. unfold left_join_instanciation.
  pose proof (set_union_not_nil (tokens partialInst) (tokens rightWME) Htokens) as Hne.
  destruct (PartialInstanciation_init _ commonDict) as [newP|e] eqn:Hinit;
    [|by case_bool_decide].
  apply well_hashed_init in Hinit; [|done].
  case_bool_decide; cbn [mbind Result_bind].
  - destruct (foldl _ _ _) as [[|] consVars]; [by intros [= <-]|].
    by apply well_hashed_pyset_add.
  - by apply well_hashed_pyset_add.
Qed.

Lemma well_hashed_left_matches (self : BetaNode) (partialInst : PartialInstanciation)
    (matches : list item) :
  tokens partialInst ≠ [] → left_matches self partialInst = Ok matches →
  Forall well_hashed matches.
Proof.
  intros Htokens. unfold left_matches.
  apply (foldM_preserves (Forall well_hashed) (fun _ => True));
    [|by apply Forall_forall|done].
  intros ms binding ms' Hms _.
  apply (foldM_preserves (Forall well_hashed) (fun _ => True));
    [|by apply Forall_forall|done].
  intros ms1 [rightWME|rightWME] ms2 Hms1 _.
  - destruct (newJoin _ _ _) as [newP|e] eqn:Hjoin; [|done].
    cbn [mbind Result_bind]. apply well_hashed_pyset_add; [done|].
    by eapply well_hashed_newJoin.
  - by apply well_hashed_left_join_instanciation.
Qed.

Lemma well_hashed_right_matches (self : BetaNode) (wme : ReteToken)
    (matches : list item) :
  right_matches self wme = Ok matches → Forall well_hashed matches.
Proof.
  unfold right_matches. destruct (mapM _ _) as [key|e]; [|done].
  cbn [mbind Result_bind].
  destruct (substitutionDict _ !! key) as [lPartInsts|]; [|by intros [= <-]].
  apply (foldM_preserves (Forall well_hashed) (fun _ => True));
    [|by apply Forall_forall|done].
  intros ms [t|p] ms' Hms _.
  - destruct (singleToken t) as [newP|e] eqn:Hsingle; [|done].
    cbn [mbind Result_bind]. apply well_hashed_pyset_add; [done|].
    by apply (well_hashed_init [t] (bindingDict t)).
  - destruct (newJoin _ _ _) as [newP|e] eqn:Hjoin; [|done].
    cbn [mbind Result_bind]. apply well_hashed_pyset_add; [done|].
    by eapply well_hashed_newJoin.
Qed.

Lemma well_hashed_right_matches_no_wme (self : BetaNode) (matches : list item) :
  right_matches_no_wme self = Ok matches → Forall well_hashed matches.
Proof.
  unfold right_matches_no_wme. destruct (commonVariables self); [|done].
  destruct (substitutionDict _ !! []) as [lPartInsts|]; [|by intros [= <-]].
  apply (foldM_preserves (Forall well_hashed) (fun _ => True));
    [|by apply Forall_forall|done].
  intros ms [t|p] ms' Hms _; [|done].
  destruct (singleToken t) as [newP|e] eqn:Hsingle; [|done].
  cbn [mbind Result_bind]. apply well_hashed_pyset_add; [done|].
  by apply (well_hashed_init [t] (bindingDict t)).
Qed.

Lemma well_hashed_left_matches_builtin (self : BetaNode) (source : position)
    (partialInst : PartialInstanciation) (matches : list item) :
  well_hashed (ItemPInst partialInst) →
  left_matches_builtin self source partialInst = Ok matches →
  Forall well_hashed matches.
Proof.
  intros [Htokens Hhash]. unfold left_matches_builtin.
  destruct (mem_filter _) as [filter|]; [|done].
  match goal with
  | |- context [addConsistentBinding partialInst ?vs] =>
      destruct (addConsistentBinding_spec partialInst vs)
        as (p & -> & Ht & Hh & _)
  end.
  cbn [mbind Result_bind].
  apply (foldM_preserves (Forall well_hashed) (fun _ => True));
    [|by apply Forall_forall|done].
  intros ms binding ms' Hms _.
  destruct (builtin_operand binding (argument filter)) as [lhs|e]; [|done].
  destruct (builtin_operand binding (result filter)) as [rhs|e]; [|done].
  cbn [mbind Result_bind]. destruct (func filter lhs rhs); [|by intros [= <-]].
  apply well_hashed_pyset_add; [done|]. split; by rewrite ?Ht, ?Hh, ?Ht.
Qed.
End well_hashed.

Section keeps_well_hashed.
Context `{PyHash}.

Lemma kwh_ret {A : Type} (a : A) : keeps_well_hashed (mret a).
Proof. by intros st a' st' Hst [= <- <-]. Qed.

Lemma kwh_lift {A : Type} (r : Result A) : keeps_well_hashed (lift r).
Proof. intros st a st' Hst. unfold lift. destruct r; [|done]. by intros [= <- <-]. Qed.

Lemma kwh_bind {A B : Type} (c : M A) (f : A → M B) (Q : A → Prop) :
  keeps_well_hashed c → (∀ st a st', c st = Ok (a, st') → Q a) →
  (∀ a, Q a → keeps_well_hashed (f a)) →
  keeps_well_hashed (c ≫= f).
Proof.
  intros Hc HQ Hf st b st' Hst. unfold mbind, M_bind.
  destruct (c st) as [[a st1]|e] eqn:Hcst; [|done].
  apply (Hf a); [by eapply HQ | by eapply Hc].
Qed.

Lemma kwh_bind_any {A B : Type} (c : M A) (f : A → M B) :
  keeps_well_hashed c → (∀ a, keeps_well_hashed (f a)) →
  keeps_well_hashed (c ≫= f).
Proof.
  intros Hc Hf. apply (kwh_bind c f (fun _ => True)); [done | done |].
  intros a _. apply Hf.
Qed.

Lemma kwh_bind_lift {A B : Type} (r : Result A) (f : A → M B) :
  (∀ a, r = Ok a → keeps_well_hashed (f a)) →
  keeps_well_hashed (lift r ≫= f).
Proof.
  intros Hf. apply (kwh_bind _ _ (fun a => r = Ok a)); [apply kwh_lift | | done].
  intros st a st'. unfold lift. destruct r; [|done]. by intros [= <- <-].
Qed.

Lemma kwh_get_node (name : nat) : keeps_well_hashed (get_node name).
Proof.
  intros st a st' Hst. unfold get_node. destruct (nodes st !! name); [|done].
  by intros [= <- <-].
Qed.

Lemma kwh_forM {A : Type} (l : list A) (body : A → M unit) :
  (∀ x, keeps_well_hashed (body x)) → keeps_well_hashed (forM l body).
Proof.
  intros Hbody. induction l as [|x l IH]; simpl; [apply kwh_ret|].
  apply kwh_bind_any; [apply Hbody | intros _; apply IH].
Qed.

Lemma kwh_memory_addToken (name : nat) (pos : position) (t : item) :
  well_hashed t → keeps_well_hashed (memory_addToken name pos t).
Proof.
  intros Ht st a st' [Hmem Hcs]. unfold memory_addToken.
  destruct (nodes st !! name) as [node|] eqn:Hnode; [|done].
  destruct (addToken _ _ _) as [m|e] eqn:Hadd; [|done].
  intros [= <- <-]. split; [|done].
  intros name' node' pos' x Hnode' Hx. cbn [nodes] in Hnode'.
  destruct (decide (name' = name)) as [->|Hne].
  - rewrite lookup_insert_eq in Hnode'. injection Hnode' as <-.
    simpl in Hx. case_decide as Hpos; [|by eapply Hmem].
    subst pos'.
    destruct (addToken_inv _ _ _ _ Hadd) as [h Hh].
    destruct (addToken_spec (commonVariables node) (memories node pos) t h Hh)
      as (m1 & Hadd1 & Hitems & _ & _ & Hkeys).
    rewrite Hadd in Hadd1. injection Hadd1 as <-.
    destruct Hx as [Hx|[key Hx]].
    + rewrite Hitems in Hx. apply elem_of_pyset_insert in Hx as [Hx|[-> _]]; [|done].
      eapply Hmem; [done|]. by left.
    + destruct (Hkeys key) as [Hin Hnin].
      destruct (decide (key ∈ commonVarKeys (commonVariables node) t)) as [Hk|Hk].
      * rewrite Hin in Hx by done.
        apply elem_of_pyset_insert in Hx as [Hx|[-> _]]; [|done].
        eapply Hmem; [done|]. right. by exists key.
      * rewrite Hnin in Hx by done. eapply Hmem; [done|]. right. by exists key.
  - rewrite lookup_insert_ne in Hnode' by done. by eapply Hmem.
Qed.

Lemma kwh_fireConsequent (p : PartialInstanciation) (termNode : nat) :
  well_hashed (ItemPInst p) → keeps_well_hashed (fireConsequent p termNode).
Proof.
  intros Hp st a st' [Hmem Hcs]. unfold fireConsequent.
  destruct (pyset_add _ _) as [cs|e] eqn:Hadd; [|done].
  intros [= <- <-]. split; [done|]. intros x Hx. simpl in Hx.
  apply pyset_add_inv in Hadd as [-> _].
  apply elem_of_pyset_insert in Hx as [Hx|[-> _]]; [by apply Hcs | done].
Qed.

Lemma kwh_activate
    (propagate : nat → option position → option PartialInstanciation →
                 option ReteToken → M unit)
    (self : nat) (p : PartialInstanciation) :
  well_hashed (ItemPInst p) →
  (∀ name source w, keeps_well_hashed (propagate name source (Some p) w)) →
  keeps_well_hashed (_activate propagate self p).
Proof.
  intros Hp Hprop. unfold _activate.
  apply kwh_bind_any; [apply kwh_get_node|]. intros node.
  apply kwh_bind_any.
  - apply kwh_forM. intros [successor position]. unfold activate_memory.
    apply kwh_bind_any; [by apply kwh_memory_addToken|]. intros _.
    apply kwh_bind_any; [apply kwh_get_node|]. intros node'.
    destruct (_ || _); [|apply kwh_ret].
    destruct position; apply Hprop.
  - intros _. case_bool_decide; [by apply kwh_fireConsequent | apply kwh_ret].
Qed.

Lemma kwh_activate_matches (activate : nat → PartialInstanciation → M unit)
    (self : nat) (matches : list item) :
  Forall well_hashed matches →
  (∀ p, well_hashed (ItemPInst p) → keeps_well_hashed (activate self p)) →
  keeps_well_hashed (activate_matches activate self matches).
Proof.
  intros Hmatches Hact. unfold activate_matches.
  induction matches as [|x matches IH]; simpl; [apply kwh_ret|].
  apply Forall_cons in Hmatches as [Hx Hmatches].
  apply kwh_bind_any; [|intros _; by apply IH].
  destruct x as [t|p]; [apply kwh_ret | by apply Hact].
Qed.

Lemma keeps_well_hashed_propagate (fuel : nat) :
  ∀ (self : nat) (source : option position)
    (partialInst : option PartialInstanciation) (wme : option ReteToken),
    (∀ p, partialInst = Some p → well_hashed (ItemPInst p)) →
    keeps_well_hashed (propagate fuel self source partialInst wme).
Proof.
  induction fuel as [|fuel IH]; intros self source partialInst wme Hpi.
  - intros st a st'. done.
  - assert (∀ p, well_hashed (ItemPInst p) →
                 keeps_well_hashed (_activate (propagate fuel) self p)) as Hact.
    { intros p Hp. apply kwh_activate; [done|]. intros name src w.
      apply IH. by intros q [= <-]. }
    assert (∀ w, keeps_well_hashed
                   (newP ← lift (singleToken w); _activate (propagate fuel) self newP))
      as Hsingle.
    { intros w. apply kwh_bind_lift. intros newP HnewP. apply Hact.
      by apply (well_hashed_init [w] (bindingDict w)). }
    cbn [propagate].
    apply kwh_bind_any; [apply kwh_get_node|]. intros node.
    destruct (aPassThru node).
    + case_bool_decide.
      * apply kwh_bind_any; [apply kwh_lift|]. intros _.
        destruct wme as [w|]; [apply Hsingle | apply kwh_lift].
      * case_bool_decide; [|apply kwh_ret].
        destruct wme as [w|]; [apply Hsingle|].
        destruct partialInst as [p|]; [|apply kwh_ret]. apply Hact. by apply Hpi.
    + destruct source as [[|]|].
      * destruct partialInst as [p|]; [|apply kwh_lift].
        specialize (Hpi p eq_refl). apply kwh_bind_lift. intros matches Hmatches.
        apply kwh_activate_matches; [|done].
        destruct (fedByBuiltin node).
        -- by eapply well_hashed_left_matches_builtin.
        -- destruct Hpi as [Htokens _]. by eapply well_hashed_left_matches.
      * destruct wme as [w|]; apply kwh_bind_lift; intros matches Hmatches;
          (apply kwh_activate_matches; [|done]).
        -- by eapply well_hashed_right_matches.
        -- by eapply well_hashed_right_matches_no_wme.
      * destruct partialInst as [p|]; [|apply kwh_ret].
        apply kwh_forM. intros binding. unfold signal_binding.
        apply kwh_bind_any; [apply kwh_get_node|]. intros node'.
        apply kwh_bind_any; [apply kwh_lift|]. intros commonVals.
        apply kwh_bind_any; [apply kwh_lift|]. intros both.
        case_bool_decide as Hjoined; [|apply kwh_ret].
        apply kwh_bind_lift. intros newP HnewP. apply Hact.
        by eapply well_hashed_init.
Qed.
End keeps_well_hashed.

(** X18: every instanciation that propagation puts into a memory or into the
    conflict set has tokens and carries the hash of its token set.  If that
    holds of the network before and of the instanciation handed to
    [propagate], it holds of the network afterwards. *)
Theorem propagate_keeps_well_hashed `{PyHash} (fuel self : nat) (st st' : state)
    (source : option position) (partialInst : option PartialInstanciation)
    (wme : option ReteToken) :
  state_well_hashed st →
  (∀ p, partialInst = Some p → well_hashed (ItemPInst p)) →
  propagate fuel self source partialInst wme st = Ok (tt, st') →
  state_well_hashed st'.
Proof.
  intros Hst Hpi Hrun. by eapply keeps_well_hashed_propagate.
Qed.

Lemma docstring_network_well_hashed :
  state_well_hashed (H := distinct_hash) docstring_network.
Proof.
  split; [|intros x Hx; by apply elem_of_nil in Hx].
  intros name node pos x Hnode Hx.
  assert (mem_items (memories node pos) = [] ∧
          ∀ key, substitution_get (memories node pos) key = []) as [Hitems Hkeys].
  { unfold docstring_network in Hnode. cbn [nodes] in Hnode.
    apply lookup_insert_Some in Hnode as [[_ <-]|[_ Hnode]]; [by destruct pos|].
    apply lookup_insert_Some in Hnode as [[_ <-]|[_ Hnode]]; [by destruct pos|].
    apply lookup_singleton_Some in Hnode as [_ <-]. by destruct pos. }
  destruct Hx as [Hx|[key Hx]].
  - rewrite Hitems in Hx. by apply elem_of_nil in Hx.
  - rewrite Hkeys in Hx. by apply elem_of_nil in Hx.
Qed.

Lemma feed_docstring_facts_run :
  feed_docstring_facts docstring_network = Ok (tt, docstring_network_fed).
Proof.
  unfold docstring_network_fed.
  destruct (is_ok_true (feed_docstring_facts docstring_network)) as [[[] st] Hrun];
    [vm_compute; reflexivity|].
  by rewrite Hrun.
Qed.

Lemma docstring_network_fed_well_hashed :
  state_well_hashed (H := distinct_hash) docstring_network_fed.
Proof.
  assert (keeps_well_hashed (H := distinct_hash) feed_docstring_facts) as Hfeed.
  { unfold feed_docstring_facts. apply kwh_bind_any.
    - apply kwh_forM. intros [[pattern successor] fact]. unfold AlphaNode_activate.
      apply kwh_bind_any; [by apply kwh_memory_addToken|]. intros _.
      by apply keeps_well_hashed_propagate.
    - intros _. by apply kwh_memory_addToken. }
  eapply Hfeed; [apply docstring_network_well_hashed | apply feed_docstring_facts_run].
Qed.

Lemma propagate_keeps_well_hashed_witness :
  ∃ st',
    propagate (H := distinct_hash) 2 2 (Some LEFT_MEMORY) (Some inst_Foo) None
              docstring_network_fed = Ok (tt, st') ∧
    length (conflictSet (network st')) = 2%nat ∧
    state_well_hashed (H := distinct_hash) st'.
Proof.
  destruct (run_with
              (propagate (H := distinct_hash) 2 2 (Some LEFT_MEMORY) (Some inst_Foo) None
                         docstring_network_fed)
              (fun st => bool_decide (length (conflictSet (network st)) = 2%nat)))
    as ([] & st' & Hrun & Hcs); [vm_compute; reflexivity|].
  apply bool_decide_eq_true in Hcs.
  exists st'. split_and!; [exact Hrun | exact Hcs |].
  eapply (propagate_keeps_well_hashed (H := distinct_hash) 2 2 docstring_network_fed st');
    [apply docstring_network_fed_well_hashed | | exact Hrun].
  intros p [= <-]. split; [done | by_compute].
Defined.

(** ** What a right activation joins *)

Lemma foldM_ext {A B : Type} (f f' : B → A → Result B) (l : list A) (b : B) :
  (∀ b x, f b x = f' b x) → foldM f l b = foldM f' l b.
Proof.
  intros Hf. revert b. induction l as [|x l IH]; intros b; simpl; [done|].
  rewrite Hf. destruct (f' b x); simpl; [apply IH | done].
Qed.

Section joins.
Context `{PyHash}.

Lemma foldM_pyset_add {A : Type} (g : A → Result item) (l : list A)
    (ms0 ms : list item) :
  foldM (fun ms x => y ← g x; pyset_add y ms) l ms0 = Ok ms →
  (∀ m, m ∈ ms → m ∈ ms0 ∨ ∃ x, x ∈ l ∧ g x = Ok m) ∧
  (∀ x, x ∈ l → ∃ m, g x = Ok m ∧ pyset_mem m ms = true) ∧
  (∀ m, pyset_mem m ms0 = true → pyset_mem m ms = true).
Proof.
  revert ms0. induction l as [|x l IH]; intros ms0; cbn [foldM].
  - intros [= <-]. split_and!; [auto | | done].
    intros x Hx. by apply elem_of_nil in Hx.
  - destruct (g x) as [y|e] eqn:Hgx; [|done]. cbn [mbind Result_bind].
    destruct (pyset_add y ms0) as [ms1|e] eqn:Hadd; [|done].
    cbn [mbind Result_bind]. intros Hrest.
    destruct (IH ms1 Hrest) as (Hsound & Hcomplete & Hmono).
    apply pyset_add_inv in Hadd as [-> [h Hh]].
    split_and!.
    + intros m [Hm|(x' & Hx' & Hm)]%Hsound.
      * apply elem_of_pyset_insert in Hm as [?|[-> _]]; [by left|].
        right. exists x. split; [left | done].
      * right. exists x'. split; [by right | done].
    + intros x' [->|Hx']%elem_of_cons.
      * exists y. split; [done|]. apply Hmono. by eapply pyset_insert_mem.
      * by apply Hcomplete.
    + intros m Hm. apply Hmono. by apply pyset_mem_insert_mono.
Qed.

End joins.



(** ** What a left activation joins *)

Lemma foldM_nested {A B C : Type} (k : A → list B) (h : A → C → B → Result C)
    (l : list A) (c : C) :
  foldM (fun c x => foldM (h x) (k x) c) l c
  = foldM (fun c (xy : A * B) => h xy.1 c xy.2)
          (l ≫= fun x => (fun y => (x, y)) <$> k x) c.
Proof.
  revert c. induction l as [|x l IH]; intros c; [done|].
  cbn [foldM mbind list_bind]. rewrite foldM_app.
  assert (∀ c', foldM (h x) (k x) c'
                = foldM (fun c (xy : A * B) => h xy.1 c xy.2)
                        ((fun y => (x, y)) <$> k x) c') as Hinner.
  { induction (k x) as [|y ys IHy]; intros c'; [done|]. simpl.
    destruct (h x c' y); simpl; [apply IHy | done]. }
  rewrite Hinner.
  destruct (foldM _ ((fun y => (x, y)) <$> k x) c) as [c1|e]; simpl; [apply IH | done].
Qed.

Section left_joins.
Context `{PyHash}.

Lemma foldM_collect {A : Type} (f : list item → A → Result (list item))
    (R : A → item → Prop) (C : A → Prop) (l : list A) (ms0 ms : list item) :
  (∀ ms x ms', f ms x = Ok ms' →
     (∀ m, m ∈ ms' → m ∈ ms ∨ R x m) ∧
     (∀ m, pyset_mem m ms = true → pyset_mem m ms' = true) ∧
     (C x → ∃ m, R x m ∧ pyset_mem m ms' = true)) →
  foldM f l ms0 = Ok ms →
  (∀ m, m ∈ ms → m ∈ ms0 ∨ ∃ x, x ∈ l ∧ R x m) ∧
  (∀ m, pyset_mem m ms0 = true → pyset_mem m ms = true) ∧
  (∀ x, x ∈ l → C x → ∃ m, R x m ∧ pyset_mem m ms = true).
Proof.
  intros Hstep. revert ms0. induction l as [|x l IH]; intros ms0; cbn [foldM].
  - intros [= <-]. split_and!; [auto | done |].
    intros x Hx. by apply elem_of_nil in Hx.
  - destruct (f ms0 x) as [ms1|e] eqn:Hf; [|done]. cbn [mbind Result_bind].
    intros Hrest. destruct (Hstep _ _ _ Hf) as (Hsound1 & Hmono1 & Hcomplete1).
    destruct (IH ms1 Hrest) as (Hsound & Hmono & Hcomplete).
    split_and!.
    + intros m [Hm|(x' & Hx' & Hm)]%Hsound.
      * apply Hsound1 in Hm as [?|?]; [by left|].
        right. exists x. split; [left | done].
      * right. exists x'. split; [by right | done].
    + intros m Hm. by apply Hmono, Hmono1.
    + intros x' [->|Hx']%elem_of_cons HC.
      * destruct (Hcomplete1 HC) as (m & HR & Hmem). exists m. split; [done|].
        by apply Hmono.
      * by apply Hcomplete.
Qed.

Lemma left_join_instanciation_opt (self : BetaNode)
    (partialInst rightWME : PartialInstanciation) (commonDict : pydict) :
  ∃ o : Result (option item),
    (∀ matches,
        left_join_instanciation self partialInst rightWME commonDict matches
        = (o ← o; match o with Some y => pyset_add y matches | None => Ok matches end)) ∧
    ∀ m, o = Ok (Some m) →
         ∃ q, m = ItemPInst q ∧
              tokens q = set_of_list (set_union (tokens partialInst) (tokens rightWME)).
Proof.
  unfold left_join_instanciation.
  destruct (PartialInstanciation_init_spec
              (set_union (tokens partialInst) (tokens rightWME)) commonDict)
    as (newP & -> & _ & Htokens & _).
  cbn [mbind Result_bind]. case_bool_decide.
  - destruct (foldl _ _ _) as [[|] consVars].
    + exists (Ok None). split; [done|]. done.
    + exists (Ok (Some (ItemPInst newP))). split; [done|].
      intros m [= <-]. by exists newP.
  - exists (Ok (Some (ItemPInst newP))). split; [done|].
    intros m [= <-]. by exists newP.
Qed.
End left_joins.

Section left_joins_results.
Context `{PyHash}.

End left_joins_results.


